(* ===================================================================== *)
(*  video/video_send_stream.cc : the send-side stream orchestrator       *)
(*                                                                       *)
(*  A shallow embedding of internal::VideoSendStreamImpl and of its      *)
(*  CheckEncoderActivityTask, with the properties of the bitrate         *)
(*  feedback loop, the protection configurator, the encoder-activity     *)
(*  watchdog and the packet-feedback tracker.                            *)
(*                                                                       *)
(*  Conventions                                                          *)
(*  - Machine integers are Z with the wrap-around written out:           *)
(*    uint32_t, uint16_t, int (32 bit, two's complement) and size_t      *)
(*    (64 bit, the LP64 targets the code is built for).                  *)
(*  - The object is a record; every member function is a function from   *)
(*    the record to the record.  Calls into collaborators that the file  *)
(*    only reaches through pointers (bitrate allocator, encoder,         *)
(*    statistics proxy, task queue) are appended to [calls_]; RTC_LOG    *)
(*    lines are appended to [log_].                                      *)
(*  - RTC_DCHECK is compiled out (release build); TRACE_EVENT macros     *)
(*    are not modelled.                                                  *)
(*  - A division whose divisor is zero is undefined in C++: the          *)
(*    function returns None there.                                       *)
(*  - Indexing a vector past its end and signed overflow are undefined  *)
(*    as well: None.                                                     *)
(*  - DeliverRtcp, SignalNetworkState, the recording of encoded frames   *)
(*    and the VideoSendStream wrapper that posts to the worker queue     *)
(*    are not embedded.                                                  *)
(* ===================================================================== *)

From Stdlib Require Import ZArith Lia.
From stdpp Require Import base gmap strings list.

Local Open Scope string_scope.
Local Open Scope Z_scope.
Local Open Scope list_scope.

(* --------------------------------------------------------------------- *)
(*  Machine integers                                                     *)
(* --------------------------------------------------------------------- *)

Module Int.

Definition to_uint16 (z : Z) : Z := z mod 2 ^ 16.
Definition to_uint32 (z : Z) : Z := z mod 2 ^ 32.
Definition to_size_t (z : Z) : Z := z mod 2 ^ 64.
(* Conversion to int of a value that does not fit: modular. *)
Definition to_int (z : Z) : Z := (z + 2 ^ 31) mod 2 ^ 32 - 2 ^ 31.

Definition is_uint16 (z : Z) : Prop := 0 <= z < 2 ^ 16.
Definition is_uint32 (z : Z) : Prop := 0 <= z < 2 ^ 32.
Definition is_size_t (z : Z) : Prop := 0 <= z < 2 ^ 64.

End Int.
Import Int.

(* --------------------------------------------------------------------- *)
(*  File-level constants                                                 *)
(* --------------------------------------------------------------------- *)

Definition kMinSendSidePacketHistorySize : Z := 600.
Definition kSendSideSeqNumSetMaxSize : Z := 5500.
Definition kPathMTU : Z := 1500.
Definition kEncoderTimeOutMs : Z := 2000.

(* --------------------------------------------------------------------- *)
(*  Free functions of the anonymous namespace                            *)
(* --------------------------------------------------------------------- *)

(* uint32_t CalculateOverheadRateBps(int, size_t, uint32_t): the product is
   formed in size_t (the int operand is converted) and cast to uint32_t. *)
Definition CalculateOverheadRateBps
    (packets_per_second overhead_bytes_per_packet max_overhead_bps : Z) : Z :=
  let overhead_bps :=
    to_uint32
      (to_size_t (to_size_t (8 * overhead_bytes_per_packet)
                  * to_size_t packets_per_second)) in
  Z.min overhead_bps max_overhead_bps.

(* int CalculatePacketRate(uint32_t, size_t): ceiling of
   bitrate_bps / packet_size_bits, in size_t arithmetic. *)
Definition CalculatePacketRate (bitrate_bps packet_size_bytes : Z) : option Z :=
  let packet_size_bits := to_size_t (8 * packet_size_bytes) in
  if decide (packet_size_bits = 0) then None
  else Some (to_int (to_size_t (to_size_t (bitrate_bps + packet_size_bits) - 1)
                     / packet_size_bits)).

(* --------------------------------------------------------------------- *)
(*  Data model                                                           *)
(* --------------------------------------------------------------------- *)

(** Modelled from the spec: the codec enumeration and
    PayloadStringToCodecType live in common_types, which is not part of the
    sources at hand.  Only VP8 and VP9 are told apart by this file; the
    mapping from payload names is a parameter of the model. *)
Inductive VideoCodecType :=
  | kVideoCodecVP8
  | kVideoCodecVP9
  | kVideoCodecH264
  | kVideoCodecGeneric.

#[global] Instance VideoCodecType_eq_dec : EqDecision VideoCodecType.
Proof. solve_decision. Defined.

(* VideoSendStream::Config, the fields this file reads. *)
Record Config := {
  rtp_ssrcs : list Z;
  rtp_rtx_ssrcs : list Z;
  rtp_max_packet_size : Z;                         (* size_t *)
  rtp_nack_rtp_history_ms : Z;                     (* int *)
  rtp_ulpfec_red_payload_type : Z;                 (* int, -1 when unset *)
  rtp_ulpfec_ulpfec_payload_type : Z;              (* int, -1 when unset *)
  rtp_flexfec_payload_type : Z;                    (* int, -1 when unset *)
  rtp_flexfec_ssrc : Z;                            (* uint32_t *)
  rtp_flexfec_protected_media_ssrcs : list Z;
  encoder_settings_payload_name : string;
  encoder_settings_payload_type : Z;
  suspend_below_min_bitrate : bool;
  track_id : string
}.

(* What MaybeCreateFlexfecSender hands to the FlexfecSender constructor. *)
Record FlexfecSender := {
  flexfec_payload_type : Z;
  flexfec_ssrc : Z;
  flexfec_protected_media_ssrc : Z
}.

(* One RTP/RTCP module, as far as this file configures it.  A field is
   None until the corresponding setter has been called. *)
Record RtpRtcp := {
  module_flexfec : bool;                    (* configuration.flexfec_sender *)
  module_store_packets : option (bool * Z); (* SetStorePacketsStatus *)
  module_ulpfec_config : option (Z * Z);    (* SetUlpfecConfig(red, ulpfec) *)
  module_max_rtp_packet_size : option Z     (* SetMaxRtpPacketSize *)
}.

Definition SetStorePacketsStatus (enable : bool) (number_to_store : Z)
    (m : RtpRtcp) : RtpRtcp :=
  {| module_flexfec := module_flexfec m;
     module_store_packets := Some (enable, number_to_store);
     module_ulpfec_config := module_ulpfec_config m;
     module_max_rtp_packet_size := module_max_rtp_packet_size m |}.

Definition SetUlpfecConfig (red_payload_type ulpfec_payload_type : Z)
    (m : RtpRtcp) : RtpRtcp :=
  {| module_flexfec := module_flexfec m;
     module_store_packets := module_store_packets m;
     module_ulpfec_config := Some (red_payload_type, ulpfec_payload_type);
     module_max_rtp_packet_size := module_max_rtp_packet_size m |}.

Definition SetMaxRtpPacketSize (size : Z) (m : RtpRtcp) : RtpRtcp :=
  {| module_flexfec := module_flexfec m;
     module_store_packets := module_store_packets m;
     module_ulpfec_config := module_ulpfec_config m;
     module_max_rtp_packet_size := Some size |}.

(** Modelled from the spec: PacketFeedback is declared in the RTP/RTCP
    module headers, which are not part of the sources at hand; a report
    carries the sequence number and the arrival time, the latter equal to
    the constant kNotReceived when the packet did not arrive. *)
Record PacketFeedback := {
  arrival_time_ms : Z;        (* int64_t *)
  sequence_number : Z         (* uint16_t *)
}.

(** Modelled from the spec: PayloadRouter is not part of the sources at
    hand.  The stream is Started exactly when the router is active;
    SetActive stores the flag and IsActive reads it. *)
Module PayloadRouter.
Record t := { active_ : bool }.
Definition IsActive (r : t) : bool := active_ r.
Definition SetActive (active : bool) (_ : t) : t := {| active_ := active |}.
End PayloadRouter.

(* The encoder-activity watchdog task. *)
Record CheckEncoderActivityTask := {
  activity_ : Z;            (* volatile int *)
  send_stream_ : bool;      (* the weak pointer still refers to the stream *)
  timed_out_ : bool
}.

(* The two notifications the watchdog sends to the stream. *)
Inductive Signal := EncoderTimedOut | EncoderActive.

Inductive LoggingSeverity := LS_INFO | LS_WARNING | LS_ERROR.

(* Closures handed to the worker queue by the re-dispatching entry points. *)
Inductive PostedTask :=
  | Post_OnPacketAdded (ssrc seq_num : Z)
  | Post_OnPacketFeedbackVector (packet_feedback_vector : list PacketFeedback).

(* Calls into the collaborators, in the order they are made.  The bitrate
   priority, a double handed through unchanged, is left out of AddObserver. *)
Inductive Call :=
  | BitrateAllocator_AddObserver
      (min_bitrate_bps max_bitrate_bps pad_up_bitrate_bps : Z)
      (enforce_min_bitrate : bool) (track : string)
  | BitrateAllocator_RemoveObserver
  | VideoStreamEncoder_OnBitrateUpdated (bitrate_bps fraction_loss rtt : Z)
  | VideoStreamEncoder_SendKeyFrame
  | SendStatisticsProxy_OnSetEncoderTargetRate (bitrate_bps : Z)
  | TaskQueue_PostTask (task : PostedTask)
  | TaskQueue_PostDelayedTask_CheckEncoderActivity (milliseconds : Z).

(* The FEC controller is an abstract interface (FecController); the stream
   owns one and threads it through the calls. *)
Class FecController (F : Type) := {
  SetProtectionMethod : bool -> bool -> F -> F;
  (* UpdateFecRates(estimated_bitrate_bps, actual_framerate_fps,
                    fraction_lost, loss_mask_vector, round_trip_time_ms) *)
  UpdateFecRates : Z -> Z -> Z -> list bool -> Z -> F -> Z * F
}.

Section Object.
Context {F : Type}.

Record VideoSendStreamImpl := {
  send_side_bwe_with_overhead_ : bool;
  config_ : Config;
  fec_controller_ : F;
  check_encoder_activity_task_ : option CheckEncoderActivityTask;
  flexfec_sender_ : option FlexfecSender;
  max_padding_bitrate_ : Z;                  (* int *)
  encoder_min_bitrate_bps_ : Z;              (* int *)
  encoder_max_bitrate_bps_ : Z;              (* uint32_t *)
  encoder_target_rate_bps_ : Z;              (* uint32_t *)
  rtp_rtcp_modules_ : list RtpRtcp;
  payload_router_ : PayloadRouter.t;
  overhead_bytes_per_packet_ : Z;            (* size_t *)
  transport_overhead_bytes_per_packet_ : Z;  (* size_t *)
  feedback_packet_seq_num_set_ : gset Z;     (* unordered_set<uint16_t> *)
  loss_mask_vector_ : list bool;
  (* collaborators *)
  stats_send_frame_rate_ : Z;      (* stats_proxy_->GetSendFrameRate() *)
  calls_ : list Call;
  log_ : list (LoggingSeverity * string)
}.
End Object.
Arguments VideoSendStreamImpl : clear implicits.

(* Assignments to single members. *)
Section Assign.
Context {F : Type}.
Implicit Type st : VideoSendStreamImpl F.

Definition set_fec_controller_ (v : F) st : VideoSendStreamImpl F :=
  {| send_side_bwe_with_overhead_ := send_side_bwe_with_overhead_ st;
     config_ := config_ st; fec_controller_ := v;
     check_encoder_activity_task_ := check_encoder_activity_task_ st;
     flexfec_sender_ := flexfec_sender_ st;
     max_padding_bitrate_ := max_padding_bitrate_ st;
     encoder_min_bitrate_bps_ := encoder_min_bitrate_bps_ st;
     encoder_max_bitrate_bps_ := encoder_max_bitrate_bps_ st;
     encoder_target_rate_bps_ := encoder_target_rate_bps_ st;
     rtp_rtcp_modules_ := rtp_rtcp_modules_ st;
     payload_router_ := payload_router_ st;
     overhead_bytes_per_packet_ := overhead_bytes_per_packet_ st;
     transport_overhead_bytes_per_packet_ := transport_overhead_bytes_per_packet_ st;
     feedback_packet_seq_num_set_ := feedback_packet_seq_num_set_ st;
     loss_mask_vector_ := loss_mask_vector_ st;
     stats_send_frame_rate_ := stats_send_frame_rate_ st; calls_ := calls_ st;
     log_ := log_ st |}.

Definition set_check_encoder_activity_task_ (v : option CheckEncoderActivityTask) st : VideoSendStreamImpl F :=
  {| send_side_bwe_with_overhead_ := send_side_bwe_with_overhead_ st;
     config_ := config_ st; fec_controller_ := fec_controller_ st;
     check_encoder_activity_task_ := v; flexfec_sender_ := flexfec_sender_ st;
     max_padding_bitrate_ := max_padding_bitrate_ st;
     encoder_min_bitrate_bps_ := encoder_min_bitrate_bps_ st;
     encoder_max_bitrate_bps_ := encoder_max_bitrate_bps_ st;
     encoder_target_rate_bps_ := encoder_target_rate_bps_ st;
     rtp_rtcp_modules_ := rtp_rtcp_modules_ st;
     payload_router_ := payload_router_ st;
     overhead_bytes_per_packet_ := overhead_bytes_per_packet_ st;
     transport_overhead_bytes_per_packet_ := transport_overhead_bytes_per_packet_ st;
     feedback_packet_seq_num_set_ := feedback_packet_seq_num_set_ st;
     loss_mask_vector_ := loss_mask_vector_ st;
     stats_send_frame_rate_ := stats_send_frame_rate_ st; calls_ := calls_ st;
     log_ := log_ st |}.

Definition set_encoder_target_rate_bps_ (v : Z) st : VideoSendStreamImpl F :=
  {| send_side_bwe_with_overhead_ := send_side_bwe_with_overhead_ st;
     config_ := config_ st; fec_controller_ := fec_controller_ st;
     check_encoder_activity_task_ := check_encoder_activity_task_ st;
     flexfec_sender_ := flexfec_sender_ st;
     max_padding_bitrate_ := max_padding_bitrate_ st;
     encoder_min_bitrate_bps_ := encoder_min_bitrate_bps_ st;
     encoder_max_bitrate_bps_ := encoder_max_bitrate_bps_ st;
     encoder_target_rate_bps_ := v; rtp_rtcp_modules_ := rtp_rtcp_modules_ st;
     payload_router_ := payload_router_ st;
     overhead_bytes_per_packet_ := overhead_bytes_per_packet_ st;
     transport_overhead_bytes_per_packet_ := transport_overhead_bytes_per_packet_ st;
     feedback_packet_seq_num_set_ := feedback_packet_seq_num_set_ st;
     loss_mask_vector_ := loss_mask_vector_ st;
     stats_send_frame_rate_ := stats_send_frame_rate_ st; calls_ := calls_ st;
     log_ := log_ st |}.

Definition set_rtp_rtcp_modules_ (v : list RtpRtcp) st : VideoSendStreamImpl F :=
  {| send_side_bwe_with_overhead_ := send_side_bwe_with_overhead_ st;
     config_ := config_ st; fec_controller_ := fec_controller_ st;
     check_encoder_activity_task_ := check_encoder_activity_task_ st;
     flexfec_sender_ := flexfec_sender_ st;
     max_padding_bitrate_ := max_padding_bitrate_ st;
     encoder_min_bitrate_bps_ := encoder_min_bitrate_bps_ st;
     encoder_max_bitrate_bps_ := encoder_max_bitrate_bps_ st;
     encoder_target_rate_bps_ := encoder_target_rate_bps_ st;
     rtp_rtcp_modules_ := v; payload_router_ := payload_router_ st;
     overhead_bytes_per_packet_ := overhead_bytes_per_packet_ st;
     transport_overhead_bytes_per_packet_ := transport_overhead_bytes_per_packet_ st;
     feedback_packet_seq_num_set_ := feedback_packet_seq_num_set_ st;
     loss_mask_vector_ := loss_mask_vector_ st;
     stats_send_frame_rate_ := stats_send_frame_rate_ st; calls_ := calls_ st;
     log_ := log_ st |}.

Definition set_payload_router_ (v : PayloadRouter.t) st : VideoSendStreamImpl F :=
  {| send_side_bwe_with_overhead_ := send_side_bwe_with_overhead_ st;
     config_ := config_ st; fec_controller_ := fec_controller_ st;
     check_encoder_activity_task_ := check_encoder_activity_task_ st;
     flexfec_sender_ := flexfec_sender_ st;
     max_padding_bitrate_ := max_padding_bitrate_ st;
     encoder_min_bitrate_bps_ := encoder_min_bitrate_bps_ st;
     encoder_max_bitrate_bps_ := encoder_max_bitrate_bps_ st;
     encoder_target_rate_bps_ := encoder_target_rate_bps_ st;
     rtp_rtcp_modules_ := rtp_rtcp_modules_ st; payload_router_ := v;
     overhead_bytes_per_packet_ := overhead_bytes_per_packet_ st;
     transport_overhead_bytes_per_packet_ := transport_overhead_bytes_per_packet_ st;
     feedback_packet_seq_num_set_ := feedback_packet_seq_num_set_ st;
     loss_mask_vector_ := loss_mask_vector_ st;
     stats_send_frame_rate_ := stats_send_frame_rate_ st; calls_ := calls_ st;
     log_ := log_ st |}.

Definition set_overhead_bytes_per_packet_ (v : Z) st : VideoSendStreamImpl F :=
  {| send_side_bwe_with_overhead_ := send_side_bwe_with_overhead_ st;
     config_ := config_ st; fec_controller_ := fec_controller_ st;
     check_encoder_activity_task_ := check_encoder_activity_task_ st;
     flexfec_sender_ := flexfec_sender_ st;
     max_padding_bitrate_ := max_padding_bitrate_ st;
     encoder_min_bitrate_bps_ := encoder_min_bitrate_bps_ st;
     encoder_max_bitrate_bps_ := encoder_max_bitrate_bps_ st;
     encoder_target_rate_bps_ := encoder_target_rate_bps_ st;
     rtp_rtcp_modules_ := rtp_rtcp_modules_ st;
     payload_router_ := payload_router_ st; overhead_bytes_per_packet_ := v;
     transport_overhead_bytes_per_packet_ := transport_overhead_bytes_per_packet_ st;
     feedback_packet_seq_num_set_ := feedback_packet_seq_num_set_ st;
     loss_mask_vector_ := loss_mask_vector_ st;
     stats_send_frame_rate_ := stats_send_frame_rate_ st; calls_ := calls_ st;
     log_ := log_ st |}.

Definition set_transport_overhead_bytes_per_packet_ (v : Z) st : VideoSendStreamImpl F :=
  {| send_side_bwe_with_overhead_ := send_side_bwe_with_overhead_ st;
     config_ := config_ st; fec_controller_ := fec_controller_ st;
     check_encoder_activity_task_ := check_encoder_activity_task_ st;
     flexfec_sender_ := flexfec_sender_ st;
     max_padding_bitrate_ := max_padding_bitrate_ st;
     encoder_min_bitrate_bps_ := encoder_min_bitrate_bps_ st;
     encoder_max_bitrate_bps_ := encoder_max_bitrate_bps_ st;
     encoder_target_rate_bps_ := encoder_target_rate_bps_ st;
     rtp_rtcp_modules_ := rtp_rtcp_modules_ st;
     payload_router_ := payload_router_ st;
     overhead_bytes_per_packet_ := overhead_bytes_per_packet_ st;
     transport_overhead_bytes_per_packet_ := v;
     feedback_packet_seq_num_set_ := feedback_packet_seq_num_set_ st;
     loss_mask_vector_ := loss_mask_vector_ st;
     stats_send_frame_rate_ := stats_send_frame_rate_ st; calls_ := calls_ st;
     log_ := log_ st |}.

Definition set_feedback_packet_seq_num_set_ (v : gset Z) st : VideoSendStreamImpl F :=
  {| send_side_bwe_with_overhead_ := send_side_bwe_with_overhead_ st;
     config_ := config_ st; fec_controller_ := fec_controller_ st;
     check_encoder_activity_task_ := check_encoder_activity_task_ st;
     flexfec_sender_ := flexfec_sender_ st;
     max_padding_bitrate_ := max_padding_bitrate_ st;
     encoder_min_bitrate_bps_ := encoder_min_bitrate_bps_ st;
     encoder_max_bitrate_bps_ := encoder_max_bitrate_bps_ st;
     encoder_target_rate_bps_ := encoder_target_rate_bps_ st;
     rtp_rtcp_modules_ := rtp_rtcp_modules_ st;
     payload_router_ := payload_router_ st;
     overhead_bytes_per_packet_ := overhead_bytes_per_packet_ st;
     transport_overhead_bytes_per_packet_ := transport_overhead_bytes_per_packet_ st;
     feedback_packet_seq_num_set_ := v;
     loss_mask_vector_ := loss_mask_vector_ st;
     stats_send_frame_rate_ := stats_send_frame_rate_ st; calls_ := calls_ st;
     log_ := log_ st |}.

Definition set_loss_mask_vector_ (v : list bool) st : VideoSendStreamImpl F :=
  {| send_side_bwe_with_overhead_ := send_side_bwe_with_overhead_ st;
     config_ := config_ st; fec_controller_ := fec_controller_ st;
     check_encoder_activity_task_ := check_encoder_activity_task_ st;
     flexfec_sender_ := flexfec_sender_ st;
     max_padding_bitrate_ := max_padding_bitrate_ st;
     encoder_min_bitrate_bps_ := encoder_min_bitrate_bps_ st;
     encoder_max_bitrate_bps_ := encoder_max_bitrate_bps_ st;
     encoder_target_rate_bps_ := encoder_target_rate_bps_ st;
     rtp_rtcp_modules_ := rtp_rtcp_modules_ st;
     payload_router_ := payload_router_ st;
     overhead_bytes_per_packet_ := overhead_bytes_per_packet_ st;
     transport_overhead_bytes_per_packet_ := transport_overhead_bytes_per_packet_ st;
     feedback_packet_seq_num_set_ := feedback_packet_seq_num_set_ st;
     loss_mask_vector_ := v;
     stats_send_frame_rate_ := stats_send_frame_rate_ st; calls_ := calls_ st;
     log_ := log_ st |}.

Definition set_calls_ (v : list Call) st : VideoSendStreamImpl F :=
  {| send_side_bwe_with_overhead_ := send_side_bwe_with_overhead_ st;
     config_ := config_ st; fec_controller_ := fec_controller_ st;
     check_encoder_activity_task_ := check_encoder_activity_task_ st;
     flexfec_sender_ := flexfec_sender_ st;
     max_padding_bitrate_ := max_padding_bitrate_ st;
     encoder_min_bitrate_bps_ := encoder_min_bitrate_bps_ st;
     encoder_max_bitrate_bps_ := encoder_max_bitrate_bps_ st;
     encoder_target_rate_bps_ := encoder_target_rate_bps_ st;
     rtp_rtcp_modules_ := rtp_rtcp_modules_ st;
     payload_router_ := payload_router_ st;
     overhead_bytes_per_packet_ := overhead_bytes_per_packet_ st;
     transport_overhead_bytes_per_packet_ := transport_overhead_bytes_per_packet_ st;
     feedback_packet_seq_num_set_ := feedback_packet_seq_num_set_ st;
     loss_mask_vector_ := loss_mask_vector_ st;
     stats_send_frame_rate_ := stats_send_frame_rate_ st; calls_ := v;
     log_ := log_ st |}.

Definition set_log_ (v : list (LoggingSeverity * string)) st : VideoSendStreamImpl F :=
  {| send_side_bwe_with_overhead_ := send_side_bwe_with_overhead_ st;
     config_ := config_ st; fec_controller_ := fec_controller_ st;
     check_encoder_activity_task_ := check_encoder_activity_task_ st;
     flexfec_sender_ := flexfec_sender_ st;
     max_padding_bitrate_ := max_padding_bitrate_ st;
     encoder_min_bitrate_bps_ := encoder_min_bitrate_bps_ st;
     encoder_max_bitrate_bps_ := encoder_max_bitrate_bps_ st;
     encoder_target_rate_bps_ := encoder_target_rate_bps_ st;
     rtp_rtcp_modules_ := rtp_rtcp_modules_ st;
     payload_router_ := payload_router_ st;
     overhead_bytes_per_packet_ := overhead_bytes_per_packet_ st;
     transport_overhead_bytes_per_packet_ := transport_overhead_bytes_per_packet_ st;
     feedback_packet_seq_num_set_ := feedback_packet_seq_num_set_ st;
     loss_mask_vector_ := loss_mask_vector_ st;
     stats_send_frame_rate_ := stats_send_frame_rate_ st; calls_ := calls_ st;
     log_ := v |}.

(* RTC_LOG(severity) << message, and a call into a collaborator. *)
Definition RTC_LOG (severity : LoggingSeverity) (message : string) st :=
  set_log_ (log_ st ++ [(severity, message)]) st.

Definition call (c : Call) st := set_calls_ (calls_ st ++ [c]) st.

End Assign.

(* --------------------------------------------------------------------- *)
(*  CheckEncoderActivityTask                                             *)
(* --------------------------------------------------------------------- *)

(* The constructor: activity_(0), timed_out_(false), a live weak pointer. *)
Definition CheckEncoderActivityTask_new : CheckEncoderActivityTask :=
  {| activity_ := 0; send_stream_ := true; timed_out_ := false |}.

(* Stop(): send_stream_.reset(). *)
Definition CheckEncoderActivityTask_Stop (t : CheckEncoderActivityTask)
    : CheckEncoderActivityTask :=
  {| activity_ := activity_ t; send_stream_ := false;
     timed_out_ := timed_out_ t |}.

(* UpdateEncoderActivity(): ReleaseStore(&activity_, 1). *)
Definition UpdateEncoderActivity (t : CheckEncoderActivityTask)
    : CheckEncoderActivityTask :=
  {| activity_ := 1; send_stream_ := send_stream_ t;
     timed_out_ := timed_out_ t |}.

(* What one execution of Run() does: the notifications sent to the stream,
   the task afterwards, and the returned flag.  Run() returns true only on
   the early exit; the queue then deletes the task.  When it returns false
   the task has posted itself again with a delay of kEncoderTimeOutMs. *)
Record RunResult := {
  run_signals : list Signal;
  run_task : CheckEncoderActivityTask;
  run_returns : bool
}.

Definition Run (t : CheckEncoderActivityTask) : RunResult :=
  if negb (send_stream_ t) then
    {| run_signals := []; run_task := t; run_returns := true |}
  else
    let '(signals, timed_out) :=
      if decide (activity_ t = 0) then
        (if negb (timed_out_ t) then [EncoderTimedOut] else [], true)
      else if timed_out_ t then ([EncoderActive], false)
      else ([], timed_out_ t) in
    {| run_signals := signals;
       run_task := {| activity_ := 0; send_stream_ := send_stream_ t;
                      timed_out_ := timed_out |};
       run_returns := false |}.

(* A stretch of the life of one task: encoded frames (pings) and ticks of
   the queue, in the order in which they take effect. *)
Inductive WatchdogEvent := Ping | Tick.

Fixpoint run_events (evs : list WatchdogEvent) (t : CheckEncoderActivityTask)
    : list Signal * CheckEncoderActivityTask :=
  match evs with
  | [] => ([], t)
  | Ping :: evs' => run_events evs' (UpdateEncoderActivity t)
  | Tick :: evs' =>
      let r := Run t in
      let '(signals, t') := run_events evs' (run_task r) in
      (run_signals r ++ signals, t')
  end.

(* --------------------------------------------------------------------- *)
(*  VideoSendStreamImpl                                                  *)
(* --------------------------------------------------------------------- *)

Section Methods.
Context {F : Type} `{!FecController F}.

(* webrtc::field_trial::IsEnabled, the process-wide experiment switches. *)
Variable field_trial_IsEnabled : string -> bool.
(* PayloadStringToCodecType of common_types. *)
Variable PayloadStringToCodecType : string -> VideoCodecType.
(* PacketFeedback::kNotReceived. *)
Variable kNotReceived : Z.

Implicit Type st : VideoSendStreamImpl F.

(* std::unique_ptr<FlexfecSender> MaybeCreateFlexfecSender(config, ...):
   nullptr is None; the warnings it logs are returned alongside. *)
Definition MaybeCreateFlexfecSender (config : Config)
    : option FlexfecSender * list (LoggingSeverity * string) :=
  if decide (rtp_flexfec_payload_type config < 0) then (None, [])
  else if decide (rtp_flexfec_ssrc config = 0) then
    (None, [(LS_WARNING, "FlexFEC is enabled, but no FlexFEC SSRC given. Therefore disabling FlexFEC.")])
  else
    match rtp_flexfec_protected_media_ssrcs config with
    | [] =>
        (None, [(LS_WARNING, "FlexFEC is enabled, but no protected media SSRC given. Therefore disabling FlexFEC.")])
    | [protected_media_ssrc] =>
        (Some {| flexfec_payload_type := rtp_flexfec_payload_type config;
                 flexfec_ssrc := rtp_flexfec_ssrc config;
                 flexfec_protected_media_ssrc := protected_media_ssrc |}, [])
    | _ :: _ :: _ =>
        (None, [(LS_WARNING, "The supplied FlexfecConfig contained multiple protected media streams, but our implementation currently only supports protecting a single media stream. To avoid confusion, disabling FlexFEC completely.")])
    end.

(* CreateRtpRtcpModules: one module per media SSRC. *)
Definition CreateRtpRtcpModules (config : Config)
    (flexfec_sender : option FlexfecSender) : list RtpRtcp :=
  map (fun ssrc =>
         {| module_flexfec :=
              bool_decide (is_Some flexfec_sender)
              && bool_decide (ssrc ∈ rtp_flexfec_protected_media_ssrcs config);
            module_store_packets := None;
            module_ulpfec_config := None;
            module_max_rtp_packet_size := None |})
      (rtp_ssrcs config).

Definition PayloadTypeSupportsSkippingFecPackets (payload_name : string)
    : bool :=
  let codecType := PayloadStringToCodecType payload_name in
  if bool_decide (codecType = kVideoCodecVP8)
     || bool_decide (codecType = kVideoCodecVP9)
  then true else false.

(* The locals of ConfigureProtection that its lambdas read and write,
   together with the lines it logs. *)
Record ProtectionLocals := {
  red_payload_type : Z;
  ulpfec_payload_type : Z;
  protection_log : list (LoggingSeverity * string)
}.

Definition IsRedEnabled (l : ProtectionLocals) : bool :=
  bool_decide (red_payload_type l >= 0).
Definition DisableRed (l : ProtectionLocals) : ProtectionLocals :=
  {| red_payload_type := -1; ulpfec_payload_type := ulpfec_payload_type l;
     protection_log := protection_log l |}.
Definition IsUlpfecEnabled (l : ProtectionLocals) : bool :=
  bool_decide (ulpfec_payload_type l >= 0).
Definition DisableUlpfec (l : ProtectionLocals) : ProtectionLocals :=
  {| red_payload_type := red_payload_type l; ulpfec_payload_type := -1;
     protection_log := protection_log l |}.
Definition protection_LOG (severity : LoggingSeverity) (message : string)
    (l : ProtectionLocals) : ProtectionLocals :=
  {| red_payload_type := red_payload_type l;
     ulpfec_payload_type := ulpfec_payload_type l;
     protection_log := protection_log l ++ [(severity, message)] |}.

Definition flexfec_enabled st : bool := bool_decide (is_Some (flexfec_sender_ st)).
Definition nack_enabled st : bool :=
  bool_decide (rtp_nack_rtp_history_ms (config_ st) > 0).

(* The four blocks of ConfigureProtection that may disable a scheme, each
   as a step on the locals, in the order of the source. *)

(* if (field_trial::IsEnabled("WebRTC-DisableUlpFecExperiment")) ... *)
Definition disable_ulpfec_experiment (l : ProtectionLocals)
    : ProtectionLocals :=
  if field_trial_IsEnabled "WebRTC-DisableUlpFecExperiment" then
    DisableUlpfec
      (protection_LOG LS_INFO
         "Experiment to disable sending ULPFEC is enabled." l)
  else l.

(* If enabled, FlexFEC takes priority over RED+ULPFEC. *)
Definition flexfec_takes_priority (flexfec_enabled : bool)
    (l : ProtectionLocals) : ProtectionLocals :=
  if flexfec_enabled then
    let l :=
      if IsRedEnabled l then
        DisableRed
          (protection_LOG LS_INFO
             "Both FlexFEC and RED are configured. Disabling RED." l)
      else l in
    if IsUlpfecEnabled l then
      DisableUlpfec
        (protection_LOG LS_INFO
           "Both FlexFEC and ULPFEC are configured. Disabling ULPFEC." l)
    else l
  else l.

(* Payload types without picture ID: NACK+ULPFEC is a waste of bandwidth. *)
Definition nack_without_picture_id (nack_enabled : bool)
    (payload_name : string) (l : ProtectionLocals) : ProtectionLocals :=
  if nack_enabled && IsUlpfecEnabled l
     && negb (PayloadTypeSupportsSkippingFecPackets payload_name)
  then
    DisableUlpfec
      (protection_LOG LS_WARNING
         "Transmitting payload type without picture ID using NACK+ULPFEC is a waste of bandwidth since ULPFEC packets also have to be retransmitted. Disabling ULPFEC." l)
  else l.

(* Verify payload types: ULPFEC needs RED. *)
Definition verify_payload_types (l : ProtectionLocals) : ProtectionLocals :=
  if IsUlpfecEnabled l then
    if negb (IsRedEnabled l) then
      DisableUlpfec
        (protection_LOG LS_WARNING
           "ULPFEC is enabled but RED is disabled. Disabling ULPFEC." l)
    else l
  else l.

(* ConfigureProtection up to, and not including, the loop over the modules:
   the values of red_payload_type and ulpfec_payload_type reached there. *)
Definition ConfigureProtection_locals st : ProtectionLocals :=
  let l := {| red_payload_type := rtp_ulpfec_red_payload_type (config_ st);
              ulpfec_payload_type :=
                rtp_ulpfec_ulpfec_payload_type (config_ st);
              protection_log := [] |} in
  let l := disable_ulpfec_experiment l in
  let l := flexfec_takes_priority (flexfec_enabled st) l in
  let l :=
    nack_without_picture_id (nack_enabled st)
      (encoder_settings_payload_name (config_ st)) l in
  verify_payload_types l.

Definition ConfigureProtection st : VideoSendStreamImpl F :=
  let l := ConfigureProtection_locals st in
  let st := set_log_ (log_ st ++ protection_log l) st in
  let st :=
    set_rtp_rtcp_modules_
      (map (fun rtp_rtcp =>
              SetUlpfecConfig (red_payload_type l) (ulpfec_payload_type l)
                (SetStorePacketsStatus true kMinSendSidePacketHistorySize
                   rtp_rtcp))
           (rtp_rtcp_modules_ st)) st in
  set_fec_controller_
    (SetProtectionMethod (flexfec_enabled st || IsUlpfecEnabled l)
       (nack_enabled st) (fec_controller_ st)) st.

(* The constructor, as far as the members above are concerned: the member
   initialisers, ConfigureProtection, and the loop that sets the maximum RTP
   packet size.  ConfigureSsrcs, the registration of header extensions and
   the pacing set-up touch none of these members and are left out; the
   first log line carries config_->ToString(), of which the constant prefix
   is kept.  calls_ starts empty and holds the calls made after
   construction: the constructor's own calls on the encoder,
   SetStartBitrate(GetStartBitrate(this)) and SetSink, are not recorded. *)
Definition VideoSendStreamImpl_new (config : Config)
    (initial_encoder_max_bitrate : Z) (fec_controller : F)
    (send_frame_rate : Z) : VideoSendStreamImpl F :=
  let '(flexfec_sender, flexfec_log) := MaybeCreateFlexfecSender config in
  let st :=
    {| send_side_bwe_with_overhead_ :=
         field_trial_IsEnabled "WebRTC-SendSideBwe-WithOverhead";
       config_ := config;
       fec_controller_ := fec_controller;
       check_encoder_activity_task_ := None;
       flexfec_sender_ := flexfec_sender;
       max_padding_bitrate_ := 0;
       encoder_min_bitrate_bps_ := 0;
       encoder_max_bitrate_bps_ := to_uint32 initial_encoder_max_bitrate;
       encoder_target_rate_bps_ := 0;
       rtp_rtcp_modules_ := CreateRtpRtcpModules config flexfec_sender;
       payload_router_ := {| PayloadRouter.active_ := false |};
       overhead_bytes_per_packet_ := 0;
       transport_overhead_bytes_per_packet_ := 0;
       feedback_packet_seq_num_set_ := ∅;
       loss_mask_vector_ := [];
       stats_send_frame_rate_ := send_frame_rate;
       calls_ := [];
       log_ := flexfec_log |} in
  let st := RTC_LOG LS_INFO "VideoSendStreamInternal: " st in
  let st := ConfigureProtection st in
  set_rtp_rtcp_modules_
    (map (SetMaxRtpPacketSize (rtp_max_packet_size config))
         (rtp_rtcp_modules_ st)) st.

Definition AddObserver st : Call :=
  BitrateAllocator_AddObserver
    (encoder_min_bitrate_bps_ st) (encoder_max_bitrate_bps_ st)
    (max_padding_bitrate_ st) (negb (suspend_below_min_bitrate (config_ st)))
    (track_id (config_ st)).

Definition StartupVideoSendStream st : VideoSendStreamImpl F :=
  let st := call (AddObserver st) st in
  (* Start monitoring encoder activity. *)
  let st :=
    set_check_encoder_activity_task_ (Some CheckEncoderActivityTask_new) st in
  let st :=
    call (TaskQueue_PostDelayedTask_CheckEncoderActivity kEncoderTimeOutMs)
      st in
  call VideoStreamEncoder_SendKeyFrame st.

Definition Start st : VideoSendStreamImpl F :=
  let st := RTC_LOG LS_INFO "VideoSendStream::Start" st in
  if PayloadRouter.IsActive (payload_router_ st) then st
  else
    let st :=
      set_payload_router_
        (PayloadRouter.SetActive true (payload_router_ st)) st in
    StartupVideoSendStream st.

(* check_encoder_activity_task_->Stop() dereferences the pointer: None when
   there is no task.  The stopped task (CheckEncoderActivityTask_Stop task)
   stays with the queue, where its next Run() takes the early exit; the
   stream forgets it. *)
Definition StopVideoSendStream st : option (VideoSendStreamImpl F) :=
  let st := call BitrateAllocator_RemoveObserver st in
  task ← check_encoder_activity_task_ st;
  let st := set_check_encoder_activity_task_ None st in
  let st := call (VideoStreamEncoder_OnBitrateUpdated 0 0 0) st in
  Some (call (SendStatisticsProxy_OnSetEncoderTargetRate 0) st).

Definition Stop st : option (VideoSendStreamImpl F) :=
  let st := RTC_LOG LS_INFO "VideoSendStream::Stop" st in
  if negb (PayloadRouter.IsActive (payload_router_ st)) then Some st
  else
    let st :=
      set_payload_router_
        (PayloadRouter.SetActive false (payload_router_ st)) st in
    StopVideoSendStream st.

Definition SignalEncoderTimedOut st : VideoSendStreamImpl F :=
  if decide (encoder_target_rate_bps_ st > 0) then
    let st := RTC_LOG LS_INFO "SignalEncoderTimedOut, Encoder timed out." st in
    call BitrateAllocator_RemoveObserver st
  else st.

Definition SignalEncoderActive st : VideoSendStreamImpl F :=
  let st := RTC_LOG LS_INFO "SignalEncoderActive, Encoder is active." st in
  call (AddObserver st) st.

(* The part of OnEncodedImage that concerns the watchdog. *)
Definition OnEncodedImage_activity st : VideoSendStreamImpl F :=
  match check_encoder_activity_task_ st with
  | Some task =>
      set_check_encoder_activity_task_ (Some (UpdateEncoderActivity task)) st
  | None => st
  end.

(* The queue runs the task the stream currently points at. *)
Definition send_signal st (s : Signal) : VideoSendStreamImpl F :=
  match s with
  | EncoderTimedOut => SignalEncoderTimedOut st
  | EncoderActive => SignalEncoderActive st
  end.

Definition CheckEncoderActivityTask_tick st : VideoSendStreamImpl F :=
  match check_encoder_activity_task_ st with
  | None => st
  | Some task =>
      let r := Run task in
      let st := foldl send_signal st (run_signals r) in
      if run_returns r then set_check_encoder_activity_task_ None st
      else
        call (TaskQueue_PostDelayedTask_CheckEncoderActivity kEncoderTimeOutMs)
          (set_check_encoder_activity_task_ (Some (run_task r)) st)
  end.

(* Whether the stream is registered with the bitrate allocator after a
   sequence of calls: the last AddObserver or RemoveObserver decides. *)
Definition allocator_has_observer (calls : list Call) : bool :=
  foldl (fun registered c =>
           match c with
           | BitrateAllocator_AddObserver _ _ _ _ _ => true
           | BitrateAllocator_RemoveObserver => false
           | _ => registered
           end) false calls.

(* The locals of OnBitrateUpdated. *)
Record BitrateUpdate := {
  payload_bitrate_bps : Z;
  (* encoder_target_rate_bps_ as UpdateFecRates returned it *)
  fec_encoder_target_rate_bps : Z;
  encoder_overhead_rate_bps : Z;
  protection_bitrate : Z;
  (* encoder_target_rate_bps_ after std::min, as handed to the encoder *)
  pushed_encoder_target_rate_bps : Z
}.

Definition OnBitrateUpdated_run st
    (bitrate_bps fraction_loss rtt probing_interval_ms : Z)
    : option (BitrateUpdate * VideoSendStreamImpl F) :=
  (* Substract overhead from bitrate. *)
  payload_bitrate_bps ←
    (if send_side_bwe_with_overhead_ st then
       packet_rate ←
         CalculatePacketRate bitrate_bps
           (to_size_t (rtp_max_packet_size (config_ st)
                       + transport_overhead_bytes_per_packet_ st));
       Some (to_uint32
               (bitrate_bps
                - CalculateOverheadRateBps packet_rate
                    (to_size_t (overhead_bytes_per_packet_ st
                                + transport_overhead_bytes_per_packet_ st))
                    bitrate_bps))
     else Some bitrate_bps);
  (* Get the encoder target rate. *)
  let '(target, fec) :=
    UpdateFecRates payload_bitrate_bps (stats_send_frame_rate_ st)
      fraction_loss (loss_mask_vector_ st) rtt (fec_controller_ st) in
  let target := to_uint32 target in
  let st := set_fec_controller_ fec st in
  let st := set_encoder_target_rate_bps_ target st in
  let st := set_loss_mask_vector_ [] st in
  encoder_overhead_rate_bps ←
    (if send_side_bwe_with_overhead_ st then
       packet_rate ←
         CalculatePacketRate (encoder_target_rate_bps_ st)
           (to_size_t (to_size_t (rtp_max_packet_size (config_ st)
                                  + transport_overhead_bytes_per_packet_ st)
                       - overhead_bytes_per_packet_ st));
       Some (CalculateOverheadRateBps packet_rate
               (to_size_t (overhead_bytes_per_packet_ st
                           + transport_overhead_bytes_per_packet_ st))
               (to_uint32 (bitrate_bps - encoder_target_rate_bps_ st)))
     else Some 0);
  let protection_bitrate :=
    to_uint32
      (bitrate_bps
       - to_uint32 (encoder_target_rate_bps_ st + encoder_overhead_rate_bps)) in
  let st :=
    set_encoder_target_rate_bps_
      (Z.min (encoder_max_bitrate_bps_ st) (encoder_target_rate_bps_ st)) st in
  let st :=
    call (VideoStreamEncoder_OnBitrateUpdated (encoder_target_rate_bps_ st)
            fraction_loss rtt) st in
  let st :=
    call (SendStatisticsProxy_OnSetEncoderTargetRate
            (encoder_target_rate_bps_ st)) st in
  Some ({| payload_bitrate_bps := payload_bitrate_bps;
           fec_encoder_target_rate_bps := target;
           encoder_overhead_rate_bps := encoder_overhead_rate_bps;
           protection_bitrate := protection_bitrate;
           pushed_encoder_target_rate_bps := encoder_target_rate_bps_ st |},
        st).

(* uint32_t OnBitrateUpdated(...): the returned protection bitrate and the
   object afterwards. *)
Definition OnBitrateUpdated st
    (bitrate_bps fraction_loss rtt probing_interval_ms : Z)
    : option (Z * VideoSendStreamImpl F) :=
  '(b, st') ←
    OnBitrateUpdated_run st bitrate_bps fraction_loss rtt probing_interval_ms;
  Some (protection_bitrate b, st').

Definition OnOverheadChanged st (overhead_bytes_per_packet : Z)
    : VideoSendStreamImpl F :=
  set_overhead_bytes_per_packet_ overhead_bytes_per_packet st.

Definition SetTransportOverhead st (transport_overhead_bytes_per_packet : Z)
    : VideoSendStreamImpl F :=
  if decide (transport_overhead_bytes_per_packet >= kPathMTU) then
    RTC_LOG LS_ERROR "Transport overhead exceeds size of ethernet frame" st
  else
    let st :=
      set_transport_overhead_bytes_per_packet_
        transport_overhead_bytes_per_packet st in
    let rtp_packet_size :=
      Z.min (rtp_max_packet_size (config_ st))
            (to_size_t (kPathMTU - transport_overhead_bytes_per_packet_ st)) in
    set_rtp_rtcp_modules_
      (map (SetMaxRtpPacketSize rtp_packet_size) (rtp_rtcp_modules_ st)) st.

(* OnPacketAdded.  [is_current] is worker_queue_->IsCurrent(); off the queue
   the call is posted to it and nothing else happens. *)
Definition OnPacketAdded (is_current : bool) st (ssrc seq_num : Z)
    : VideoSendStreamImpl F :=
  if negb is_current then
    call (TaskQueue_PostTask (Post_OnPacketAdded ssrc seq_num)) st
  else if bool_decide (ssrc ∈ rtp_ssrcs (config_ st)) then
    let st :=
      set_feedback_packet_seq_num_set_
        ({[ seq_num ]} ∪ feedback_packet_seq_num_set_ st) st in
    if decide (Z.of_nat (size (feedback_packet_seq_num_set_ st))
               > kSendSideSeqNumSetMaxSize) then
      let st :=
        RTC_LOG LS_WARNING
          "Feedback packet sequence number set exceed it's max size', will get reset."
          st in
      set_feedback_packet_seq_num_set_ ∅ st
    else st
  else st.

(* The body of the loop of OnPacketFeedbackVector.  In
     if (auto it = set.find(seq) != set.end()) { ...; set.erase(it); }
   the comparison binds tighter than the initialisation, so [it] is the bool
   result of the comparison.  The condition is the membership test; erase
   receives that bool, which converts to the key type uint16_t, and removes
   the key 1. *)
Definition OnPacketFeedbackVector_packet st (packet : PacketFeedback)
    : VideoSendStreamImpl F :=
  let it : bool :=
    bool_decide (sequence_number packet ∈ feedback_packet_seq_num_set_ st) in
  if it then
    let lost := bool_decide (arrival_time_ms packet = kNotReceived) in
    let st := set_loss_mask_vector_ (loss_mask_vector_ st ++ [lost]) st in
    set_feedback_packet_seq_num_set_
      (feedback_packet_seq_num_set_ st ∖ {[ to_uint16 (Z.b2z it) ]}) st
  else st.

Definition OnPacketFeedbackVector (is_current : bool) st
    (packet_feedback_vector : list PacketFeedback) : VideoSendStreamImpl F :=
  if negb is_current then
    call (TaskQueue_PostTask
            (Post_OnPacketFeedbackVector packet_feedback_vector)) st
  else foldl OnPacketFeedbackVector_packet st packet_feedback_vector.

(* The worker queue runs a posted closure; the stream is alive, so the weak
   pointer test passes and the entry point is re-entered on the queue. *)
Definition run_posted st (task : PostedTask) : VideoSendStreamImpl F :=
  match task with
  | Post_OnPacketAdded ssrc seq_num => OnPacketAdded true st ssrc seq_num
  | Post_OnPacketFeedbackVector v => OnPacketFeedbackVector true st v
  end.

(* The loop body as the specification words it: a report whose sequence
   number is in the window removes that number and appends to the loss
   mask; any other report is ignored. *)
Definition spec_feedback_packet st (packet : PacketFeedback)
    : VideoSendStreamImpl F :=
  if bool_decide (sequence_number packet ∈ feedback_packet_seq_num_set_ st)
  then
    let lost := bool_decide (arrival_time_ms packet = kNotReceived) in
    let st := set_loss_mask_vector_ (loss_mask_vector_ st ++ [lost]) st in
    set_feedback_packet_seq_num_set_
      (feedback_packet_seq_num_set_ st ∖ {[ sequence_number packet ]}) st
  else st.

End Methods.

(* --------------------------------------------------------------------- *)
(*  What the specification claims of a bitrate update and of the policy  *)
(* --------------------------------------------------------------------- *)

(* The rounding a ceiling in CalculatePacketRate can cause: one packet per
   second more, that is one packet's overhead in bits; nothing when
   overhead accounting is off and no packet rate is computed. *)
Definition ceiling_tolerance {F} (st : VideoSendStreamImpl F) : Z :=
  if send_side_bwe_with_overhead_ st then
    8 * (overhead_bytes_per_packet_ st
         + transport_overhead_bytes_per_packet_ st)
  else 0.

(* RateBudget of the specification, read off a bitrate update, for a given
   payload figure: the three parts add up to the total within the
   tolerance, and the payload is at most the configured maximum. *)
Definition RateBudget_holds {F} (st : VideoSendStreamImpl F)
    (total_bitrate_bps payload_bps : Z) (b : BitrateUpdate) : Prop :=
  Z.abs (payload_bps + protection_bitrate b + encoder_overhead_rate_bps b
         - total_bitrate_bps)
    <= ceiling_tolerance st
  /\ payload_bps <= encoder_max_bitrate_bps_ st.

(* The last clause of the policy as the specification words it: with NACK,
   for VP8 or VP9, a configured ULPFEC with RED stays as configured. *)
Definition ulpfec_kept_for_vp8_vp9 {F} (field_trial_IsEnabled : string -> bool)
    (PayloadStringToCodecType : string -> VideoCodecType)
    (st : VideoSendStreamImpl F) : Prop :=
  let codec :=
    PayloadStringToCodecType (encoder_settings_payload_name (config_ st)) in
  (codec = kVideoCodecVP8 \/ codec = kVideoCodecVP9) ->
  rtp_nack_rtp_history_ms (config_ st) > 0 ->
  rtp_ulpfec_ulpfec_payload_type (config_ st) >= 0 ->
  rtp_ulpfec_red_payload_type (config_ st) >= 0 ->
  ulpfec_payload_type
    (ConfigureProtection_locals field_trial_IsEnabled PayloadStringToCodecType
       st)
  = rtp_ulpfec_ulpfec_payload_type (config_ st).

(* --------------------------------------------------------------------- *)
(*  Concrete collaborators and configurations used in the examples       *)
(* --------------------------------------------------------------------- *)

(* A FEC controller that records the protection method it was given and
   answers every UpdateFecRates with a fixed encoder target rate. *)
Record FixedFec := {
  fixed_target_bps : Z;
  fixed_method : option (bool * bool)
}.

#[global] Instance FixedFec_controller : FecController FixedFec := {|
  SetProtectionMethod fec nack c :=
    {| fixed_target_bps := fixed_target_bps c;
       fixed_method := Some (fec, nack) |};
  UpdateFecRates _ _ _ _ _ c := (fixed_target_bps c, c)
|}.

Definition no_field_trials : string -> bool := fun _ => false.
Definition only_field_trial (name : string) : string -> bool :=
  fun s => bool_decide (s = name).

(** Modelled from the spec: PayloadStringToCodecType is not part of the
    sources at hand; the specification singles out the names VP8 and VP9
    and treats every other payload as one without picture ID. *)
Definition PayloadStringToCodecType_names (name : string) : VideoCodecType :=
  if bool_decide (name = "VP8") then kVideoCodecVP8
  else if bool_decide (name = "VP9") then kVideoCodecVP9
  else if bool_decide (name = "H264") then kVideoCodecH264
  else kVideoCodecGeneric.

(* The configuration of the protection scenario. *)
Definition scenario_config : Config :=
  {| rtp_ssrcs := [1001];
     rtp_rtx_ssrcs := [];
     rtp_max_packet_size := 1200;
     rtp_nack_rtp_history_ms := 1000;
     rtp_ulpfec_red_payload_type := 101;
     rtp_ulpfec_ulpfec_payload_type := 100;
     rtp_flexfec_payload_type := -1;
     rtp_flexfec_ssrc := 0;
     rtp_flexfec_protected_media_ssrcs := [];
     encoder_settings_payload_name := "VP8";
     encoder_settings_payload_type := 96;
     suspend_below_min_bitrate := false;
     track_id := "video" |}.

(* The same with a consistent FlexFEC configuration added. *)
Definition flexfec_config : Config :=
  {| rtp_ssrcs := [1001];
     rtp_rtx_ssrcs := [];
     rtp_max_packet_size := 1200;
     rtp_nack_rtp_history_ms := 1000;
     rtp_ulpfec_red_payload_type := 101;
     rtp_ulpfec_ulpfec_payload_type := 100;
     rtp_flexfec_payload_type := 110;
     rtp_flexfec_ssrc := 5005;
     rtp_flexfec_protected_media_ssrcs := [1001];
     encoder_settings_payload_name := "VP8";
     encoder_settings_payload_type := 96;
     suspend_below_min_bitrate := false;
     track_id := "video" |}.

Definition fixed_fec (target_bps : Z) : FixedFec :=
  {| fixed_target_bps := target_bps; fixed_method := None |}.

(* A freshly constructed stream over [config] whose FEC controller answers
   [target_bps], with the given experiment switches and encoder maximum. *)
Definition fresh_stream (trials : string -> bool) (config : Config)
    (max_bitrate_bps target_bps : Z) : VideoSendStreamImpl FixedFec :=
  VideoSendStreamImpl_new trials PayloadStringToCodecType_names config
    max_bitrate_bps (fixed_fec target_bps) 30.

Definition started_stream (trials : string -> bool) (config : Config)
    (max_bitrate_bps target_bps : Z) : VideoSendStreamImpl FixedFec :=
  Start (fresh_stream trials config max_bitrate_bps target_bps).

(* A task that has been stopped. *)
Definition stopped_task : CheckEncoderActivityTask :=
  CheckEncoderActivityTask_Stop
    (UpdateEncoderActivity CheckEncoderActivityTask_new).

(** Modelled from the spec: PacketFeedback::kNotReceived is declared outside
    the sources at hand; the report of a packet that did not arrive carries
    it as arrival time.  The examples take -1 for it. *)
Definition kNotReceived_value : Z := -1.

(* A started stream of the scenario configuration that has sent the packets
   [seqs] on its media SSRC, and the report of a packet that arrived. *)
Definition tracked (seqs : list Z) : VideoSendStreamImpl FixedFec :=
  foldl (fun s q => OnPacketAdded true s 1001 q)
    (started_stream no_field_trials scenario_config 2000000 800000) seqs.

Definition arrived (seq : Z) : PacketFeedback :=
  {| arrival_time_ms := 100; sequence_number := seq |}.

(* ===================================================================== *)
(*  Further parts of the file                                            *)
(* ===================================================================== *)

(* --------------------------------------------------------------------- *)
(*  Encoder bitrate bounds                                               *)
(* --------------------------------------------------------------------- *)

(* VideoStream, the fields this file reads; the bitrate priority, an
   optional double, is left out as in AddObserver. *)
Record VideoStream := {
  stream_width : Z;                          (* size_t *)
  stream_height : Z;                         (* size_t *)
  stream_min_bitrate_bps : Z;                (* int *)
  stream_target_bitrate_bps : Z;             (* int *)
  stream_max_bitrate_bps : Z;                (* int *)
  stream_num_temporal_layers : option Z;     (* rtc::Optional<size_t> *)
  stream_active : bool
}.

Definition is_int (z : Z) : Prop := - 2 ^ 31 <= z < 2 ^ 31.

(* Addition of two int values; signed overflow is undefined: None. *)
Definition int_add (a b : Z) : option Z :=
  if decide (is_int (a + b)) then Some (a + b) else None.

(* int CalculateMaxPadBitrateBps(streams, min_transmit_bitrate_bps,
   pad_to_min_bitrate).  streams[0] of an empty vector is undefined. *)
Definition CalculateMaxPadBitrateBps (streams : list VideoStream)
    (min_transmit_bitrate_bps : Z) (pad_to_min_bitrate : bool) : option Z :=
  pad_up_to_bitrate_bps ←
    (if decide (1 < length streams)%nat then
       (* Pad to min bitrate of the highest layer. *)
       highest ← last streams;
       (* Add target_bitrate_bps of the lower layers. *)
       foldl (fun acc stream =>
                pad ← acc; int_add pad (stream_target_bitrate_bps stream))
             (Some (stream_min_bitrate_bps highest))
             (take (length streams - 1) streams)
     else if pad_to_min_bitrate then
       lowest ← head streams;
       Some (stream_min_bitrate_bps lowest)
     else Some 0);
  Some (Z.max pad_up_to_bitrate_bps min_transmit_bitrate_bps).

(* What an entry point that re-dispatches itself does: off the worker queue
   it posts itself and returns; on the queue it runs. *)
Inductive Redispatch (A : Type) :=
  | Reposted
  | Ran (result : A).
Arguments Reposted {A}.
Arguments Ran {A} result.

Section EncoderBounds.
Context {F : Type} `{!FecController F}.
Implicit Type st : VideoSendStreamImpl F.

(* webrtc::field_trial::IsEnabled and FindFullName. *)
Variable field_trial_IsEnabled : string -> bool.
Variable field_trial_FindFullName : string -> string.
(* sscanf(group, "Enabled-%d,%d,%d", &min_pixels, &max_pixels, &min_bps):
   the number of fields converted and the three values. *)
Variable sscanf_Enabled : string -> Z * (Z * Z * Z).
(* FecController::SetEncodingData(width, height, num_temporal_layers,
   max_payload_size). *)
Variable SetEncodingData : Z -> Z -> Z -> Z -> F -> F.

Definition kForcedFallbackFieldTrial : string :=
  "WebRTC-VP8-Forced-Fallback-Encoder-v2".

Definition GetFallbackMinBpsFromFieldTrial : option Z :=
  if negb (field_trial_IsEnabled kForcedFallbackFieldTrial) then None
  else
    let group := field_trial_FindFullName kForcedFallbackFieldTrial in
    if bool_decide (group = "") then None
    else
      let '(converted, (min_pixels, max_pixels, min_bps)) :=
        sscanf_Enabled group in
      if decide (converted <> 3) then None
      else if decide (min_bps <= 0) then None
      else Some min_bps.

Definition GetEncoderMinBitrateBps : Z :=
  let kDefaultEncoderMinBitrateBps := 30000 in
  default kDefaultEncoderMinBitrateBps GetFallbackMinBpsFromFieldTrial.

(* Assignments to the three bounds. *)
Definition set_bitrate_bounds_ (min_bps max_bps pad_bps : Z) st
    : VideoSendStreamImpl F :=
  {| send_side_bwe_with_overhead_ := send_side_bwe_with_overhead_ st;
     config_ := config_ st; fec_controller_ := fec_controller_ st;
     check_encoder_activity_task_ := check_encoder_activity_task_ st;
     flexfec_sender_ := flexfec_sender_ st;
     max_padding_bitrate_ := pad_bps;
     encoder_min_bitrate_bps_ := min_bps;
     encoder_max_bitrate_bps_ := max_bps;
     encoder_target_rate_bps_ := encoder_target_rate_bps_ st;
     rtp_rtcp_modules_ := rtp_rtcp_modules_ st;
     payload_router_ := payload_router_ st;
     overhead_bytes_per_packet_ := overhead_bytes_per_packet_ st;
     transport_overhead_bytes_per_packet_ :=
       transport_overhead_bytes_per_packet_ st;
     feedback_packet_seq_num_set_ := feedback_packet_seq_num_set_ st;
     loss_mask_vector_ := loss_mask_vector_ st;
     stats_send_frame_rate_ := stats_send_frame_rate_ st; calls_ := calls_ st;
     log_ := log_ st |}.

(* The sum of the maximum bitrates of the active streams, accumulated in
   the uint32_t member. *)
Definition sum_active_max_bitrate_bps (streams : list VideoStream) : Z :=
  foldl (fun acc stream =>
           to_uint32
             (acc + to_uint32 (if stream_active stream
                               then stream_max_bitrate_bps stream else 0)))
        0 streams.

(* OnEncoderConfigurationChanged(streams, min_transmit_bitrate_bps).  On the
   queue the result is the object afterwards together with the SSRCs
   reported to the statistics proxy through OnInactiveSsrc; streams[0] and
   streams.back() of an empty vector are undefined.  The sum of the bitrate
   priorities, doubles, is left out. *)
Definition OnEncoderConfigurationChanged (is_current : bool) st
    (streams : list VideoStream) (min_transmit_bitrate_bps : Z)
    : Redispatch (option (VideoSendStreamImpl F * list Z)) :=
  if negb is_current then Reposted
  else Ran (
    lowest ← head streams;
    let encoder_min_bitrate_bps :=
      Z.max (stream_min_bitrate_bps lowest) GetEncoderMinBitrateBps in
    let encoder_max_bitrate_bps := sum_active_max_bitrate_bps streams in
    let encoder_max_bitrate_bps :=
      Z.max (to_uint32 encoder_min_bitrate_bps) encoder_max_bitrate_bps in
    max_padding_bitrate ←
      CalculateMaxPadBitrateBps streams min_transmit_bitrate_bps
        (suspend_below_min_bitrate (config_ st));
    let st :=
      set_bitrate_bounds_ encoder_min_bitrate_bps encoder_max_bitrate_bps
        max_padding_bitrate st in
    (* Clear stats for disabled layers. *)
    let inactive_ssrcs := drop (length streams) (rtp_ssrcs (config_ st)) in
    highest ← last streams;
    let num_temporal_layers :=
      default 1 (stream_num_temporal_layers highest) in
    let st :=
      set_fec_controller_
        (SetEncodingData (stream_width lowest) (stream_height lowest)
           num_temporal_layers (rtp_max_packet_size (config_ st))
           (fec_controller_ st)) st in
    let st :=
      if PayloadRouter.IsActive (payload_router_ st) then
        call (AddObserver st) st
      else st in
    Some (st, inactive_ssrcs)).

End EncoderBounds.

(* --------------------------------------------------------------------- *)
(*  Active simulcast layers                                              *)
(* --------------------------------------------------------------------- *)

(** Modelled from the spec: PayloadRouter::SetActiveModules is not part of
    the sources at hand; the stream is logically active when some layer
    is. *)
Definition PayloadRouter_SetActiveModules (active_modules : list bool)
    (_ : PayloadRouter.t) : PayloadRouter.t :=
  {| PayloadRouter.active_ := existsb id active_modules |}.

Section ActiveLayers.
Context {F : Type} `{!FecController F}.
Implicit Type st : VideoSendStreamImpl F.

Definition UpdateActiveSimulcastLayers st (active_layers : list bool)
    : option (VideoSendStreamImpl F) :=
  let st :=
    RTC_LOG LS_INFO "VideoSendStream::UpdateActiveSimulcastLayers" st in
  let previously_active := PayloadRouter.IsActive (payload_router_ st) in
  let st :=
    set_payload_router_
      (PayloadRouter_SetActiveModules active_layers (payload_router_ st)) st in
  if negb (PayloadRouter.IsActive (payload_router_ st)) && previously_active
  then
    (* Payload router switched from active to inactive. *)
    StopVideoSendStream st
  else if PayloadRouter.IsActive (payload_router_ st)
          && negb previously_active
  then
    (* Payload router switched from inactive to active. *)
    Some (StartupVideoSendStream st)
  else Some st.

End ActiveLayers.

(* --------------------------------------------------------------------- *)
(*  Persisted RTP states                                                 *)
(* --------------------------------------------------------------------- *)

Section RtpStates.
(* RtpState, opaque to this file. *)
Variable RtpState : Type.
(* The RTX mode flags kRtxRetransmitted and kRtxRedundantPayloads. *)
Variable kRtxRetransmitted kRtxRedundantPayloads : Z.

(* One RTP/RTCP module, as far as ConfigureSsrcs configures it.  A field is
   None, or the empty list, until the corresponding setter has been
   called. *)
Record SsrcModule := {
  module_ssrc : option Z;                       (* SetSSRC *)
  module_rtp_state : option RtpState;           (* SetRtpState *)
  module_rtx_ssrc : option Z;                   (* SetRtxSsrc *)
  module_rtx_state : option RtpState;           (* SetRtxState *)
  module_rtx_payload_types : list (Z * Z);      (* SetRtxSendPayloadType *)
  module_rtx_send_status : option Z             (* SetRtxSendStatus *)
}.

Definition unconfigured_module : SsrcModule :=
  {| module_ssrc := None; module_rtp_state := None; module_rtx_ssrc := None;
     module_rtx_state := None; module_rtx_payload_types := [];
     module_rtx_send_status := None |}.

(* SetSSRC(ssrc), then SetRtpState if the map holds a state for ssrc. *)
Definition configure_ssrc (suspended_ssrcs : gmap Z RtpState) (ssrc : Z)
    (m : SsrcModule) : SsrcModule :=
  {| module_ssrc := Some ssrc;
     module_rtp_state :=
       match suspended_ssrcs !! ssrc with
       | Some state => Some state
       | None => module_rtp_state m
       end;
     module_rtx_ssrc := module_rtx_ssrc m;
     module_rtx_state := module_rtx_state m;
     module_rtx_payload_types := module_rtx_payload_types m;
     module_rtx_send_status := module_rtx_send_status m |}.

(* SetRtxSsrc(ssrc), then SetRtxState if the map holds a state for ssrc. *)
Definition configure_rtx_ssrc (suspended_ssrcs : gmap Z RtpState) (ssrc : Z)
    (m : SsrcModule) : SsrcModule :=
  {| module_ssrc := module_ssrc m;
     module_rtp_state := module_rtp_state m;
     module_rtx_ssrc := Some ssrc;
     module_rtx_state :=
       match suspended_ssrcs !! ssrc with
       | Some state => Some state
       | None => module_rtx_state m
       end;
     module_rtx_payload_types := module_rtx_payload_types m;
     module_rtx_send_status := module_rtx_send_status m |}.

Definition SetRtxSendPayloadType (payload_type associated_payload_type : Z)
    (m : SsrcModule) : SsrcModule :=
  {| module_ssrc := module_ssrc m;
     module_rtp_state := module_rtp_state m;
     module_rtx_ssrc := module_rtx_ssrc m;
     module_rtx_state := module_rtx_state m;
     module_rtx_payload_types :=
       module_rtx_payload_types m
       ++ [(payload_type, associated_payload_type)];
     module_rtx_send_status := module_rtx_send_status m |}.

Definition SetRtxSendStatus (mode : Z) (m : SsrcModule) : SsrcModule :=
  {| module_ssrc := module_ssrc m;
     module_rtp_state := module_rtp_state m;
     module_rtx_ssrc := module_rtx_ssrc m;
     module_rtx_state := module_rtx_state m;
     module_rtx_payload_types := module_rtx_payload_types m;
     module_rtx_send_status := Some mode |}.

(* for (i = 0; i < ssrcs.size(); ++i) f(ssrcs[i], modules[i]): indexing
   past the end of the modules is undefined. *)
Fixpoint for_each_ssrc (f : Z -> SsrcModule -> SsrcModule) (ssrcs : list Z)
    (modules : list SsrcModule) : option (list SsrcModule) :=
  match ssrcs, modules with
  | [], _ => Some modules
  | _ :: _, [] => None
  | ssrc :: ssrcs', m :: modules' =>
      rest ← for_each_ssrc f ssrcs' modules';
      Some (f ssrc m :: rest)
  end.

(* ConfigureSsrcs.  rtx_payload_type and red_rtx_payload_type are
   config_->rtp.rtx.payload_type and config_->rtp.ulpfec.red_rtx_payload_type,
   which Config above does not carry. *)
Definition ConfigureSsrcs (config : Config)
    (rtx_payload_type red_rtx_payload_type : Z)
    (suspended_ssrcs : gmap Z RtpState) (modules : list SsrcModule)
    : option (list SsrcModule) :=
  (* Configure regular SSRCs. *)
  modules ←
    for_each_ssrc (configure_ssrc suspended_ssrcs) (rtp_ssrcs config) modules;
  (* Set up RTX if available. *)
  if bool_decide (rtp_rtx_ssrcs config = []) then Some modules
  else
    (* Configure RTX SSRCs. *)
    modules ←
      for_each_ssrc (configure_rtx_ssrc suspended_ssrcs)
        (rtp_rtx_ssrcs config) modules;
    (* Configure RTX payload types. *)
    let modules :=
      map (fun m =>
             SetRtxSendStatus (Z.lor kRtxRetransmitted kRtxRedundantPayloads)
               (SetRtxSendPayloadType rtx_payload_type
                  (encoder_settings_payload_type config) m)) modules in
    if bool_decide (rtp_ulpfec_red_payload_type config <> -1)
       && bool_decide (red_rtx_payload_type <> -1)
    then
      Some (map (SetRtxSendPayloadType red_rtx_payload_type
                   (rtp_ulpfec_red_payload_type config)) modules)
    else Some modules.

(* rtp_states[ssrcs[i]] = states[i] for every i < ssrcs.size(), in order;
   indexing past the end of the modules is undefined. *)
Fixpoint store_states (ssrcs : list Z) (states : list RtpState)
    (rtp_states : gmap Z RtpState) : option (gmap Z RtpState) :=
  match ssrcs, states with
  | [], _ => Some rtp_states
  | _ :: _, [] => None
  | ssrc :: ssrcs', state :: states' =>
      store_states ssrcs' states' (<[ ssrc := state ]> rtp_states)
  end.

(* GetRtpStates.  [reported] holds, module by module, what GetRtpState and
   GetRtxState return; [flexfec_state] is what the FlexFEC sender, when
   there is one, returns from GetRtpState. *)
Definition GetRtpStates (config : Config)
    (reported : list (RtpState * RtpState))
    (flexfec_state : option RtpState) : option (gmap Z RtpState) :=
  rtp_states ← store_states (rtp_ssrcs config) (reported.*1) ∅;
  rtp_states ← store_states (rtp_rtx_ssrcs config) (reported.*2) rtp_states;
  match flexfec_state with
  | Some state => Some (<[ rtp_flexfec_ssrc config := state ]> rtp_states)
  | None => Some rtp_states
  end.

End RtpStates.

(* --------------------------------------------------------------------- *)
(*  Sent bitrates                                                        *)
(* --------------------------------------------------------------------- *)

(* ProtectionRequest, as far as its out-parameters go.  [sent] holds, module
   by module, the video, FEC and NACK rates that BitrateSent reports; the
   result is the returned int and the three totals, each accumulated in a
   uint32_t. *)
Definition ProtectionRequest (sent : list (Z * Z * Z)) : Z * (Z * Z * Z) :=
  (0,
   foldl (fun '(video, nack, fec) '(module_video, module_fec, module_nack) =>
            (to_uint32 (video + module_video),
             to_uint32 (nack + module_nack),
             to_uint32 (fec + module_fec)))
         (0, 0, 0) sent).

(* --------------------------------------------------------------------- *)
(*  Sequences of calls on the worker queue                               *)
(* --------------------------------------------------------------------- *)

Inductive Operation :=
  | Op_Start
  | Op_Stop
  | Op_UpdateActiveSimulcastLayers (active_layers : list bool)
  | Op_EncodedImage
  | Op_Tick
  | Op_BitrateUpdated (bitrate_bps fraction_loss rtt probing_interval_ms : Z)
  | Op_OverheadChanged (overhead_bytes_per_packet : Z)
  | Op_SetTransportOverhead (transport_overhead_bytes_per_packet : Z)
  | Op_PacketAdded (is_current : bool) (ssrc seq_num : Z)
  | Op_PacketFeedbackVector (is_current : bool)
      (packet_feedback_vector : list PacketFeedback)
  | Op_RunPosted (task : PostedTask).

Section Operations.
Context {F : Type} `{!FecController F}.
Variable kNotReceived : Z.
Implicit Type st : VideoSendStreamImpl F.

(* One call.  Op_EncodedImage stands for the part of OnEncodedImage that
   reaches this object's state, the ping of the watchdog.  None: Stop or
   UpdateActiveSimulcastLayers dereferences a missing watchdog task, or
   OnBitrateUpdated divides by zero. *)
Definition apply_operation st (op : Operation)
    : option (VideoSendStreamImpl F) :=
  match op with
  | Op_Start => Some (Start st)
  | Op_Stop => Stop st
  | Op_UpdateActiveSimulcastLayers layers =>
      UpdateActiveSimulcastLayers st layers
  | Op_EncodedImage => Some (OnEncodedImage_activity st)
  | Op_Tick => Some (CheckEncoderActivityTask_tick st)
  | Op_BitrateUpdated bitrate_bps fraction_loss rtt probing_interval_ms =>
      snd <$> OnBitrateUpdated st bitrate_bps fraction_loss rtt
                probing_interval_ms
  | Op_OverheadChanged n => Some (OnOverheadChanged st n)
  | Op_SetTransportOverhead n => Some (SetTransportOverhead st n)
  | Op_PacketAdded is_current ssrc seq_num =>
      Some (OnPacketAdded is_current st ssrc seq_num)
  | Op_PacketFeedbackVector is_current v =>
      Some (OnPacketFeedbackVector kNotReceived is_current st v)
  | Op_RunPosted task => Some (run_posted kNotReceived st task)
  end.

Fixpoint apply_operations st (ops : list Operation)
    : option (VideoSendStreamImpl F) :=
  match ops with
  | [] => Some st
  | op :: ops' => st' ← apply_operation st op; apply_operations st' ops'
  end.

(* What every sequence of calls keeps. *)
Definition stream_invariant st : Prop :=
  (PayloadRouter.IsActive (payload_router_ st) = true
   <-> is_Some (check_encoder_activity_task_ st))
  /\ (forall task, check_encoder_activity_task_ st = Some task ->
        send_stream_ task = true)
  /\ (allocator_has_observer (calls_ st) = true ->
      PayloadRouter.IsActive (payload_router_ st) = true)
  /\ Z.of_nat (size (feedback_packet_seq_num_set_ st))
     <= kSendSideSeqNumSetMaxSize
  /\ length (rtp_rtcp_modules_ st) = length (rtp_ssrcs (config_ st)).

End Operations.

(* --------------------------------------------------------------------- *)
(*  Further concrete inputs used in the examples                         *)
(* --------------------------------------------------------------------- *)

(* Two simulcast layers. *)
Definition low_layer : VideoStream :=
  {| stream_width := 320; stream_height := 180;
     stream_min_bitrate_bps := 30000; stream_target_bitrate_bps := 150000;
     stream_max_bitrate_bps := 200000;
     stream_num_temporal_layers := Some 2; stream_active := true |}.

Definition high_layer : VideoStream :=
  {| stream_width := 640; stream_height := 360;
     stream_min_bitrate_bps := 150000; stream_target_bitrate_bps := 500000;
     stream_max_bitrate_bps := 700000;
     stream_num_temporal_layers := None; stream_active := true |}.

(* The forced-fallback field trial with the group Enabled-1,2,100000, and
   what sscanf reads from that group. *)
Definition fallback_field_trial_group : string -> string :=
  fun name =>
    if bool_decide (name = kForcedFallbackFieldTrial)
    then "Enabled-1,2,100000" else "".

Definition sscanf_Enabled_example : string -> Z * (Z * Z * Z) :=
  fun group =>
    if bool_decide (group = "Enabled-1,2,100000") then (3, (1, 2, 100000))
    else (0, (0, 0, 0)).

(* FixedFec keeps no encoding data. *)
Definition FixedFec_SetEncodingData (width height num_temporal_layers
    max_payload_size : Z) (c : FixedFec) : FixedFec := c.

(* Two media SSRCs, each with an RTX SSRC, and a FlexFEC SSRC. *)
Definition rtx_config : Config :=
  {| rtp_ssrcs := [1001; 1002];
     rtp_rtx_ssrcs := [2001; 2002];
     rtp_max_packet_size := 1200;
     rtp_nack_rtp_history_ms := 1000;
     rtp_ulpfec_red_payload_type := 101;
     rtp_ulpfec_ulpfec_payload_type := 100;
     rtp_flexfec_payload_type := 110;
     rtp_flexfec_ssrc := 5005;
     rtp_flexfec_protected_media_ssrcs := [1001];
     encoder_settings_payload_name := "VP8";
     encoder_settings_payload_type := 96;
     suspend_below_min_bitrate := false;
     track_id := "video" |}.

(* A started stream whose encoder has been given a target rate. *)
Definition encoding_stream : VideoSendStreamImpl FixedFec :=
  set_encoder_target_rate_bps_ 800000
    (started_stream no_field_trials scenario_config 2000000 800000).

(* The report of a packet that did not arrive. *)
Definition lost (seq : Z) : PacketFeedback :=
  {| arrival_time_ms := kNotReceived_value; sequence_number := seq |}.

(* A session: start, send, stall and recover, adapt, receive feedback,
   switch the only layer off and stop. *)
Definition session : list Operation :=
  [Op_Start; Op_PacketAdded true 1001 7; Op_PacketAdded false 1001 8;
   Op_RunPosted (Post_OnPacketAdded 1001 8); Op_Tick; Op_EncodedImage;
   Op_Tick; Op_BitrateUpdated 1000000 0 50 1000;
   Op_PacketFeedbackVector true [arrived 7; lost 8];
   Op_OverheadChanged 40; Op_SetTransportOverhead 48;
   Op_UpdateActiveSimulcastLayers [false]; Op_Stop].

(* ===================================================================== *)
(*  Properties                                                           *)
(* ===================================================================== *)

(* --------------------------------------------------------------------- *)
(*  Arithmetic of the machine integers                                   *)
(* --------------------------------------------------------------------- *)

Lemma to_uint32_range z : 0 <= to_uint32 z < 2 ^ 32.
Proof. unfold to_uint32. apply Z.mod_pos_bound. lia. Qed.

Lemma to_uint32_small z : is_uint32 z -> to_uint32 z = z.
Proof. unfold to_uint32, is_uint32. intros Hz. apply Z.mod_small. lia. Qed.

Lemma to_size_t_small z : is_size_t z -> to_size_t z = z.
Proof. unfold to_size_t, is_size_t. intros Hz. apply Z.mod_small. lia. Qed.

(* Subtracting a wrapped value and adding the value back gives the minuend,
   up to the wrap. *)
Lemma to_uint32_sub_add b x :
  is_uint32 b -> to_uint32 (x + to_uint32 (b - to_uint32 x)) = b.
Proof.
  unfold to_uint32, is_uint32. intros Hb.
  rewrite Zplus_mod_idemp_r, Z.add_sub_assoc.
  rewrite Zminus_mod_idemp_r.
  replace (x + b - x) with b by lia.
  apply Z.mod_small. lia.
Qed.

Lemma CalculateOverheadRateBps_bounds pps overhead max_overhead_bps :
  0 <= max_overhead_bps ->
  0 <= CalculateOverheadRateBps pps overhead max_overhead_bps
       <= max_overhead_bps.
Proof.
  intros Hmax. unfold CalculateOverheadRateBps.
  pose proof (to_uint32_range
                (to_size_t (to_size_t (8 * overhead) * to_size_t pps))).
  lia.
Qed.

Lemma CalculatePacketRate_defined bitrate_bps packet_size_bytes :
  0 < packet_size_bytes < 2 ^ 61 ->
  is_Some (CalculatePacketRate bitrate_bps packet_size_bytes).
Proof.
  intros Hp. unfold CalculatePacketRate.
  rewrite to_size_t_small by (unfold is_size_t; lia).
  destruct (decide (8 * packet_size_bytes = 0)); [lia | eauto].
Qed.

(* --------------------------------------------------------------------- *)
(*  The bitrate feedback loop                                            *)
(* --------------------------------------------------------------------- *)

Section BitrateFeedbackLoop.
Context {F : Type} `{!FecController F}.
Implicit Type st : VideoSendStreamImpl F.

(* The arithmetic of steps 3 to 5 of the bitrate update. *)
Lemma budget_arith bitrate_bps target overhead maxb :
  is_uint32 bitrate_bps -> is_uint32 target ->
  0 <= overhead <= to_uint32 (bitrate_bps - target) ->
  let protection := to_uint32 (bitrate_bps - to_uint32 (target + overhead)) in
  let pushed := Z.min maxb target in
  pushed <= maxb /\
  to_uint32 (target + overhead + protection) = bitrate_bps /\
  (target <= bitrate_bps -> target + overhead + protection = bitrate_bps) /\
  (target <= bitrate_bps -> target <= maxb ->
     pushed + protection + overhead = bitrate_bps).
Proof.
  intros Hb Ht Ho protection pushed. subst protection pushed.
  split; [lia|]. split; [apply to_uint32_sub_add; exact Hb|].
  assert (Hexact : target <= bitrate_bps ->
            target + overhead
            + to_uint32 (bitrate_bps - to_uint32 (target + overhead))
            = bitrate_bps).
  { intros Hle. unfold is_uint32 in *.
    rewrite (to_uint32_small (bitrate_bps - target)) in Ho
      by (unfold is_uint32; lia).
    rewrite (to_uint32_small (target + overhead)) by (unfold is_uint32; lia).
    rewrite to_uint32_small by (unfold is_uint32; lia). lia. }
  split; [exact Hexact|].
  intros Hle Hmax. specialize (Hexact Hle). lia.
Qed.

(** C1 (as amended).  On a Started stream, with the wire types respected and
    non-empty packets when overhead accounting is on, OnBitrateUpdated
    returns; the rate handed to the encoder and to the statistics proxy is
    the minimum of the configured maximum and the target the FEC controller
    answered, hence at most the maximum; the answered target, the encoder
    overhead rate and the returned protection bitrate add up to the total
    bitrate modulo 2^32, and exactly when the answered target does not
    exceed the total; the same holds of the rate handed to the encoder
    when, in addition, the answered target is not above the maximum.  The
    answered target is what UpdateFecRates returns, as a uint32, for the
    payload bitrate, the send frame rate, the loss fraction, the loss mask
    gathered so far and the round-trip time, and the controller is left as
    UpdateFecRates leaves it.  The payload bitrate is the total, less, when
    overhead accounting is on, CalculateOverheadRateBps at the packet rate
    of the total; the encoder overhead rate is 0 when accounting is off and
    otherwise CalculateOverheadRateBps at the packet rate of the answered
    target, capped by the total minus that target; the returned protection
    bitrate is the total minus the sum of target and overhead, in
    uint32. *)
Theorem OnBitrateUpdated_rate_budget st bitrate_bps fraction_loss rtt
    probing_interval_ms :
  PayloadRouter.IsActive (payload_router_ st) = true ->
  is_uint32 bitrate_bps ->
  (send_side_bwe_with_overhead_ st = true ->
     0 <= overhead_bytes_per_packet_ st
       < rtp_max_packet_size (config_ st)
         + transport_overhead_bytes_per_packet_ st
     /\ rtp_max_packet_size (config_ st)
        + transport_overhead_bytes_per_packet_ st < 2 ^ 61) ->
  exists b st',
    OnBitrateUpdated_run st bitrate_bps fraction_loss rtt probing_interval_ms
      = Some (b, st')
    /\ OnBitrateUpdated st bitrate_bps fraction_loss rtt probing_interval_ms
       = Some (protection_bitrate b, st')
    /\ calls_ st'
       = calls_ st
         ++ [VideoStreamEncoder_OnBitrateUpdated
               (pushed_encoder_target_rate_bps b) fraction_loss rtt;
             SendStatisticsProxy_OnSetEncoderTargetRate
               (pushed_encoder_target_rate_bps b)]
    /\ pushed_encoder_target_rate_bps b
       = Z.min (encoder_max_bitrate_bps_ st) (fec_encoder_target_rate_bps b)
    /\ pushed_encoder_target_rate_bps b <= encoder_max_bitrate_bps_ st
    /\ to_uint32 (fec_encoder_target_rate_bps b + encoder_overhead_rate_bps b
                  + protection_bitrate b) = bitrate_bps
    /\ (fec_encoder_target_rate_bps b <= bitrate_bps ->
        fec_encoder_target_rate_bps b + encoder_overhead_rate_bps b
        + protection_bitrate b = bitrate_bps)
    /\ (fec_encoder_target_rate_bps b <= bitrate_bps ->
        fec_encoder_target_rate_bps b <= encoder_max_bitrate_bps_ st ->
        pushed_encoder_target_rate_bps b + protection_bitrate b
        + encoder_overhead_rate_bps b = bitrate_bps)
    /\ fec_encoder_target_rate_bps b
       = to_uint32
           (UpdateFecRates (payload_bitrate_bps b) (stats_send_frame_rate_ st)
              fraction_loss (loss_mask_vector_ st) rtt (fec_controller_ st)).1
    /\ fec_controller_ st'
       = (UpdateFecRates (payload_bitrate_bps b) (stats_send_frame_rate_ st)
            fraction_loss (loss_mask_vector_ st) rtt (fec_controller_ st)).2
    /\ (send_side_bwe_with_overhead_ st = false ->
        payload_bitrate_bps b = bitrate_bps
        /\ encoder_overhead_rate_bps b = 0)
    /\ (send_side_bwe_with_overhead_ st = true ->
        exists packet_rate encoder_packet_rate,
          CalculatePacketRate bitrate_bps
            (to_size_t (rtp_max_packet_size (config_ st)
                        + transport_overhead_bytes_per_packet_ st))
          = Some packet_rate
          /\ payload_bitrate_bps b
             = to_uint32
                 (bitrate_bps
                  - CalculateOverheadRateBps packet_rate
                      (to_size_t (overhead_bytes_per_packet_ st
                                  + transport_overhead_bytes_per_packet_ st))
                      bitrate_bps)
          /\ CalculatePacketRate (fec_encoder_target_rate_bps b)
               (to_size_t
                  (to_size_t (rtp_max_packet_size (config_ st)
                              + transport_overhead_bytes_per_packet_ st)
                   - overhead_bytes_per_packet_ st))
             = Some encoder_packet_rate
          /\ encoder_overhead_rate_bps b
             = CalculateOverheadRateBps encoder_packet_rate
                 (to_size_t (overhead_bytes_per_packet_ st
                             + transport_overhead_bytes_per_packet_ st))
                 (to_uint32 (bitrate_bps - fec_encoder_target_rate_bps b)))
    /\ protection_bitrate b
       = to_uint32
           (bitrate_bps
            - to_uint32 (fec_encoder_target_rate_bps b
                         + encoder_overhead_rate_bps b)).
Proof.
  intros _ Hb Hsizes.
  unfold OnBitrateUpdated, OnBitrateUpdated_run.
  destruct (send_side_bwe_with_overhead_ st) eqn:Hflag.
  - destruct (Hsizes eq_refl) as [Ho Hm]. clear Hsizes.
    set (m := rtp_max_packet_size (config_ st)
              + transport_overhead_bytes_per_packet_ st) in *.
    destruct (CalculatePacketRate_defined bitrate_bps (to_size_t m))
      as [rate1 Hrate1].
    { rewrite to_size_t_small by (unfold is_size_t; lia). lia. }
    rewrite Hrate1. cbn.
    destruct (UpdateFecRates _ _ _ _ _ _) as [target fec] eqn:Hfec. cbn.
    rewrite Hflag. fold m.
    destruct (CalculatePacketRate_defined (to_uint32 target)
                (to_size_t (to_size_t m - overhead_bytes_per_packet_ st)))
      as [rate2 Hrate2].
    { rewrite (to_size_t_small m) by (unfold is_size_t; lia).
      rewrite to_size_t_small by (unfold is_size_t; lia). lia. }
    rewrite Hrate2. cbn.
    eexists _, _. split; [reflexivity|]. split; [reflexivity|]. cbn.
    split; [by rewrite <- app_assoc|]. split; [reflexivity|].
    rewrite Hfec. cbn.
    assert (Hbudget := budget_arith bitrate_bps (to_uint32 target)
                         (CalculateOverheadRateBps rate2
                            (to_size_t
                               (overhead_bytes_per_packet_ st
                                + transport_overhead_bytes_per_packet_ st))
                            (to_uint32 (bitrate_bps - to_uint32 target)))
                         (encoder_max_bitrate_bps_ st) Hb
                         (to_uint32_range target)
                         (CalculateOverheadRateBps_bounds _ _ _
                            (proj1 (to_uint32_range _)))).
    cbv zeta in Hbudget. destruct Hbudget as (B1 & B2 & B3 & B4).
    split; [exact B1|]. split; [exact B2|]. split; [exact B3|].
    split; [exact B4|]. split; [reflexivity|]. split; [reflexivity|].
    split; [discriminate|]. split; [|reflexivity].
    intros _. exists rate1, rate2. repeat split; assumption.
  - cbn. destruct (UpdateFecRates _ _ _ _ _ _) as [target fec] eqn:Hfec. cbn.
    rewrite Hflag. cbn.
    eexists _, _. split; [reflexivity|]. split; [reflexivity|]. cbn.
    split; [by rewrite <- app_assoc|]. split; [reflexivity|].
    rewrite Hfec. cbn.
    assert (Hzero : 0 <= 0 <= to_uint32 (bitrate_bps - to_uint32 target)).
    { pose proof (to_uint32_range (bitrate_bps - to_uint32 target)). lia. }
    assert (Hbudget := budget_arith bitrate_bps (to_uint32 target) 0
                         (encoder_max_bitrate_bps_ st) Hb
                         (to_uint32_range target) Hzero).
    cbv zeta in Hbudget. destruct Hbudget as (B1 & B2 & B3 & B4).
    split; [exact B1|]. split; [exact B2|]. split; [exact B3|].
    split; [exact B4|]. split; [reflexivity|]. split; [reflexivity|].
    split; [intros _; split; reflexivity|]. split; [discriminate|].
    reflexivity.
Qed.

(** C4.  OnBitrateUpdated(1_000_000, 0, 50, 1000) with overhead accounting
    disabled and a FEC controller answering 800_000 returns the protection
    bitrate 200_000 = 1_000_000 - (800_000 + 0). *)
Theorem OnBitrateUpdated_scenario_protection st :
  send_side_bwe_with_overhead_ st = false ->
  (UpdateFecRates 1000000 (stats_send_frame_rate_ st) 0 (loss_mask_vector_ st)
     50 (fec_controller_ st)).1 = 800000 ->
  exists b st',
    OnBitrateUpdated_run st 1000000 0 50 1000 = Some (b, st')
    /\ OnBitrateUpdated st 1000000 0 50 1000 = Some (200000, st')
    /\ fec_encoder_target_rate_bps b = 800000
    /\ encoder_overhead_rate_bps b = 0
    /\ protection_bitrate b
       = 1000000
         - (fec_encoder_target_rate_bps b + encoder_overhead_rate_bps b)
    /\ protection_bitrate b = 200000.
Proof.
  intros Hoff Hfec.
  unfold OnBitrateUpdated, OnBitrateUpdated_run. rewrite Hoff. cbn.
  destruct (UpdateFecRates _ _ _ _ _ _) as [target fec]. cbn in *.
  rewrite Hoff. subst target. cbn.
  eexists _, _. repeat split; reflexivity.
Qed.

End BitrateFeedbackLoop.

(* --------------------------------------------------------------------- *)
(*  The protection configurator                                          *)
(* --------------------------------------------------------------------- *)

Section ProtectionConfigurator.
Context {F : Type} `{!FecController F}.
Variable field_trial_IsEnabled : string -> bool.
Variable PayloadStringToCodecType : string -> VideoCodecType.
Implicit Type st : VideoSendStreamImpl F.
Implicit Type l : ProtectionLocals.

(* Each step leaves a payload type alone or sets it to -1. *)
Lemma disable_ulpfec_experiment_types l :
  let l' := disable_ulpfec_experiment field_trial_IsEnabled l in
  red_payload_type l' = red_payload_type l
  /\ ulpfec_payload_type l'
     = if field_trial_IsEnabled "WebRTC-DisableUlpFecExperiment" then -1
       else ulpfec_payload_type l.
Proof.
  unfold disable_ulpfec_experiment.
  destruct (field_trial_IsEnabled _); split; reflexivity.
Qed.

Lemma flexfec_takes_priority_types flexfec l :
  let l' := flexfec_takes_priority flexfec l in
  red_payload_type l'
  = (if flexfec && IsRedEnabled l then -1 else red_payload_type l)
  /\ ulpfec_payload_type l'
     = if flexfec && IsUlpfecEnabled l then -1 else ulpfec_payload_type l.
Proof.
  unfold flexfec_takes_priority.
  destruct flexfec; [|split; reflexivity].
  destruct (IsRedEnabled l) eqn:Hred;
    unfold IsUlpfecEnabled; cbn [ulpfec_payload_type DisableRed protection_LOG];
    destruct (bool_decide (ulpfec_payload_type l >= 0));
    split; reflexivity.
Qed.

Lemma nack_without_picture_id_types nack name l :
  let l' := nack_without_picture_id PayloadStringToCodecType nack name l in
  red_payload_type l' = red_payload_type l
  /\ ulpfec_payload_type l'
     = if nack && IsUlpfecEnabled l
          && negb (PayloadTypeSupportsSkippingFecPackets
                     PayloadStringToCodecType name)
       then -1 else ulpfec_payload_type l.
Proof.
  unfold nack_without_picture_id.
  destruct (_ && _ && _); split; reflexivity.
Qed.

Lemma verify_payload_types_types l :
  let l' := verify_payload_types l in
  red_payload_type l' = red_payload_type l
  /\ ulpfec_payload_type l'
     = if IsUlpfecEnabled l && negb (IsRedEnabled l) then -1
       else ulpfec_payload_type l.
Proof.
  unfold verify_payload_types.
  destruct (IsUlpfecEnabled l), (IsRedEnabled l); split; reflexivity.
Qed.

Abbreviation locals :=
  (ConfigureProtection_locals field_trial_IsEnabled PayloadStringToCodecType).

(* The two payload types at the end of the pass, in closed form. *)
Lemma ConfigureProtection_locals_types st :
  let red := rtp_ulpfec_red_payload_type (config_ st) in
  let ulpfec := rtp_ulpfec_ulpfec_payload_type (config_ st) in
  let ulpfec1 :=
    if field_trial_IsEnabled "WebRTC-DisableUlpFecExperiment" then -1
    else ulpfec in
  let red2 :=
    if flexfec_enabled st && bool_decide (red >= 0) then -1 else red in
  let ulpfec2 :=
    if flexfec_enabled st && bool_decide (ulpfec1 >= 0) then -1
    else ulpfec1 in
  let ulpfec3 :=
    if nack_enabled st && bool_decide (ulpfec2 >= 0)
       && negb (PayloadTypeSupportsSkippingFecPackets
                  PayloadStringToCodecType
                  (encoder_settings_payload_name (config_ st)))
    then -1 else ulpfec2 in
  red_payload_type (locals st) = red2
  /\ ulpfec_payload_type (locals st)
     = if bool_decide (ulpfec3 >= 0) && negb (bool_decide (red2 >= 0))
       then -1 else ulpfec3.
Proof.
  unfold ConfigureProtection_locals. cbv zeta.
  set (l0 := {| red_payload_type := _ |}).
  destruct (disable_ulpfec_experiment_types l0) as [R1 U1].
  set (l1 := disable_ulpfec_experiment _ l0) in *.
  destruct (flexfec_takes_priority_types (flexfec_enabled st) l1) as [R2 U2].
  set (l2 := flexfec_takes_priority _ l1) in *.
  destruct (nack_without_picture_id_types (nack_enabled st)
              (encoder_settings_payload_name (config_ st)) l2) as [R3 U3].
  set (l3 := nack_without_picture_id _ _ _ l2) in *.
  destruct (verify_payload_types_types l3) as [R4 U4].
  unfold IsUlpfecEnabled, IsRedEnabled in *.
  rewrite R4, U4, R3, U3, R2, U2, R1, U1. split; reflexivity.
Qed.

Lemma PayloadTypeSupportsSkippingFecPackets_true name :
  PayloadTypeSupportsSkippingFecPackets PayloadStringToCodecType name = true
  <-> PayloadStringToCodecType name = kVideoCodecVP8
      \/ PayloadStringToCodecType name = kVideoCodecVP9.
Proof.
  unfold PayloadTypeSupportsSkippingFecPackets.
  destruct (PayloadStringToCodecType name); cbn; split; intros Hc;
    first [ discriminate | reflexivity | tauto
          | destruct Hc; discriminate ].
Qed.

(* What each step appends to the log. *)
Lemma disable_ulpfec_experiment_log l :
  protection_log (disable_ulpfec_experiment field_trial_IsEnabled l)
  = protection_log l
    ++ (if field_trial_IsEnabled "WebRTC-DisableUlpFecExperiment"
        then [(LS_INFO, "Experiment to disable sending ULPFEC is enabled.")]
        else []).
Proof.
  unfold disable_ulpfec_experiment.
  destruct (field_trial_IsEnabled _); cbn; [|rewrite app_nil_r]; reflexivity.
Qed.

Lemma flexfec_takes_priority_log flexfec l :
  protection_log (flexfec_takes_priority flexfec l)
  = protection_log l
    ++ (if flexfec && IsRedEnabled l
        then [(LS_INFO,
               "Both FlexFEC and RED are configured. Disabling RED.")]
        else [])
    ++ (if flexfec && IsUlpfecEnabled l
        then [(LS_INFO,
               "Both FlexFEC and ULPFEC are configured. Disabling ULPFEC.")]
        else []).
Proof.
  unfold flexfec_takes_priority.
  destruct flexfec; [|cbn; rewrite app_nil_r; reflexivity].
  destruct (IsRedEnabled l) eqn:Hred;
    unfold IsUlpfecEnabled; cbn [ulpfec_payload_type DisableRed protection_LOG];
    destruct (bool_decide (ulpfec_payload_type l >= 0)); cbn;
    rewrite <- ?app_assoc, ?app_nil_r; reflexivity.
Qed.

Lemma nack_without_picture_id_log nack name l :
  protection_log
    (nack_without_picture_id PayloadStringToCodecType nack name l)
  = protection_log l
    ++ (if nack && IsUlpfecEnabled l
           && negb (PayloadTypeSupportsSkippingFecPackets
                      PayloadStringToCodecType name)
        then [(LS_WARNING,
               "Transmitting payload type without picture ID using NACK+ULPFEC is a waste of bandwidth since ULPFEC packets also have to be retransmitted. Disabling ULPFEC.")]
        else []).
Proof.
  unfold nack_without_picture_id.
  destruct (_ && _ && _); cbn; [|rewrite app_nil_r]; reflexivity.
Qed.

Lemma verify_payload_types_log l :
  protection_log (verify_payload_types l)
  = protection_log l
    ++ (if IsUlpfecEnabled l && negb (IsRedEnabled l)
        then [(LS_WARNING,
               "ULPFEC is enabled but RED is disabled. Disabling ULPFEC.")]
        else []).
Proof.
  unfold verify_payload_types.
  destruct (IsUlpfecEnabled l), (IsRedEnabled l); cbn;
    rewrite ?app_nil_r; reflexivity.
Qed.

(* The log of the pass in closed form: one line per rule that fires, in the
   order of the rules; a rule that disables ULPFEC fires only if no rule
   before it has done so. *)
Lemma ConfigureProtection_locals_log st :
  let cfg := config_ st in
  let trial := field_trial_IsEnabled "WebRTC-DisableUlpFecExperiment" in
  let flexfec := flexfec_enabled st in
  let red := bool_decide (rtp_ulpfec_red_payload_type cfg >= 0) in
  let ulpfec := bool_decide (rtp_ulpfec_ulpfec_payload_type cfg >= 0) in
  let no_picture_id :=
    nack_enabled st
    && negb (PayloadTypeSupportsSkippingFecPackets PayloadStringToCodecType
               (encoder_settings_payload_name cfg)) in
  protection_log (locals st)
  = (if trial
     then [(LS_INFO, "Experiment to disable sending ULPFEC is enabled.")]
     else [])
    ++ (if flexfec && red
        then [(LS_INFO,
               "Both FlexFEC and RED are configured. Disabling RED.")]
        else [])
    ++ (if negb trial && flexfec && ulpfec
        then [(LS_INFO,
               "Both FlexFEC and ULPFEC are configured. Disabling ULPFEC.")]
        else [])
    ++ (if negb trial && negb flexfec && ulpfec && no_picture_id
        then [(LS_WARNING,
               "Transmitting payload type without picture ID using NACK+ULPFEC is a waste of bandwidth since ULPFEC packets also have to be retransmitted. Disabling ULPFEC.")]
        else [])
    ++ (if negb trial && negb flexfec && ulpfec && negb no_picture_id
           && negb red
        then [(LS_WARNING,
               "ULPFEC is enabled but RED is disabled. Disabling ULPFEC.")]
        else []).
Proof.
  intros cfg trial flexfec red ulpfec no_picture_id.
  unfold ConfigureProtection_locals. cbv zeta.
  set (l0 := {| red_payload_type := _ |}).
  destruct (disable_ulpfec_experiment_types l0) as [R1 U1].
  pose proof (disable_ulpfec_experiment_log l0) as L1.
  set (l1 := disable_ulpfec_experiment _ l0) in *.
  destruct (flexfec_takes_priority_types (flexfec_enabled st) l1) as [R2 U2].
  pose proof (flexfec_takes_priority_log (flexfec_enabled st) l1) as L2.
  set (l2 := flexfec_takes_priority _ l1) in *.
  destruct (nack_without_picture_id_types (nack_enabled st)
              (encoder_settings_payload_name (config_ st)) l2) as [R3 U3].
  pose proof (nack_without_picture_id_log (nack_enabled st)
                (encoder_settings_payload_name (config_ st)) l2) as L3.
  set (l3 := nack_without_picture_id _ _ _ l2) in *.
  rewrite verify_payload_types_log, L3, L2, L1.
  unfold IsUlpfecEnabled, IsRedEnabled in *.
  rewrite R3, U3, R2, U2, R1, U1.
  subst l0 no_picture_id red ulpfec trial flexfec cfg.
  cbn [red_payload_type ulpfec_payload_type protection_log app].
  set (r := rtp_ulpfec_red_payload_type (config_ st)).
  set (u := rtp_ulpfec_ulpfec_payload_type (config_ st)).
  destruct (PayloadTypeSupportsSkippingFecPackets _ _),
    (field_trial_IsEnabled _), (flexfec_enabled st), (nack_enabled st),
    (decide (r >= 0)), (decide (u >= 0));
    repeat first
      [ progress cbn [andb orb negb app]
      | match goal with
        | |- context [bool_decide ?P] =>
            first [ rewrite (bool_decide_true P) by lia
                  | rewrite (bool_decide_false P) by lia ]
        end ];
    reflexivity.
Qed.

(* The rules of the pass, read off the closed form. *)
Lemma ConfigureProtection_rules st :
  let l := locals st in
  let cfg := config_ st in
  let codec := PayloadStringToCodecType (encoder_settings_payload_name cfg) in
  (is_Some (flexfec_sender_ st) ->
     IsRedEnabled l = false /\ IsUlpfecEnabled l = false)
  /\ (rtp_nack_rtp_history_ms cfg > 0 ->
      rtp_ulpfec_ulpfec_payload_type cfg >= 0 ->
      codec <> kVideoCodecVP8 -> codec <> kVideoCodecVP9 ->
      IsUlpfecEnabled l = false)
  /\ (rtp_ulpfec_ulpfec_payload_type cfg >= 0 ->
      rtp_ulpfec_red_payload_type cfg < 0 ->
      IsUlpfecEnabled l = false)
  /\ (field_trial_IsEnabled "WebRTC-DisableUlpFecExperiment" = false ->
      flexfec_sender_ st = None ->
      codec = kVideoCodecVP8 \/ codec = kVideoCodecVP9 ->
      rtp_nack_rtp_history_ms cfg > 0 ->
      rtp_ulpfec_ulpfec_payload_type cfg >= 0 ->
      rtp_ulpfec_red_payload_type cfg >= 0 ->
      ulpfec_payload_type l = rtp_ulpfec_ulpfec_payload_type cfg
      /\ red_payload_type l = rtp_ulpfec_red_payload_type cfg)
  /\ (field_trial_IsEnabled "WebRTC-DisableUlpFecExperiment" = true ->
      IsUlpfecEnabled l = false)
  /\ (flexfec_sender_ st = None ->
      red_payload_type l = rtp_ulpfec_red_payload_type cfg)
  /\ (IsUlpfecEnabled l = true <->
      field_trial_IsEnabled "WebRTC-DisableUlpFecExperiment" = false
      /\ flexfec_sender_ st = None
      /\ rtp_ulpfec_ulpfec_payload_type cfg >= 0
      /\ (rtp_nack_rtp_history_ms cfg > 0 ->
          codec = kVideoCodecVP8 \/ codec = kVideoCodecVP9)
      /\ rtp_ulpfec_red_payload_type cfg >= 0).
Proof.
  intros l cfg codec.
  destruct (ConfigureProtection_locals_types st) as [Hred Hulpfec].
  fold l cfg in Hred, Hulpfec.
  pose proof (PayloadTypeSupportsSkippingFecPackets_true
                (encoder_settings_payload_name cfg)) as Hskip.
  fold codec in Hskip.
  unfold IsRedEnabled, IsUlpfecEnabled. rewrite Hred, Hulpfec.
  clear Hred Hulpfec.
  unfold flexfec_enabled, nack_enabled. fold cfg.
  set (r := rtp_ulpfec_red_payload_type cfg).
  set (u := rtp_ulpfec_ulpfec_payload_type cfg).
  set (n := rtp_nack_rtp_history_ms cfg).
  assert (Hsome : forall s : FlexfecSender,
            bool_decide (is_Some (Some s)) = true)
    by (intros s; apply bool_decide_eq_true; eauto).
  assert (Hnone : bool_decide (is_Some (@None FlexfecSender)) = false)
    by (apply bool_decide_eq_false; apply is_Some_None).
  destruct (PayloadTypeSupportsSkippingFecPackets _ _),
    (field_trial_IsEnabled _), (flexfec_sender_ st) as [s|],
    (decide (r >= 0)), (decide (u >= 0)), (decide (n > 0));
    rewrite ?Hsome, ?Hnone;
    repeat first
      [ progress cbn [andb orb negb]
      | match goal with
        | |- context [bool_decide ?P] =>
            first [ rewrite (bool_decide_true P) by lia
                  | rewrite (bool_decide_false P) by lia ]
        end ].
  all: repeat split; intros;
    try first [ reflexivity | lia | discriminate | congruence
              | exfalso; eapply is_Some_None; eassumption
              | intuition (first [congruence | lia]) ].
Qed.

(** C3 (as amended).  The policy computed by ConfigureProtection: with a
    FlexFEC sender both RED and ULPFEC end disabled; with NACK, a configured
    ULPFEC ends disabled for a payload that is neither VP8 nor VP9; a
    configured ULPFEC without RED ends disabled; for VP8 or VP9 with NACK a
    configured ULPFEC with RED stays as configured provided there is no
    FlexFEC sender and the field trial WebRTC-DisableUlpFecExperiment is
    off, that trial disabling ULPFEC whenever it is on.  RED is decided by
    the FlexFEC rule alone and is not revisited when a later rule disables
    ULPFEC; ULPFEC ends enabled exactly when none of the four rules fires.
    The resulting pair is set on every module and the FEC controller is
    told (FlexFEC or ULPFEC enabled, NACK enabled).  The rules are applied
    once, in the order field trial, FlexFEC (RED, then ULPFEC), NACK without
    picture ID, ULPFEC without RED, each on the values the rules before it
    have left: the pass logs one line per rule that fires, in this order,
    the field trial whenever it is on, the FlexFEC rule about RED whenever
    there is a FlexFEC sender and RED is configured, and each rule about
    ULPFEC only when ULPFEC is configured and no rule before it has
    disabled it. *)
Theorem ConfigureProtection_policy st :
  let l := locals st in
  let cfg := config_ st in
  let codec := PayloadStringToCodecType (encoder_settings_payload_name cfg) in
  (is_Some (flexfec_sender_ st) ->
     IsRedEnabled l = false /\ IsUlpfecEnabled l = false)
  /\ (rtp_nack_rtp_history_ms cfg > 0 ->
      rtp_ulpfec_ulpfec_payload_type cfg >= 0 ->
      codec <> kVideoCodecVP8 -> codec <> kVideoCodecVP9 ->
      IsUlpfecEnabled l = false)
  /\ (rtp_ulpfec_ulpfec_payload_type cfg >= 0 ->
      rtp_ulpfec_red_payload_type cfg < 0 ->
      IsUlpfecEnabled l = false)
  /\ (field_trial_IsEnabled "WebRTC-DisableUlpFecExperiment" = false ->
      flexfec_sender_ st = None ->
      codec = kVideoCodecVP8 \/ codec = kVideoCodecVP9 ->
      rtp_nack_rtp_history_ms cfg > 0 ->
      rtp_ulpfec_ulpfec_payload_type cfg >= 0 ->
      rtp_ulpfec_red_payload_type cfg >= 0 ->
      ulpfec_payload_type l = rtp_ulpfec_ulpfec_payload_type cfg
      /\ red_payload_type l = rtp_ulpfec_red_payload_type cfg)
  /\ (field_trial_IsEnabled "WebRTC-DisableUlpFecExperiment" = true ->
      IsUlpfecEnabled l = false)
  /\ (flexfec_sender_ st = None ->
      red_payload_type l = rtp_ulpfec_red_payload_type cfg)
  /\ (IsUlpfecEnabled l = true <->
      field_trial_IsEnabled "WebRTC-DisableUlpFecExperiment" = false
      /\ flexfec_sender_ st = None
      /\ rtp_ulpfec_ulpfec_payload_type cfg >= 0
      /\ (rtp_nack_rtp_history_ms cfg > 0 ->
          codec = kVideoCodecVP8 \/ codec = kVideoCodecVP9)
      /\ rtp_ulpfec_red_payload_type cfg >= 0)
  /\ rtp_rtcp_modules_
       (ConfigureProtection field_trial_IsEnabled PayloadStringToCodecType st)
     = map (fun m =>
              SetUlpfecConfig (red_payload_type l) (ulpfec_payload_type l)
                (SetStorePacketsStatus true kMinSendSidePacketHistorySize m))
           (rtp_rtcp_modules_ st)
  /\ fec_controller_
       (ConfigureProtection field_trial_IsEnabled PayloadStringToCodecType st)
     = SetProtectionMethod (flexfec_enabled st || IsUlpfecEnabled l)
         (nack_enabled st) (fec_controller_ st)
  /\ log_
       (ConfigureProtection field_trial_IsEnabled PayloadStringToCodecType st)
     = log_ st ++ protection_log l
  /\ (let trial := field_trial_IsEnabled "WebRTC-DisableUlpFecExperiment" in
      let flexfec := flexfec_enabled st in
      let red := bool_decide (rtp_ulpfec_red_payload_type cfg >= 0) in
      let ulpfec := bool_decide (rtp_ulpfec_ulpfec_payload_type cfg >= 0) in
      let no_picture_id :=
        nack_enabled st
        && negb (PayloadTypeSupportsSkippingFecPackets
                   PayloadStringToCodecType
                   (encoder_settings_payload_name cfg)) in
      protection_log l
      = (if trial
         then [(LS_INFO, "Experiment to disable sending ULPFEC is enabled.")]
         else [])
        ++ (if flexfec && red
            then [(LS_INFO,
                   "Both FlexFEC and RED are configured. Disabling RED.")]
            else [])
        ++ (if negb trial && flexfec && ulpfec
            then [(LS_INFO,
                   "Both FlexFEC and ULPFEC are configured. Disabling ULPFEC.")]
            else [])
        ++ (if negb trial && negb flexfec && ulpfec && no_picture_id
            then [(LS_WARNING,
                   "Transmitting payload type without picture ID using NACK+ULPFEC is a waste of bandwidth since ULPFEC packets also have to be retransmitted. Disabling ULPFEC.")]
            else [])
        ++ (if negb trial && negb flexfec && ulpfec && negb no_picture_id
               && negb red
            then [(LS_WARNING,
                   "ULPFEC is enabled but RED is disabled. Disabling ULPFEC.")]
            else [])).
Proof.
  intros l cfg codec.
  pose proof (ConfigureProtection_rules st) as Hrules. cbv zeta in Hrules.
  fold l cfg codec in Hrules.
  destruct Hrules as (H1 & H2 & H3 & H4 & H5 & H6 & H7).
  split; [exact H1|]. split; [exact H2|]. split; [exact H3|].
  split; [exact H4|]. split; [exact H5|]. split; [exact H6|].
  split; [exact H7|]. split; [reflexivity|]. split; [reflexivity|].
  split; [reflexivity|].
  exact (ConfigureProtection_locals_log st).
Qed.

(* Nothing after the member initialisers changes the configuration or the
   FlexFEC sender. *)
Lemma VideoSendStreamImpl_new_config config max_bitrate fec rate :
  let st := VideoSendStreamImpl_new field_trial_IsEnabled
              PayloadStringToCodecType config max_bitrate fec rate in
  config_ st = config
  /\ flexfec_sender_ st = (MaybeCreateFlexfecSender config).1.
Proof.
  unfold VideoSendStreamImpl_new.
  destruct (MaybeCreateFlexfecSender config) as [sender lines].
  split; reflexivity.
Qed.

(* What the constructor leaves in the modules and in the FEC controller. *)
Lemma VideoSendStreamImpl_new_protection config max_bitrate fec rate :
  let st := VideoSendStreamImpl_new field_trial_IsEnabled
              PayloadStringToCodecType config max_bitrate fec rate in
  let l := locals st in
  rtp_rtcp_modules_ st
  = map (fun m =>
           SetMaxRtpPacketSize (rtp_max_packet_size config)
             (SetUlpfecConfig (red_payload_type l) (ulpfec_payload_type l)
                (SetStorePacketsStatus true kMinSendSidePacketHistorySize m)))
        (CreateRtpRtcpModules config (MaybeCreateFlexfecSender config).1)
  /\ fec_controller_ st
     = SetProtectionMethod (flexfec_enabled st || IsUlpfecEnabled l)
         (nack_enabled st) fec.
Proof.
  unfold VideoSendStreamImpl_new.
  destruct (MaybeCreateFlexfecSender config) as [sender lines].
  split.
  - cbn [rtp_rtcp_modules_ set_rtp_rtcp_modules_ ConfigureProtection
         set_fec_controller_ set_log_ RTC_LOG].
    rewrite map_map. reflexivity.
  - reflexivity.
Qed.

Lemma MaybeCreateFlexfecSender_negative config :
  rtp_flexfec_payload_type config < 0 ->
  MaybeCreateFlexfecSender config = (None, []).
Proof.
  intros Hneg. unfold MaybeCreateFlexfecSender.
  destruct (decide (rtp_flexfec_payload_type config < 0)); [reflexivity|lia].
Qed.

(** C9 (as amended).  For a configuration with ssrcs = [1001], no RTX
    SSRCs, a negative FlexFEC payload type, ULPFEC payload type 100, RED
    payload type 101, NACK history 1000 ms and codec name VP8, constructed
    while the field trial WebRTC-DisableUlpFecExperiment is off, the policy
    is: no FlexFEC, RED 101, ULPFEC 100, NACK on; the one module is given
    (101, 100), and the FEC controller is told (true, true). *)
Theorem construction_scenario_policy (config : Config)
    (initial_encoder_max_bitrate : Z) (fec_controller : F)
    (send_frame_rate : Z) :
  field_trial_IsEnabled "WebRTC-DisableUlpFecExperiment" = false ->
  PayloadStringToCodecType "VP8" = kVideoCodecVP8 ->
  rtp_ssrcs config = [1001] ->
  rtp_rtx_ssrcs config = [] ->
  rtp_flexfec_payload_type config < 0 ->
  rtp_ulpfec_ulpfec_payload_type config = 100 ->
  rtp_ulpfec_red_payload_type config = 101 ->
  rtp_nack_rtp_history_ms config = 1000 ->
  encoder_settings_payload_name config = "VP8" ->
  let st := VideoSendStreamImpl_new field_trial_IsEnabled
              PayloadStringToCodecType config initial_encoder_max_bitrate
              fec_controller send_frame_rate in
  flexfec_sender_ st = None
  /\ red_payload_type (locals st) = 101
  /\ ulpfec_payload_type (locals st) = 100
  /\ nack_enabled st = true
  /\ rtp_rtcp_modules_ st
     = [ {| module_flexfec := false;
            module_store_packets := Some (true, kMinSendSidePacketHistorySize);
            module_ulpfec_config := Some (101, 100);
            module_max_rtp_packet_size := Some (rtp_max_packet_size config) |} ]
  /\ fec_controller_ st = SetProtectionMethod true true fec_controller.
Proof.
  intros Htrial Hvp8 Hssrcs _ Hflexfec Hulpfec Hred Hnack Hname st.
  destruct (VideoSendStreamImpl_new_config config initial_encoder_max_bitrate
              fec_controller send_frame_rate) as [Hconfig Hsender].
  fold st in Hconfig, Hsender.
  rewrite (MaybeCreateFlexfecSender_negative config Hflexfec) in Hsender.
  cbn in Hsender.
  destruct (ConfigureProtection_rules st) as (_ & _ & _ & Hkept & _).
  rewrite Hconfig, Hname, Hvp8, Hulpfec, Hred, Hnack in Hkept.
  destruct (Hkept Htrial Hsender) as [Hu Hr]; [by left | lia | lia | lia |].
  assert (Hnack' : nack_enabled st = true).
  { unfold nack_enabled. rewrite Hconfig, Hnack. by apply bool_decide_eq_true. }
  destruct (VideoSendStreamImpl_new_protection config
              initial_encoder_max_bitrate fec_controller send_frame_rate)
    as [Hmodules Hfec].
  fold st in Hmodules, Hfec.
  repeat split; try assumption.
  - rewrite Hmodules, Hu, Hr.
    rewrite (MaybeCreateFlexfecSender_negative config Hflexfec).
    unfold CreateRtpRtcpModules. rewrite Hssrcs. reflexivity.
  - rewrite Hfec, Hnack'. unfold flexfec_enabled, IsUlpfecEnabled.
    rewrite Hsender, Hu. reflexivity.
Qed.
End ProtectionConfigurator.

(* --------------------------------------------------------------------- *)
(*  The encoder-activity watchdog                                      *)
(* --------------------------------------------------------------------- *)

Section Watchdog.
Implicit Type t : CheckEncoderActivityTask.

(* A stopped task takes the early exit: nothing is sent, nothing is stored,
   and the queue deletes the task. *)
Lemma Run_stopped t :
  send_stream_ t = false ->
  Run t = {| run_signals := []; run_task := t; run_returns := true |}.
Proof. intros Hs. unfold Run. rewrite Hs. reflexivity. Qed.

(* Once timed out, a tick without a ping before it is silent and leaves the
   task as it was. *)
Lemma Run_idle_timed_out t :
  send_stream_ t = true -> activity_ t = 0 -> timed_out_ t = true ->
  Run t = {| run_signals := []; run_task := t; run_returns := false |}.
Proof.
  destruct t as [a s o]. cbn. intros -> -> ->. reflexivity.
Qed.

(* The tick that detects the stall. *)
Lemma Run_first_timeout t :
  send_stream_ t = true -> activity_ t = 0 -> timed_out_ t = false ->
  Run t = {| run_signals := [EncoderTimedOut];
             run_task := {| activity_ := 0; send_stream_ := true;
                            timed_out_ := true |};
             run_returns := false |}.
Proof.
  destruct t as [a s o]. cbn. intros -> -> ->. reflexivity.
Qed.

Lemma run_events_idle_timed_out n t :
  send_stream_ t = true -> activity_ t = 0 -> timed_out_ t = true ->
  run_events (repeat Tick n) t = ([], t).
Proof.
  intros Hs Ha Ht. induction n as [|n IH]; [reflexivity|].
  cbn [repeat run_events]. rewrite (Run_idle_timed_out t Hs Ha Ht).
  cbn [run_task run_signals]. rewrite IH. reflexivity.
Qed.

(** C5.  A run of the watchdog on a live task posts the task again with the
    activity flag reset to 0, whatever it signalled.  With no ping since
    the previous tick and the task not yet timed out it signals
    EncoderTimedOut exactly once and becomes timed out; any number of
    further ticks without ping signal nothing, so a stretch of one or more
    idle ticks yields that one signal.  A ping on a timed-out task makes the
    next tick signal EncoderActive exactly once and leave the timed-out
    state.  In the two remaining cases nothing is signalled.  A task that
    was stopped takes the early exit: nothing is signalled and the queue
    deletes it. *)
Theorem watchdog_tick t :
  let r := Run t in
  (send_stream_ t = true ->
     run_returns r = false
     /\ activity_ (run_task r) = 0
     /\ send_stream_ (run_task r) = true)
  /\ (send_stream_ t = true -> activity_ t = 0 -> timed_out_ t = false ->
      run_signals r = [EncoderTimedOut]
      /\ timed_out_ (run_task r) = true
      /\ (forall n,
            run_events (repeat Tick n) (run_task r) = ([], run_task r))
      /\ (forall n,
            (run_events (repeat Tick (S n)) t).1 = [EncoderTimedOut]))
  /\ (send_stream_ t = true -> timed_out_ t = true ->
      let r' := Run (UpdateEncoderActivity t) in
      run_signals r' = [EncoderActive]
      /\ timed_out_ (run_task r') = false
      /\ activity_ (run_task r') = 0)
  /\ (send_stream_ t = true -> activity_ t = 0 -> timed_out_ t = true ->
      run_signals r = [] /\ timed_out_ (run_task r) = true)
  /\ (send_stream_ t = true -> activity_ t <> 0 -> timed_out_ t = false ->
      run_signals r = [] /\ timed_out_ (run_task r) = false)
  /\ (send_stream_ t = false ->
      run_signals r = [] /\ run_returns r = true).
Proof.
  intros r. subst r.
  split; [|split; [|split; [|split; [|split]]]].
  - intros Hs. unfold Run. rewrite Hs. cbn.
    destruct (decide (activity_ t = 0)), (timed_out_ t); repeat split.
  - intros Hs Ha Ht. rewrite (Run_first_timeout t Hs Ha Ht). cbn [run_signals run_task].
    repeat split.
    + intros n. by apply run_events_idle_timed_out.
    + intros n. cbn [repeat run_events]. rewrite (Run_first_timeout t Hs Ha Ht).
      cbn [run_signals run_task].
      rewrite run_events_idle_timed_out by reflexivity. reflexivity.
  - intros Hs Ht. unfold Run, UpdateEncoderActivity. cbn. rewrite Hs, Ht.
    repeat split.
  - intros Hs Ha Ht. rewrite (Run_idle_timed_out t Hs Ha Ht).
    cbn. split; [reflexivity | exact Ht].
  - intros Hs Ha Ht. unfold Run. rewrite Hs, Ht. cbn.
    destruct (decide (activity_ t = 0)); [contradiction|]. repeat split.
  - intros Hs. rewrite (Run_stopped t Hs). repeat split.
Qed.
End Watchdog.

(* --------------------------------------------------------------------- *)
(*  Start, Stop, the timeout signal and the transport overhead         *)
(* --------------------------------------------------------------------- *)

Section Lifecycle.
Context {F : Type} `{!FecController F}.
Implicit Type st : VideoSendStreamImpl F.

Lemma allocator_has_observer_app calls c :
  allocator_has_observer (calls ++ [c])
  = match c with
    | BitrateAllocator_AddObserver _ _ _ _ _ => true
    | BitrateAllocator_RemoveObserver => false
    | _ => allocator_has_observer calls
    end.
Proof. unfold allocator_has_observer. rewrite foldl_app. reflexivity. Qed.

(** C7.  Start() on a started stream only writes its log line: no call to
    the allocator, the queue or the encoder is made and no member changes;
    in particular a second Start() in a row adds no call and no task.
    Stop() on a stream that is not started, hence also before any Start(),
    only writes its log line and leaves every member and the calls as they
    were. *)
Theorem Start_Stop_idempotent st :
  (PayloadRouter.IsActive (payload_router_ st) = true ->
     Start st = RTC_LOG LS_INFO "VideoSendStream::Start" st
     /\ calls_ (Start st) = calls_ st
     /\ check_encoder_activity_task_ (Start st)
        = check_encoder_activity_task_ st)
  /\ (PayloadRouter.IsActive (payload_router_ st) = false ->
      Stop st = Some (RTC_LOG LS_INFO "VideoSendStream::Stop" st)
      /\ calls_ (RTC_LOG LS_INFO "VideoSendStream::Stop" st) = calls_ st)
  /\ PayloadRouter.IsActive (payload_router_ (Start st)) = true
  /\ calls_ (Start (Start st)) = calls_ (Start st)
  /\ check_encoder_activity_task_ (Start (Start st))
     = check_encoder_activity_task_ (Start st).
Proof.
  assert (Hactive : PayloadRouter.IsActive (payload_router_ (Start st)) = true).
  { unfold Start. cbn.
    destruct (PayloadRouter.IsActive (payload_router_ st)) eqn:Ha;
      [exact Ha | reflexivity]. }
  assert (Hnoop : forall st', PayloadRouter.IsActive (payload_router_ st') = true ->
            Start st' = RTC_LOG LS_INFO "VideoSendStream::Start" st').
  { intros st' Ha. unfold Start. cbn. rewrite Ha. reflexivity. }
  split; [|split; [|split; [|split]]].
  - intros Ha. rewrite (Hnoop st Ha). repeat split.
  - intros Ha. unfold Stop. cbn. rewrite Ha. repeat split.
  - exact Hactive.
  - rewrite (Hnoop (Start st) Hactive). reflexivity.
  - rewrite (Hnoop (Start st) Hactive). reflexivity.
Qed.

(** C10.  SignalEncoderTimedOut removes the stream from the bitrate allocator
    exactly when encoder_target_rate_bps_ is positive.  When it is 0 the
    call changes nothing, and the watchdog tick that times out then only
    posts the task again: the registration with the allocator is as
    before. *)
Theorem SignalEncoderTimedOut_deregisters st :
  (encoder_target_rate_bps_ st > 0 ->
     SignalEncoderTimedOut st
     = call BitrateAllocator_RemoveObserver
         (RTC_LOG LS_INFO "SignalEncoderTimedOut, Encoder timed out." st)
     /\ allocator_has_observer (calls_ (SignalEncoderTimedOut st)) = false)
  /\ (encoder_target_rate_bps_ st = 0 ->
      SignalEncoderTimedOut st = st
      /\ forall task,
           check_encoder_activity_task_ st = Some task ->
           send_stream_ task = true -> activity_ task = 0 ->
           timed_out_ task = false ->
           let st' := CheckEncoderActivityTask_tick st in
           calls_ st'
           = calls_ st
             ++ [TaskQueue_PostDelayedTask_CheckEncoderActivity
                   kEncoderTimeOutMs]
           /\ allocator_has_observer (calls_ st')
              = allocator_has_observer (calls_ st)).
Proof.
  split.
  - intros Hpos. unfold SignalEncoderTimedOut.
    destruct (decide (encoder_target_rate_bps_ st > 0)); [|lia].
    split; [reflexivity|]. cbn [calls_ call set_calls_].
    apply allocator_has_observer_app.
  - intros Hzero.
    assert (Hsame : SignalEncoderTimedOut st = st).
    { unfold SignalEncoderTimedOut.
      destruct (decide (encoder_target_rate_bps_ st > 0)); [lia|reflexivity]. }
    split; [exact Hsame|].
    intros task Htask Hs Ha Ho st'.
    subst st'. unfold CheckEncoderActivityTask_tick.
    rewrite Htask, (Run_first_timeout task Hs Ha Ho).
    cbn -[SignalEncoderTimedOut]. rewrite Hsame. cbn. split; [reflexivity|].
    apply allocator_has_observer_app.
Qed.

(** C8.  SetTransportOverhead(n) with n at or above the path MTU of 1500
    writes an error line and changes nothing else: the stored overhead and
    the modules are as before.  Below the MTU the stored overhead becomes n
    and every module gets the maximum RTP packet size
    min(configured maximum packet size, 1500 - n). *)
Theorem SetTransportOverhead_bounds st n :
  is_size_t n ->
  (n >= kPathMTU ->
     SetTransportOverhead st n
     = RTC_LOG LS_ERROR "Transport overhead exceeds size of ethernet frame" st
     /\ transport_overhead_bytes_per_packet_ (SetTransportOverhead st n)
        = transport_overhead_bytes_per_packet_ st
     /\ rtp_rtcp_modules_ (SetTransportOverhead st n) = rtp_rtcp_modules_ st)
  /\ (n < kPathMTU ->
      let size := Z.min (rtp_max_packet_size (config_ st)) (kPathMTU - n) in
      SetTransportOverhead st n
      = set_rtp_rtcp_modules_
          (map (SetMaxRtpPacketSize size) (rtp_rtcp_modules_ st))
          (set_transport_overhead_bytes_per_packet_ n st)
      /\ transport_overhead_bytes_per_packet_ (SetTransportOverhead st n) = n
      /\ Forall (fun m => module_max_rtp_packet_size m = Some size)
           (rtp_rtcp_modules_ (SetTransportOverhead st n))
      /\ length (rtp_rtcp_modules_ (SetTransportOverhead st n))
         = length (rtp_rtcp_modules_ st)
      /\ log_ (SetTransportOverhead st n) = log_ st).
Proof.
  intros Hn. unfold SetTransportOverhead. split.
  - intros Hge. destruct (decide (n >= kPathMTU)); [|lia]. repeat split.
  - intros Hlt. destruct (decide (n >= kPathMTU)); [lia|].
    cbn. rewrite to_size_t_small
      by (unfold is_size_t, kPathMTU in *; lia).
    repeat split.
    + apply Forall_forall. intros m Hm.
      apply list_elem_of_fmap in Hm as (m0 & -> & _). reflexivity.
    + apply length_map.
Qed.
End Lifecycle.

(* --------------------------------------------------------------------- *)
(*  The packet-feedback tracker                                        *)
(* --------------------------------------------------------------------- *)

#[local] Set Warnings "-clear-no-such-hyp".

Section FeedbackWindow.
Context {F : Type}.
Implicit Type st : VideoSendStreamImpl F.

(* On the queue, a packet of a media SSRC: insert, then clear on overflow. *)
Lemma OnPacketAdded_media st ssrc seq_num :
  ssrc ∈ rtp_ssrcs (config_ st) ->
  let inserted := {[ seq_num ]} ∪ feedback_packet_seq_num_set_ st in
  OnPacketAdded true st ssrc seq_num
  = if decide (Z.of_nat (size inserted) > kSendSideSeqNumSetMaxSize) then
      set_feedback_packet_seq_num_set_ ∅
        (RTC_LOG LS_WARNING
           "Feedback packet sequence number set exceed it's max size', will get reset."
           (set_feedback_packet_seq_num_set_ inserted st))
    else set_feedback_packet_seq_num_set_ inserted st.
Proof.
  intros Hin inserted. unfold OnPacketAdded. cbn [negb].
  rewrite bool_decide_true by exact Hin. reflexivity.
Qed.

Lemma OnPacketAdded_config b st ssrc seq_num :
  config_ (OnPacketAdded b st ssrc seq_num) = config_ st.
Proof.
  unfold OnPacketAdded. destruct b; cbn [negb]; [|reflexivity].
  case_bool_decide; [|reflexivity].
  destruct (decide _); reflexivity.
Qed.

(* While the window has room, distinct new numbers accumulate in it. *)
Lemma OnPacketAdded_fill ssrc seqs : forall st,
  ssrc ∈ rtp_ssrcs (config_ st) ->
  NoDup seqs ->
  (forall q, q ∈ seqs -> q ∉ feedback_packet_seq_num_set_ st) ->
  Z.of_nat (size (feedback_packet_seq_num_set_ st)) + Z.of_nat (length seqs)
    <= kSendSideSeqNumSetMaxSize ->
  let st' := foldl (fun s q => OnPacketAdded true s ssrc q) st seqs in
  feedback_packet_seq_num_set_ st'
  = list_to_set seqs ∪ feedback_packet_seq_num_set_ st
  /\ config_ st' = config_ st.
Proof.
  induction seqs as [|q seqs IH]; intros st Hin Hnodup Hfresh Hroom.
  - cbn. split; [set_solver | reflexivity].
  - apply NoDup_cons in Hnodup as [Hq Hnodup].
    cbn [foldl]. cbn [length] in Hroom.
    assert (Hsize : size ({[ q ]} ∪ feedback_packet_seq_num_set_ st)
                    = S (size (feedback_packet_seq_num_set_ st))).
    { rewrite size_union by (specialize (Hfresh q); set_solver).
      rewrite size_singleton. reflexivity. }
    rewrite (OnPacketAdded_media st ssrc q Hin). cbv zeta.
    destruct (decide _) as [Hover|_]; [rewrite Hsize in Hover; lia|].
    set (st1 := set_feedback_packet_seq_num_set_ _ st).
    destruct (IH st1) as [Hset Hcfg].
    + exact Hin.
    + exact Hnodup.
    + intros q' Hq'. subst st1. cbn.
      specialize (Hfresh q'). set_solver.
    + subst st1. cbn. rewrite Hsize. lia.
    + split; [|exact Hcfg]. rewrite Hset. subst st1. cbn. set_solver.
Qed.

(** C6.  OnPacketAdded on the worker queue: for an SSRC that is not a media
    SSRC of the stream nothing changes; for a media SSRC the sequence number
    is inserted and, when the window then holds more than 5500 numbers, the
    window is cleared.  Starting from an empty window, 5501 distinct
    sequence numbers leave the window empty. *)
Theorem OnPacketAdded_window st ssrc seq_num :
  (ssrc ∉ rtp_ssrcs (config_ st) -> OnPacketAdded true st ssrc seq_num = st)
  /\ (ssrc ∈ rtp_ssrcs (config_ st) ->
      let inserted := {[ seq_num ]} ∪ feedback_packet_seq_num_set_ st in
      let st' := OnPacketAdded true st ssrc seq_num in
      (Z.of_nat (size inserted) > kSendSideSeqNumSetMaxSize ->
         feedback_packet_seq_num_set_ st' = ∅)
      /\ (Z.of_nat (size inserted) <= kSendSideSeqNumSetMaxSize ->
          st' = set_feedback_packet_seq_num_set_ inserted st))
  /\ (ssrc ∈ rtp_ssrcs (config_ st) ->
      forall seqs : list Z,
        NoDup seqs ->
        Z.of_nat (length seqs) = kSendSideSeqNumSetMaxSize + 1 ->
        feedback_packet_seq_num_set_ st = ∅ ->
        feedback_packet_seq_num_set_
          (foldl (fun s q => OnPacketAdded true s ssrc q) st seqs) = ∅).
Proof.
  split; [|split].
  - intros Hout. unfold OnPacketAdded. cbn [negb].
    rewrite bool_decide_false by exact Hout. reflexivity.
  - intros Hin inserted st'. subst st'.
    rewrite (OnPacketAdded_media st ssrc seq_num Hin). fold inserted.
    split; intros Hsize; destruct (decide _); first [lia | reflexivity].
  - intros Hin seqs Hnodup Hlen Hempty.
    destruct (decide (seqs = [])) as [->|Hne];
      [cbn in Hlen; unfold kSendSideSeqNumSetMaxSize in Hlen; lia|].
    destruct (exists_last Hne) as (front & q & ->).
    apply NoDup_app in Hnodup as (Hfront & Hq & _).
    rewrite length_app in Hlen. cbn [length] in Hlen.
    rewrite foldl_app. cbn [foldl].
    destruct (OnPacketAdded_fill ssrc front st) as [Hset Hcfg].
    + exact Hin.
    + exact Hfront.
    + intros q' _. rewrite Hempty. set_solver.
    + rewrite Hempty, size_empty. lia.
    + set (st1 := foldl _ st front) in *.
      rewrite (OnPacketAdded_media st1 ssrc q) by (rewrite Hcfg; exact Hin).
      cbv zeta. rewrite Hset, Hempty.
      destruct (decide _) as [_|Hsmall]; [reflexivity|].
      exfalso. apply Hsmall.
      rewrite size_union, size_singleton.
      * rewrite union_empty_r_L, size_list_to_set by exact Hfront. lia.
      * specialize (Hq q). set_solver.
Qed.
End FeedbackWindow.

Section FeedbackReports.
Context {F : Type}.
Variable kNotReceived : Z.
Implicit Type st : VideoSendStreamImpl F.

(* A report of a number that is not in the window changes nothing. *)
Lemma OnPacketFeedbackVector_packet_absent st packet :
  sequence_number packet ∉ feedback_packet_seq_num_set_ st ->
  OnPacketFeedbackVector_packet kNotReceived st packet = st.
Proof.
  intros Hout. unfold OnPacketFeedbackVector_packet.
  rewrite bool_decide_false by exact Hout. reflexivity.
Qed.

(* A report of a number in the window appends to the loss mask and erases
   the key 1. *)
Lemma OnPacketFeedbackVector_packet_present st packet :
  sequence_number packet ∈ feedback_packet_seq_num_set_ st ->
  let st' := OnPacketFeedbackVector_packet kNotReceived st packet in
  loss_mask_vector_ st'
  = loss_mask_vector_ st
    ++ [bool_decide (arrival_time_ms packet = kNotReceived)]
  /\ feedback_packet_seq_num_set_ st'
     = feedback_packet_seq_num_set_ st ∖ {[ 1 ]}.
Proof.
  intros Hin. unfold OnPacketFeedbackVector_packet.
  rewrite bool_decide_true by exact Hin. split; reflexivity.
Qed.

(* Hence a reported number other than 1 stays in the window. *)
Lemma OnPacketFeedbackVector_packet_stays st packet :
  sequence_number packet ∈ feedback_packet_seq_num_set_ st ->
  sequence_number packet <> 1 ->
  sequence_number packet
    ∈ feedback_packet_seq_num_set_
        (OnPacketFeedbackVector_packet kNotReceived st packet).
Proof.
  intros Hin Hne.
  destruct (OnPacketFeedbackVector_packet_present st packet Hin) as [_ ->].
  set_solver.
Qed.
End FeedbackReports.


(** C2, the code at a failing input.  With the window {5}, the report of
    packet 5 appends one entry to the loss mask and leaves 5 in the window,
    where the specified loop body empties the window; reported twice in one
    vector the packet yields two entries; and with the window {1, 5} the
    report of packet 5 removes 1, which was not reported, and keeps 5. *)
Theorem OnPacketFeedbackVector_keeps_reported_number :
  let st := tracked [5] in
  let st' := OnPacketFeedbackVector kNotReceived_value true st [arrived 5] in
  feedback_packet_seq_num_set_ st = {[ 5 ]}
  /\ loss_mask_vector_ st' = [false]
  /\ feedback_packet_seq_num_set_ st' = {[ 5 ]}
  /\ feedback_packet_seq_num_set_
       (foldl (spec_feedback_packet kNotReceived_value) st [arrived 5]) = ∅
  /\ loss_mask_vector_
       (OnPacketFeedbackVector kNotReceived_value true st
          [arrived 5; arrived 5]) = [false; false]
  /\ feedback_packet_seq_num_set_
       (OnPacketFeedbackVector kNotReceived_value true (tracked [1; 5])
          [arrived 5]) = {[ 5 ]}.
Proof.
  cbv zeta. repeat split; vm_compute; reflexivity.
Qed.

(* --------------------------------------------------------------------- *)
(*  The theorems at concrete inputs                                      *)
(* --------------------------------------------------------------------- *)

(* Overhead accounting on, 40 bytes of RTP overhead per packet. *)
Lemma OnBitrateUpdated_rate_budget_witness :
  exists b st',
    OnBitrateUpdated_run
      (OnOverheadChanged
         (started_stream (only_field_trial "WebRTC-SendSideBwe-WithOverhead")
            scenario_config 2000000 800000) 40)
      1000000 0 50 1000 = Some (b, st')
    /\ pushed_encoder_target_rate_bps b <= 2000000
    /\ fec_encoder_target_rate_bps b + encoder_overhead_rate_bps b
       + protection_bitrate b = 1000000.
Proof.
  destruct (OnBitrateUpdated_rate_budget
              (OnOverheadChanged
                 (started_stream
                    (only_field_trial "WebRTC-SendSideBwe-WithOverhead")
                    scenario_config 2000000 800000) 40)
              1000000 0 50 1000)
    as (b & st' & Hrun & _ & _ & Hmin & Hmax & _ & Hexact & _).
  - reflexivity.
  - unfold is_uint32. lia.
  - intros _. vm_compute. repeat split; first [reflexivity | discriminate].
  - exists b, st'. split; [exact Hrun|]. split; [exact Hmax|].
    apply Hexact. vm_compute in Hrun. injection Hrun as <- _.
    vm_compute. discriminate.
Defined.

Lemma OnBitrateUpdated_scenario_protection_witness :
  exists st',
    OnBitrateUpdated
      (started_stream no_field_trials scenario_config 2000000 800000)
      1000000 0 50 1000 = Some (200000, st').
Proof.
  destruct (OnBitrateUpdated_scenario_protection
              (started_stream no_field_trials scenario_config 2000000 800000))
    as (b & st' & _ & Hret & _).
  - reflexivity.
  - reflexivity.
  - exists st'. exact Hret.
Defined.

(* Two updates of 1_000_000 bps without overhead accounting.  In the first
   the FEC controller answers 800_000 and the maximum is 500_000: the
   encoder is handed 500_000, the protection bitrate is 200_000, and no
   payload figure meets both halves of the budget.  In the second the
   controller answers 1_200_000, more than the total: the subtraction wraps
   and the budget does not add up. *)
Lemma OnBitrateUpdated_breaks_budget :
  (exists b st',
     OnBitrateUpdated_run
       (started_stream no_field_trials scenario_config 500000 800000)
       1000000 0 50 1000 = Some (b, st')
     /\ fec_encoder_target_rate_bps b = 800000
     /\ pushed_encoder_target_rate_bps b = 500000
     /\ protection_bitrate b = 200000
     /\ encoder_overhead_rate_bps b = 0
     /\ forall payload_bps,
          ~ RateBudget_holds
              (started_stream no_field_trials scenario_config 500000 800000)
              1000000 payload_bps b)
  /\ (exists b st',
        OnBitrateUpdated_run
          (started_stream no_field_trials scenario_config 2000000 1200000)
          1000000 0 50 1000 = Some (b, st')
        /\ pushed_encoder_target_rate_bps b = 1200000
        /\ protection_bitrate b = 4294767296
        /\ ~ RateBudget_holds
               (started_stream no_field_trials scenario_config 2000000
                  1200000)
               1000000 (pushed_encoder_target_rate_bps b) b).
Proof.
  split.
  - eexists _, _. split; [vm_compute; reflexivity|].
    repeat split. intros payload_bps [Hsum Hmax].
    replace (ceiling_tolerance _) with 0 in Hsum by (vm_compute; reflexivity).
    replace (encoder_max_bitrate_bps_ _) with 500000 in Hmax
      by (vm_compute; reflexivity).
    cbn [protection_bitrate encoder_overhead_rate_bps] in Hsum. lia.
  - eexists _, _. split; [vm_compute; reflexivity|].
    repeat split. intros [Hsum _]. vm_compute in Hsum. apply Hsum. reflexivity.
Qed.

Lemma ConfigureProtection_policy_witness :
  ulpfec_payload_type
    (ConfigureProtection_locals no_field_trials PayloadStringToCodecType_names
       (fresh_stream no_field_trials scenario_config 2000000 800000)) = 100
  /\ red_payload_type
       (ConfigureProtection_locals no_field_trials
          PayloadStringToCodecType_names
          (fresh_stream no_field_trials scenario_config 2000000 800000)) = 101.
Proof.
  destruct (ConfigureProtection_policy no_field_trials
              PayloadStringToCodecType_names
              (fresh_stream no_field_trials scenario_config 2000000 800000))
    as (_ & _ & _ & Hkept & _).
  apply Hkept.
  - reflexivity.
  - reflexivity.
  - left. reflexivity.
  - vm_compute. reflexivity.
  - vm_compute. discriminate.
  - vm_compute. discriminate.
Defined.

(* VP8 with NACK, RED and ULPFEC configured: ULPFEC does not survive the
   experiment switch, nor a FlexFEC sender. *)
Lemma ulpfec_kept_for_vp8_vp9_fails :
  ~ ulpfec_kept_for_vp8_vp9
      (only_field_trial "WebRTC-DisableUlpFecExperiment")
      PayloadStringToCodecType_names
      (fresh_stream (only_field_trial "WebRTC-DisableUlpFecExperiment")
         scenario_config 2000000 800000)
  /\ ~ ulpfec_kept_for_vp8_vp9 no_field_trials PayloadStringToCodecType_names
         (fresh_stream no_field_trials flexfec_config 2000000 800000).
Proof.
  split; intros Hkept.
  - assert (Hu : -1 = 100); [|discriminate Hu].
    apply Hkept; first [ by left | vm_compute; first [reflexivity | discriminate] ].
  - assert (Hu : -1 = 100); [|discriminate Hu].
    apply Hkept; first [ by left | vm_compute; first [reflexivity | discriminate] ].
Qed.

Lemma construction_scenario_policy_witness :
  rtp_rtcp_modules_
    (fresh_stream no_field_trials scenario_config 2000000 800000)
  = [ {| module_flexfec := false;
         module_store_packets := Some (true, 600);
         module_ulpfec_config := Some (101, 100);
         module_max_rtp_packet_size := Some 1200 |} ]
  /\ fec_controller_
       (fresh_stream no_field_trials scenario_config 2000000 800000)
     = SetProtectionMethod true true (fixed_fec 800000).
Proof.
  destruct (construction_scenario_policy no_field_trials
              PayloadStringToCodecType_names scenario_config 2000000
              (fixed_fec 800000) 30)
    as (_ & _ & _ & _ & Hmodules & Hfec);
    try reflexivity.
  split; [exact Hmodules | exact Hfec].
Defined.

(* The scenario configuration constructed while the field trial
   WebRTC-DisableUlpFecExperiment is on: ULPFEC is off. *)
Lemma construction_scenario_under_experiment :
  let st := fresh_stream (only_field_trial "WebRTC-DisableUlpFecExperiment")
              scenario_config 2000000 800000 in
  config_ st = scenario_config
  /\ flexfec_sender_ st = None
  /\ rtp_rtcp_modules_ st
     = [ {| module_flexfec := false;
            module_store_packets := Some (true, 600);
            module_ulpfec_config := Some (101, -1);
            module_max_rtp_packet_size := Some 1200 |} ]
  /\ fec_controller_ st = SetProtectionMethod false true (fixed_fec 800000)
  /\ ulpfec_payload_type
       (ConfigureProtection_locals
          (only_field_trial "WebRTC-DisableUlpFecExperiment")
          PayloadStringToCodecType_names st) <> 100.
Proof.
  cbv zeta. repeat split; try (vm_compute; reflexivity).
  vm_compute. discriminate.
Qed.

Lemma watchdog_tick_witness :
  run_signals (Run CheckEncoderActivityTask_new) = [EncoderTimedOut]
  /\ (run_events [Tick; Tick; Tick] CheckEncoderActivityTask_new).1
     = [EncoderTimedOut]
  /\ (run_events [Tick; Tick; Ping; Tick] CheckEncoderActivityTask_new).1
     = [EncoderTimedOut; EncoderActive]
  /\ run_returns (Run stopped_task) = true.
Proof.
  destruct (watchdog_tick CheckEncoderActivityTask_new)
    as (_ & Hfirst & _).
  destruct Hfirst as (Hsignal & _ & _ & Hidle); try reflexivity.
  destruct (watchdog_tick stopped_task) as (_ & _ & _ & _ & _ & Hstopped).
  destruct Hstopped as [_ Hdeleted]; [reflexivity|].
  split; [exact Hsignal|]. split; [exact (Hidle 2%nat)|].
  split; [reflexivity | exact Hdeleted].
Defined.

Lemma Start_Stop_idempotent_witness :
  calls_ (Start (started_stream no_field_trials scenario_config 2000000 800000))
  = [ BitrateAllocator_AddObserver 0 2000000 0 true "video";
      TaskQueue_PostDelayedTask_CheckEncoderActivity 2000;
      VideoStreamEncoder_SendKeyFrame ]
  /\ Stop (fresh_stream no_field_trials scenario_config 2000000 800000)
     = Some (RTC_LOG LS_INFO "VideoSendStream::Stop"
               (fresh_stream no_field_trials scenario_config 2000000 800000)).
Proof.
  destruct (Start_Stop_idempotent
              (started_stream no_field_trials scenario_config 2000000 800000))
    as (Hstart & _).
  destruct Hstart as (_ & Hcalls & _); [reflexivity|].
  destruct (Start_Stop_idempotent
              (fresh_stream no_field_trials scenario_config 2000000 800000))
    as (_ & Hstop & _).
  destruct Hstop as (Hsame & _); [reflexivity|].
  split; [rewrite Hcalls; reflexivity | exact Hsame].
Defined.

Lemma SignalEncoderTimedOut_deregisters_witness :
  SignalEncoderTimedOut
    (started_stream no_field_trials scenario_config 2000000 800000)
  = started_stream no_field_trials scenario_config 2000000 800000
  /\ allocator_has_observer
       (calls_ (CheckEncoderActivityTask_tick
                  (started_stream no_field_trials scenario_config 2000000
                     800000))) = true.
Proof.
  destruct (SignalEncoderTimedOut_deregisters
              (started_stream no_field_trials scenario_config 2000000 800000))
    as (_ & Hzero).
  destruct Hzero as (Hsame & Htick); [reflexivity|].
  split; [exact Hsame|].
  destruct (Htick CheckEncoderActivityTask_new) as (_ & ->);
    reflexivity.
Defined.

Lemma SetTransportOverhead_bounds_witness :
  SetTransportOverhead
    (fresh_stream no_field_trials scenario_config 2000000 800000) 1500
  = RTC_LOG LS_ERROR "Transport overhead exceeds size of ethernet frame"
      (fresh_stream no_field_trials scenario_config 2000000 800000)
  /\ Forall (fun m => module_max_rtp_packet_size m = Some 1100)
       (rtp_rtcp_modules_
          (SetTransportOverhead
             (fresh_stream no_field_trials scenario_config 2000000 800000)
             400)).
Proof.
  destruct (SetTransportOverhead_bounds
              (fresh_stream no_field_trials scenario_config 2000000 800000)
              1500) as (Hreject & _).
  { unfold is_size_t. lia. }
  destruct Hreject as (Hsame & _); [unfold kPathMTU; lia|].
  destruct (SetTransportOverhead_bounds
              (fresh_stream no_field_trials scenario_config 2000000 800000)
              400) as (_ & Haccept).
  { unfold is_size_t. lia. }
  destruct Haccept as (_ & _ & Hsizes & _); [unfold kPathMTU; lia|].
  split; [exact Hsame | exact Hsizes].
Defined.

Lemma OnPacketAdded_window_witness :
  OnPacketAdded true (tracked []) 2002 7 = tracked []
  /\ feedback_packet_seq_num_set_
       (foldl (fun s q => OnPacketAdded true s 1001 q) (tracked [])
          (seqZ 0 5501)) = ∅.
Proof.
  destruct (OnPacketAdded_window (tracked []) 2002 7) as (Hother & _).
  destruct (OnPacketAdded_window (tracked []) 1001 0) as (_ & _ & Hfull).
  split.
  - apply Hother. vm_compute. intros Hin.
    apply list_elem_of_In in Hin. destruct Hin as [Heq|[]]. discriminate Heq.
  - apply Hfull.
    + vm_compute. apply list_elem_of_here.
    + apply NoDup_seqZ.
    + rewrite length_seqZ, Z2Nat.id by lia. reflexivity.
    + reflexivity.
Defined.

(* --------------------------------------------------------------------- *)
(*  Packet and overhead rates                                            *)
(* --------------------------------------------------------------------- *)

(** X1.  For a uint32 bitrate and a packet of 1 to 2^60 - 1 bytes,
    CalculatePacketRate returns the ceiling of the bitrate over the packet
    size in bits: the least number of packets per second that carries the
    bitrate, 0 for the bitrate 0; the conversion to int does not wrap. *)
Theorem CalculatePacketRate_ceiling bitrate_bps packet_size_bytes :
  is_uint32 bitrate_bps ->
  0 < packet_size_bytes < 2 ^ 60 ->
  exists rate,
    CalculatePacketRate bitrate_bps packet_size_bytes = Some rate
    /\ 0 <= rate < 2 ^ 31
    /\ 8 * packet_size_bytes * (rate - 1) < bitrate_bps
       <= 8 * packet_size_bytes * rate.
Proof.
  intros Hb Hp. unfold is_uint32 in Hb. unfold CalculatePacketRate.
  rewrite (to_size_t_small (8 * packet_size_bytes))
    by (unfold is_size_t; lia).
  destruct (decide (8 * packet_size_bytes = 0)) as [|_]; [lia|].
  set (bits := 8 * packet_size_bytes) in *.
  rewrite (to_size_t_small (bitrate_bps + bits)) by (unfold is_size_t; lia).
  rewrite (to_size_t_small (bitrate_bps + bits - 1))
    by (unfold is_size_t; lia).
  set (q := (bitrate_bps + bits - 1) / bits).
  assert (Hq : bits * q <= bitrate_bps + bits - 1 < bits * q + bits).
  { pose proof (Z.div_mod (bitrate_bps + bits - 1) bits ltac:(lia)) as Hdm.
    pose proof (Z.mod_pos_bound (bitrate_bps + bits - 1) bits ltac:(lia)).
    fold q in Hdm. lia. }
  assert (Hrange : 0 <= q < 2 ^ 31).
  { split; [apply Z.div_pos; lia|].
    assert (bits * q < bits * 2 ^ 31); [|nia]. subst bits. lia. }
  exists q. split.
  - f_equal. unfold to_int. rewrite Z.mod_small by lia. lia.
  - split; [exact Hrange|]. nia.
Qed.

(** X2.  CalculateOverheadRateBps never returns more than the given cap,
    and for a packet rate and an overhead within their types it returns
    min(8 * overhead * packets, cap) whenever that product fits in 32
    bits. *)
Theorem CalculateOverheadRateBps_capped packets_per_second
    overhead_bytes_per_packet max_overhead_bps :
  0 <= packets_per_second < 2 ^ 31 ->
  0 <= overhead_bytes_per_packet < 2 ^ 61 ->
  0 <= max_overhead_bps ->
  CalculateOverheadRateBps packets_per_second overhead_bytes_per_packet
    max_overhead_bps <= max_overhead_bps
  /\ (8 * overhead_bytes_per_packet * packets_per_second < 2 ^ 32 ->
      CalculateOverheadRateBps packets_per_second overhead_bytes_per_packet
        max_overhead_bps
      = Z.min (8 * overhead_bytes_per_packet * packets_per_second)
          max_overhead_bps).
Proof.
  intros Hp Ho Hmax. split.
  - apply CalculateOverheadRateBps_bounds. exact Hmax.
  - intros Hfit. unfold CalculateOverheadRateBps.
    rewrite (to_size_t_small (8 * overhead_bytes_per_packet))
      by (unfold is_size_t; lia).
    rewrite (to_size_t_small packets_per_second) by (unfold is_size_t; lia).
    rewrite to_size_t_small by (unfold is_size_t; nia).
    rewrite to_uint32_small by (unfold is_uint32; nia).
    reflexivity.
Qed.

Section BitrateUpdateFrame.
Context {F : Type} `{!FecController F}.
Implicit Type st : VideoSendStreamImpl F.

(** X3.  In a bitrate update on a Started stream the subtractions do not
    wrap: the payload bitrate handed to the FEC controller lies between 0
    and the total, being the total itself when overhead accounting is off;
    and when the controller answers no more than the total, the encoder
    overhead rate and the returned protection bitrate both lie between 0
    and total minus the answered target. *)
Theorem OnBitrateUpdated_no_underflow st bitrate_bps fraction_loss rtt
    probing_interval_ms :
  PayloadRouter.IsActive (payload_router_ st) = true ->
  is_uint32 bitrate_bps ->
  (send_side_bwe_with_overhead_ st = true ->
     0 <= overhead_bytes_per_packet_ st
       < rtp_max_packet_size (config_ st)
         + transport_overhead_bytes_per_packet_ st
     /\ rtp_max_packet_size (config_ st)
        + transport_overhead_bytes_per_packet_ st < 2 ^ 61) ->
  exists b st',
    OnBitrateUpdated_run st bitrate_bps fraction_loss rtt probing_interval_ms
      = Some (b, st')
    /\ 0 <= payload_bitrate_bps b <= bitrate_bps
    /\ (send_side_bwe_with_overhead_ st = false ->
        payload_bitrate_bps b = bitrate_bps)
    /\ (fec_encoder_target_rate_bps b <= bitrate_bps ->
        0 <= encoder_overhead_rate_bps b
          <= bitrate_bps - fec_encoder_target_rate_bps b
        /\ 0 <= protection_bitrate b
             <= bitrate_bps - fec_encoder_target_rate_bps b).
Proof.
  intros _ Hb Hsizes.
  assert (Harith : forall target overhead,
            0 <= overhead <= to_uint32 (bitrate_bps - to_uint32 target) ->
            to_uint32 target <= bitrate_bps ->
            0 <= overhead <= bitrate_bps - to_uint32 target
            /\ 0 <= to_uint32
                      (bitrate_bps - to_uint32 (to_uint32 target + overhead))
                 <= bitrate_bps - to_uint32 target).
  { intros target overhead Ho Hle.
    pose proof (to_uint32_range target) as Ht. unfold is_uint32 in Hb.
    rewrite (to_uint32_small (bitrate_bps - to_uint32 target)) in Ho
      by (unfold is_uint32; lia).
    rewrite (to_uint32_small (to_uint32 target + overhead))
      by (unfold is_uint32; lia).
    rewrite (to_uint32_small (bitrate_bps - _)) by (unfold is_uint32; lia).
    lia. }
  unfold OnBitrateUpdated_run.
  destruct (send_side_bwe_with_overhead_ st) eqn:Hflag.
  - destruct (Hsizes eq_refl) as [Ho Hm]. clear Hsizes.
    set (m := rtp_max_packet_size (config_ st)
              + transport_overhead_bytes_per_packet_ st) in *.
    destruct (CalculatePacketRate_defined bitrate_bps (to_size_t m))
      as [rate1 Hrate1].
    { rewrite to_size_t_small by (unfold is_size_t; lia). lia. }
    rewrite Hrate1. cbn.
    destruct (UpdateFecRates _ _ _ _ _ _) as [target fec]. cbn.
    rewrite Hflag. fold m.
    destruct (CalculatePacketRate_defined (to_uint32 target)
                (to_size_t (to_size_t m - overhead_bytes_per_packet_ st)))
      as [rate2 Hrate2].
    { rewrite (to_size_t_small m) by (unfold is_size_t; lia).
      rewrite to_size_t_small by (unfold is_size_t; lia). lia. }
    rewrite Hrate2. cbn.
    eexists _, _. split; [reflexivity|]. cbn.
    pose proof (CalculateOverheadRateBps_bounds rate1
                  (to_size_t (overhead_bytes_per_packet_ st
                              + transport_overhead_bytes_per_packet_ st))
                  bitrate_bps) as Hcap.
    unfold is_uint32 in Hb.
    split.
    { rewrite to_uint32_small by (unfold is_uint32; lia). lia. }
    split; [discriminate|].
    apply Harith. apply CalculateOverheadRateBps_bounds.
    apply to_uint32_range.
  - cbn. destruct (UpdateFecRates _ _ _ _ _ _) as [target fec]. cbn.
    rewrite Hflag. cbn.
    eexists _, _. split; [reflexivity|]. cbn. unfold is_uint32 in Hb.
    split; [lia|]. split; [reflexivity|].
    apply Harith.
    pose proof (to_uint32_range (bitrate_bps - to_uint32 target)). lia.
Qed.

(** X4.  A bitrate update consumes the loss mask: the mask gathered so far
    is what UpdateFecRates receives, and afterwards the mask is empty.  The
    update leaves the feedback window, the modules, the payload router, the
    watchdog task, the overheads and the bitrate bounds as they were, and
    makes no call to the bitrate allocator. *)
Theorem OnBitrateUpdated_consumes_loss_mask st bitrate_bps fraction_loss rtt
    probing_interval_ms b st' :
  OnBitrateUpdated_run st bitrate_bps fraction_loss rtt probing_interval_ms
    = Some (b, st') ->
  loss_mask_vector_ st' = []
  /\ fec_controller_ st'
     = (UpdateFecRates (payload_bitrate_bps b) (stats_send_frame_rate_ st)
          fraction_loss (loss_mask_vector_ st) rtt (fec_controller_ st)).2
  /\ feedback_packet_seq_num_set_ st' = feedback_packet_seq_num_set_ st
  /\ rtp_rtcp_modules_ st' = rtp_rtcp_modules_ st
  /\ payload_router_ st' = payload_router_ st
  /\ check_encoder_activity_task_ st' = check_encoder_activity_task_ st
  /\ overhead_bytes_per_packet_ st' = overhead_bytes_per_packet_ st
  /\ transport_overhead_bytes_per_packet_ st'
     = transport_overhead_bytes_per_packet_ st
  /\ encoder_max_bitrate_bps_ st' = encoder_max_bitrate_bps_ st
  /\ config_ st' = config_ st
  /\ send_side_bwe_with_overhead_ st' = send_side_bwe_with_overhead_ st
  /\ allocator_has_observer (calls_ st') = allocator_has_observer (calls_ st).
Proof.
  unfold OnBitrateUpdated_run. intros Hrun.
  destruct (if send_side_bwe_with_overhead_ st then _ else _)
    as [payload|] eqn:Hpayload; [|discriminate]. cbn in Hrun.
  destruct (UpdateFecRates _ _ _ _ _ _) as [target fec] eqn:Hfec.
  cbn in Hrun.
  destruct (if send_side_bwe_with_overhead_ st then _ else _)
    as [overhead|] eqn:Hoverhead in Hrun; [|discriminate].
  cbn in Hrun. injection Hrun as <- <-. cbn. rewrite Hfec.
  repeat split.
  rewrite !allocator_has_observer_app. reflexivity.
Qed.

End BitrateUpdateFrame.

(* --------------------------------------------------------------------- *)
(*  FlexFEC and the modules at construction                              *)
(* --------------------------------------------------------------------- *)

(* When MaybeCreateFlexfecSender creates a sender, and which one. *)
Lemma MaybeCreateFlexfecSender_sender config sender :
  (MaybeCreateFlexfecSender config).1 = Some sender <->
  rtp_flexfec_payload_type config >= 0
  /\ rtp_flexfec_ssrc config <> 0
  /\ rtp_flexfec_protected_media_ssrcs config
     = [flexfec_protected_media_ssrc sender]
  /\ flexfec_payload_type sender = rtp_flexfec_payload_type config
  /\ flexfec_ssrc sender = rtp_flexfec_ssrc config.
Proof.
  unfold MaybeCreateFlexfecSender.
  destruct (decide (rtp_flexfec_payload_type config < 0)) as [Hneg|Hpos];
    [cbn; split; [discriminate | lia]|].
  destruct (decide (rtp_flexfec_ssrc config = 0)) as [Hzero|Hssrc];
    [cbn; split; [discriminate | tauto]|].
  destruct (rtp_flexfec_protected_media_ssrcs config) as [|p [|p' ps]]; cbn.
  - split; [discriminate|]. intros (_ & _ & ? & _). discriminate.
  - destruct sender as [pt ssrc protected]. cbn. split.
    + intros [= <- <- <-]. repeat split; [lia | exact Hssrc].
    + intros (_ & _ & [= ->] & -> & ->). reflexivity.
  - split; [discriminate|]. intros (_ & _ & ? & _). discriminate.
Qed.

(** X5.  MaybeCreateFlexfecSender creates a sender exactly when the FlexFEC
    payload type is not negative, the FlexFEC SSRC is not 0 and exactly one
    protected media SSRC is given; the sender then carries these three
    values.  It logs nothing exactly when FlexFEC is not configured
    (negative payload type) or the sender is created: every refusal of a
    configured FlexFEC is logged. *)
Theorem MaybeCreateFlexfecSender_created config :
  (forall sender,
     (MaybeCreateFlexfecSender config).1 = Some sender <->
     rtp_flexfec_payload_type config >= 0
     /\ rtp_flexfec_ssrc config <> 0
     /\ rtp_flexfec_protected_media_ssrcs config
        = [flexfec_protected_media_ssrc sender]
     /\ flexfec_payload_type sender = rtp_flexfec_payload_type config
     /\ flexfec_ssrc sender = rtp_flexfec_ssrc config)
  /\ ((MaybeCreateFlexfecSender config).2 = [] <->
      rtp_flexfec_payload_type config < 0
      \/ is_Some (MaybeCreateFlexfecSender config).1).
Proof.
  split; [intros sender; apply MaybeCreateFlexfecSender_sender|].
  unfold MaybeCreateFlexfecSender.
  destruct (decide (rtp_flexfec_payload_type config < 0)) as [Hneg|Hpos];
    [cbn; split; [left; exact Hneg | reflexivity]|].
  destruct (decide (rtp_flexfec_ssrc config = 0)) as [Hzero|Hssrc].
  { cbn. split; [discriminate|]. intros [?|[? ?]]; [lia | discriminate]. }
  destruct (rtp_flexfec_protected_media_ssrcs config) as [|p [|p' ps]]; cbn.
  - split; [discriminate|]. intros [?|[? ?]]; [lia | discriminate].
  - split; [intros _; right; eauto | reflexivity].
  - split; [discriminate|]. intros [?|[? ?]]; [lia | discriminate].
Qed.

Section Construction.
Context {F : Type} `{!FecController F}.
Variable field_trial_IsEnabled : string -> bool.
Variable PayloadStringToCodecType : string -> VideoCodecType.
Implicit Type st : VideoSendStreamImpl F.

(** X6.  The constructor creates one module per media SSRC.  Every module
    stores packets with a history of 600, has the configured maximum packet
    size and carries the RED and ULPFEC payload types the protection pass
    arrived at; the module of an SSRC takes part in FlexFEC exactly when a
    FlexFEC sender was created and that SSRC is the one it protects. *)
Theorem VideoSendStreamImpl_new_modules config initial_encoder_max_bitrate
    fec_controller send_frame_rate :
  let st := VideoSendStreamImpl_new field_trial_IsEnabled
              PayloadStringToCodecType config initial_encoder_max_bitrate
              fec_controller send_frame_rate in
  let l := ConfigureProtection_locals field_trial_IsEnabled
             PayloadStringToCodecType st in
  length (rtp_rtcp_modules_ st) = length (rtp_ssrcs config)
  /\ forall (i : nat) ssrc m,
       rtp_ssrcs config !! i = Some ssrc ->
       rtp_rtcp_modules_ st !! i = Some m ->
       (module_flexfec m = true <->
        exists sender, flexfec_sender_ st = Some sender
                       /\ flexfec_protected_media_ssrc sender = ssrc)
       /\ module_store_packets m
          = Some (true, kMinSendSidePacketHistorySize)
       /\ module_ulpfec_config m
          = Some (red_payload_type l, ulpfec_payload_type l)
       /\ module_max_rtp_packet_size m = Some (rtp_max_packet_size config).
Proof.
  intros st l.
  destruct (VideoSendStreamImpl_new_protection field_trial_IsEnabled
              PayloadStringToCodecType config initial_encoder_max_bitrate
              fec_controller send_frame_rate) as [Hmodules _].
  destruct (VideoSendStreamImpl_new_config field_trial_IsEnabled
              PayloadStringToCodecType config initial_encoder_max_bitrate
              fec_controller send_frame_rate) as [_ Hsender].
  fold st in Hmodules, Hsender. fold l in Hmodules.
  rewrite Hmodules, Hsender. unfold CreateRtpRtcpModules.
  rewrite map_map. split; [apply length_map|].
  intros i ssrc m Hssrc Hm.
  rewrite list_lookup_fmap, Hssrc in Hm. injection Hm as <-. cbn.
  split; [|repeat split].
  pose proof (MaybeCreateFlexfecSender_sender config) as Hcreated.
  rewrite andb_true_iff, !bool_decide_eq_true. split.
  - intros [[sender Hsome] Hin]. exists sender. split; [exact Hsome|].
    apply Hcreated in Hsome as (_ & _ & Hprotected & _).
    rewrite Hprotected in Hin. apply list_elem_of_singleton in Hin.
    congruence.
  - intros (sender & Hsome & <-). split; [eauto|].
    apply Hcreated in Hsome as (_ & _ & -> & _). apply list_elem_of_here.
Qed.

(** X7.  Whatever the configuration, the protection pass never enables a
    scheme: each of the two payload types ends as configured or as -1.  When
    ULPFEC ends enabled, RED is enabled too and there is no FlexFEC
    sender. *)
Theorem ConfigureProtection_ulpfec_needs_red st :
  let l := ConfigureProtection_locals field_trial_IsEnabled
             PayloadStringToCodecType st in
  (red_payload_type l = rtp_ulpfec_red_payload_type (config_ st)
   \/ red_payload_type l = -1)
  /\ (ulpfec_payload_type l = rtp_ulpfec_ulpfec_payload_type (config_ st)
      \/ ulpfec_payload_type l = -1)
  /\ (IsUlpfecEnabled l = true ->
      IsRedEnabled l = true /\ flexfec_sender_ st = None).
Proof.
  intros l.
  destruct (ConfigureProtection_locals_types field_trial_IsEnabled
              PayloadStringToCodecType st) as [Hred Hulpfec].
  fold l in Hred, Hulpfec. cbv zeta in Hred, Hulpfec.
  split; [|split].
  - rewrite Hred. destruct (_ && _); [right|left]; reflexivity.
  - rewrite Hulpfec.
    repeat match goal with
           | |- context [if ?c then _ else _] => destruct c
           end; auto.
  - intros Henabled.
    destruct (ConfigureProtection_rules field_trial_IsEnabled
                PayloadStringToCodecType st)
      as (_ & _ & _ & _ & _ & Hsame & Hiff).
    fold l in Hsame, Hiff.
    apply Hiff in Henabled as (_ & Hnone & _ & _ & Hcfg).
    split; [|exact Hnone]. unfold IsRedEnabled.
    rewrite (Hsame Hnone). apply bool_decide_eq_true. exact Hcfg.
Qed.

End Construction.

(* --------------------------------------------------------------------- *)
(*  Sequences of calls                                                   *)
(* --------------------------------------------------------------------- *)

Section CallSequences.
Context {F : Type} `{!FecController F}.
Variable kNotReceived : Z.
Implicit Type st : VideoSendStreamImpl F.

(* What a bitrate update leaves alone. *)
Lemma OnBitrateUpdated_run_frame st bitrate_bps fraction_loss rtt
    probing_interval_ms b st' :
  OnBitrateUpdated_run st bitrate_bps fraction_loss rtt probing_interval_ms
    = Some (b, st') ->
  loss_mask_vector_ st' = []
  /\ fec_controller_ st'
     = (UpdateFecRates (payload_bitrate_bps b) (stats_send_frame_rate_ st)
          fraction_loss (loss_mask_vector_ st) rtt (fec_controller_ st)).2
  /\ feedback_packet_seq_num_set_ st' = feedback_packet_seq_num_set_ st
  /\ rtp_rtcp_modules_ st' = rtp_rtcp_modules_ st
  /\ payload_router_ st' = payload_router_ st
  /\ check_encoder_activity_task_ st' = check_encoder_activity_task_ st
  /\ overhead_bytes_per_packet_ st' = overhead_bytes_per_packet_ st
  /\ transport_overhead_bytes_per_packet_ st'
     = transport_overhead_bytes_per_packet_ st
  /\ encoder_max_bitrate_bps_ st' = encoder_max_bitrate_bps_ st
  /\ config_ st' = config_ st
  /\ send_side_bwe_with_overhead_ st' = send_side_bwe_with_overhead_ st
  /\ allocator_has_observer (calls_ st') = allocator_has_observer (calls_ st).
Proof.
  unfold OnBitrateUpdated_run. intros Hrun.
  destruct (if send_side_bwe_with_overhead_ st then _ else _)
    as [payload|] eqn:Hpayload; [|discriminate]. cbn in Hrun.
  destruct (UpdateFecRates _ _ _ _ _ _) as [target fec] eqn:Hfec.
  cbn in Hrun.
  destruct (if send_side_bwe_with_overhead_ st then _ else _)
    as [overhead|] eqn:Hoverhead in Hrun; [|discriminate].
  cbn in Hrun. injection Hrun as <- <-. cbn. rewrite Hfec.
  repeat split.
  rewrite !allocator_has_observer_app. reflexivity.
Qed.

(* A feedback report only ever removes from the window. *)
Lemma OnPacketFeedbackVector_packet_shrinks st packet :
  let st' := OnPacketFeedbackVector_packet kNotReceived st packet in
  feedback_packet_seq_num_set_ st' ⊆ feedback_packet_seq_num_set_ st
  /\ (length (loss_mask_vector_ st) <= length (loss_mask_vector_ st')
      <= S (length (loss_mask_vector_ st)))%nat
  /\ payload_router_ st' = payload_router_ st
  /\ check_encoder_activity_task_ st' = check_encoder_activity_task_ st
  /\ calls_ st' = calls_ st
  /\ rtp_rtcp_modules_ st' = rtp_rtcp_modules_ st
  /\ config_ st' = config_ st
  /\ send_side_bwe_with_overhead_ st' = send_side_bwe_with_overhead_ st.
Proof.
  unfold OnPacketFeedbackVector_packet. case_bool_decide; cbn.
  - rewrite length_app. cbn. repeat split; [set_solver | lia | lia].
  - repeat split; [set_solver | lia | lia].
Qed.

Lemma OnPacketFeedbackVector_shrinks v : forall st,
  let st' := foldl (OnPacketFeedbackVector_packet kNotReceived) st v in
  feedback_packet_seq_num_set_ st' ⊆ feedback_packet_seq_num_set_ st
  /\ (length (loss_mask_vector_ st) <= length (loss_mask_vector_ st')
      <= length (loss_mask_vector_ st) + length v)%nat
  /\ payload_router_ st' = payload_router_ st
  /\ check_encoder_activity_task_ st' = check_encoder_activity_task_ st
  /\ calls_ st' = calls_ st
  /\ rtp_rtcp_modules_ st' = rtp_rtcp_modules_ st
  /\ config_ st' = config_ st
  /\ send_side_bwe_with_overhead_ st' = send_side_bwe_with_overhead_ st.
Proof.
  induction v as [|packet v IH]; intros st; cbn [foldl].
  - cbn. repeat split; [set_solver | lia | lia].
  - destruct (OnPacketFeedbackVector_packet_shrinks st packet)
      as (Hw & Hm & Hr & Ht & Hc & Hmod & Hcfg & Hflag).
    destruct (IH (OnPacketFeedbackVector_packet kNotReceived st packet))
      as (Hw' & Hm' & Hr' & Ht' & Hc' & Hmod' & Hcfg' & Hflag').
    cbv zeta in *. cbn [length].
    repeat split; try congruence; [set_solver | lia | lia].
Qed.

(* The window after an on-queue OnPacketAdded is within its capacity. *)
Lemma OnPacketAdded_bounded b st ssrc seq_num :
  Z.of_nat (size (feedback_packet_seq_num_set_ st))
    <= kSendSideSeqNumSetMaxSize ->
  Z.of_nat (size (feedback_packet_seq_num_set_
                    (OnPacketAdded b st ssrc seq_num)))
    <= kSendSideSeqNumSetMaxSize.
Proof.
  intros Hsize. unfold OnPacketAdded. destruct b; cbn [negb]; [|exact Hsize].
  case_bool_decide; [|exact Hsize].
  destruct (decide _) as [Hover|Hfits]; cbn in *.
  - rewrite size_empty. unfold kSendSideSeqNumSetMaxSize. lia.
  - lia.
Qed.

Lemma OnPacketAdded_frame b st ssrc seq_num :
  let st' := OnPacketAdded b st ssrc seq_num in
  payload_router_ st' = payload_router_ st
  /\ check_encoder_activity_task_ st' = check_encoder_activity_task_ st
  /\ allocator_has_observer (calls_ st') = allocator_has_observer (calls_ st)
  /\ rtp_rtcp_modules_ st' = rtp_rtcp_modules_ st
  /\ config_ st' = config_ st
  /\ send_side_bwe_with_overhead_ st' = send_side_bwe_with_overhead_ st.
Proof.
  unfold OnPacketAdded. destruct b; cbn [negb].
  - case_bool_decide; [|repeat split].
    destruct (decide _); repeat split.
  - cbn. rewrite allocator_has_observer_app. repeat split.
Qed.

Lemma OnPacketFeedbackVector_invariant b st v :
  stream_invariant st ->
  stream_invariant (OnPacketFeedbackVector kNotReceived b st v)
  /\ send_side_bwe_with_overhead_
       (OnPacketFeedbackVector kNotReceived b st v)
     = send_side_bwe_with_overhead_ st.
Proof.
  intros (Hactive & Hlive & Hreg & Hsize & Hlen).
  unfold OnPacketFeedbackVector. destruct b; cbn [negb].
  - destruct (OnPacketFeedbackVector_shrinks v st)
      as (Hw & _ & Hr & Ht & Hc & Hmod & Hcfg & Hflag).
    cbv zeta in *. split; [|exact Hflag].
    unfold stream_invariant. rewrite Hr, Ht, Hc, Hmod, Hcfg.
    repeat split; try assumption; try apply Hactive.
    apply subseteq_size in Hw. lia.
  - split; [|reflexivity]. unfold stream_invariant. cbn.
    rewrite allocator_has_observer_app.
    repeat split; try assumption; apply Hactive.
Qed.

Lemma OnPacketAdded_invariant b st ssrc seq_num :
  stream_invariant st ->
  stream_invariant (OnPacketAdded b st ssrc seq_num)
  /\ send_side_bwe_with_overhead_ (OnPacketAdded b st ssrc seq_num)
     = send_side_bwe_with_overhead_ st.
Proof.
  intros (Hactive & Hlive & Hreg & Hsize & Hlen).
  destruct (OnPacketAdded_frame b st ssrc seq_num)
    as (Hr & Ht & Hc & Hmod & Hcfg & Hflag). cbv zeta in *.
  split; [|exact Hflag].
  unfold stream_invariant. rewrite Hr, Ht, Hc, Hmod, Hcfg.
  repeat split; try assumption; try apply Hactive.
  apply OnPacketAdded_bounded. exact Hsize.
Qed.

Lemma StopVideoSendStream_invariant st task :
  check_encoder_activity_task_ st = Some task ->
  PayloadRouter.IsActive (payload_router_ st) = false ->
  Z.of_nat (size (feedback_packet_seq_num_set_ st))
    <= kSendSideSeqNumSetMaxSize ->
  length (rtp_rtcp_modules_ st) = length (rtp_ssrcs (config_ st)) ->
  exists st', StopVideoSendStream st = Some st'
              /\ stream_invariant st'
              /\ send_side_bwe_with_overhead_ st'
                 = send_side_bwe_with_overhead_ st.
Proof.
  intros Htask Hinactive Hsize Hlen. unfold StopVideoSendStream. cbn.
  rewrite Htask. cbn. eexists. split; [reflexivity|].
  split; [|reflexivity]. unfold stream_invariant. cbn.
  rewrite !allocator_has_observer_app. rewrite Hinactive.
  repeat split; try assumption; try discriminate.
  intros [? ?]. discriminate.
Qed.

Lemma StartupVideoSendStream_invariant st :
  PayloadRouter.IsActive (payload_router_ st) = true ->
  Z.of_nat (size (feedback_packet_seq_num_set_ st))
    <= kSendSideSeqNumSetMaxSize ->
  length (rtp_rtcp_modules_ st) = length (rtp_ssrcs (config_ st)) ->
  stream_invariant (StartupVideoSendStream st)
  /\ send_side_bwe_with_overhead_ (StartupVideoSendStream st)
     = send_side_bwe_with_overhead_ st.
Proof.
  intros Hactive Hsize Hlen. split; [|reflexivity].
  unfold stream_invariant, StartupVideoSendStream. cbn.
  repeat split; try assumption; eauto.
  intros task [= <-]. reflexivity.
Qed.

Lemma CheckEncoderActivityTask_tick_invariant st :
  stream_invariant st ->
  stream_invariant (CheckEncoderActivityTask_tick st)
  /\ send_side_bwe_with_overhead_ (CheckEncoderActivityTask_tick st)
     = send_side_bwe_with_overhead_ st.
Proof.
  intros (Hactive & Hlive & Hreg & Hsize & Hlen).
  unfold CheckEncoderActivityTask_tick.
  destruct (check_encoder_activity_task_ st) as [task|] eqn:Htask;
    [|split; [|reflexivity]; unfold stream_invariant; rewrite Htask;
      repeat split; try assumption; apply Hactive].
  pose proof (Hlive task eq_refl) as Hs.
  assert (Hact : PayloadRouter.IsActive (payload_router_ st) = true)
    by (apply Hactive; eauto).
  destruct task as [a s o]. cbn in Hs. subst s. unfold Run. cbn.
  destruct (decide (a = 0)), o; cbn;
    unfold SignalEncoderTimedOut, SignalEncoderActive;
    try destruct (decide (encoder_target_rate_bps_ st > 0)); cbn;
    (split; [|reflexivity]); unfold stream_invariant; cbn;
    rewrite ?allocator_has_observer_app;
    repeat split; try assumption; eauto; try discriminate;
    try (intros task [= <-]; reflexivity).
Qed.

(* One call keeps the invariant and the overhead switch; it can only fail
   in the division of a bitrate update with overhead accounting on. *)
Lemma apply_operation_invariant st op :
  stream_invariant st ->
  (forall st', apply_operation kNotReceived st op = Some st' ->
     stream_invariant st'
     /\ send_side_bwe_with_overhead_ st' = send_side_bwe_with_overhead_ st)
  /\ (send_side_bwe_with_overhead_ st = false ->
      is_Some (apply_operation kNotReceived st op)).
Proof.
  intros Hinv. pose proof Hinv as (Hactive & Hlive & Hreg & Hsize & Hlen).
  destruct op as [| |layers| | |bitrate loss rtt probing|n|n|b ssrc seq|b v
                 |task]; cbn [apply_operation].
  - (* Start *)
    split; [|eauto]. intros st' [= <-]. unfold Start. cbn.
    destruct (PayloadRouter.IsActive (payload_router_ st)) eqn:Ha.
    + split; [|reflexivity]. unfold stream_invariant. cbn. rewrite Ha.
      repeat split; try assumption; apply Hactive.
    + destruct (StartupVideoSendStream_invariant
                  (set_payload_router_
                     (PayloadRouter.SetActive true (payload_router_ st))
                     (RTC_LOG LS_INFO "VideoSendStream::Start" st)))
        as [Hinv1 Hflag1]; cbn; try assumption; try reflexivity.
      split; [exact Hinv1 | exact Hflag1].
  - (* Stop *)
    unfold Stop. cbn.
    destruct (PayloadRouter.IsActive (payload_router_ st)) eqn:Ha; cbn.
    + destruct (proj1 Hactive eq_refl) as [task Htask].
      destruct (StopVideoSendStream_invariant
                  (set_payload_router_
                     (PayloadRouter.SetActive false (payload_router_ st))
                     (RTC_LOG LS_INFO "VideoSendStream::Stop" st)) task)
        as (st1 & Hstop & Hinv1 & Hflag1); cbn; try assumption; try reflexivity.
      cbn in Hstop. rewrite Hstop.
      split; [|eauto]. intros st' [= <-]. split; [exact Hinv1|exact Hflag1].
    + split; [|eauto]. intros st' [= <-]. split; [|reflexivity].
      unfold stream_invariant. cbn. rewrite Ha.
      repeat split; try assumption; apply Hactive.
  - (* UpdateActiveSimulcastLayers *)
    unfold UpdateActiveSimulcastLayers. cbn.
    destruct (existsb id layers) eqn:Hany,
      (PayloadRouter.IsActive (payload_router_ st)) eqn:Ha; cbn.
    + split; [|eauto]. intros st' [= <-]. split; [|reflexivity].
      unfold stream_invariant. cbn -[existsb]. rewrite Hany.
      repeat split; try assumption; try apply Hactive; auto.
    + split; [|eauto]. intros st' [= <-].
      destruct (StartupVideoSendStream_invariant
                  (set_payload_router_
                     (PayloadRouter_SetActiveModules layers (payload_router_ st))
                     (RTC_LOG LS_INFO
                        "VideoSendStream::UpdateActiveSimulcastLayers" st)))
        as [Hinv1 Hflag1]; cbn; try assumption.
      split; [exact Hinv1 | exact Hflag1].
    + destruct (proj1 Hactive eq_refl) as [task Htask].
      destruct (StopVideoSendStream_invariant
                  (set_payload_router_
                     (PayloadRouter_SetActiveModules layers (payload_router_ st))
                     (RTC_LOG LS_INFO
                        "VideoSendStream::UpdateActiveSimulcastLayers" st))
                  task)
        as (st1 & Hstop & Hinv1 & Hflag1); cbn; try assumption.
      cbn in Hstop. rewrite Hstop.
      split; [|eauto]. intros st' [= <-]. split; [exact Hinv1|exact Hflag1].
    + split; [|eauto]. intros st' [= <-]. split; [|reflexivity].
      unfold stream_invariant. cbn -[existsb]. rewrite Hany.
      repeat split; try assumption; try discriminate; try apply Hactive.
  - (* OnEncodedImage *)
    split; [|eauto]. intros st' [= <-]. unfold OnEncodedImage_activity.
    destruct (check_encoder_activity_task_ st) as [task|] eqn:Htask.
    + split; [|reflexivity]. unfold stream_invariant. cbn.
      repeat split; try assumption; eauto.
      * intros _. apply Hactive. eauto.
      * intros task' [= <-]. cbn. apply Hlive. reflexivity.
    + split; [exact Hinv | reflexivity].
  - (* tick *)
    split; [|eauto]. intros st' [= <-].
    apply CheckEncoderActivityTask_tick_invariant. exact Hinv.
  - (* OnBitrateUpdated *)
    unfold OnBitrateUpdated. split.
    + intros st' Hrun.
      destruct (OnBitrateUpdated_run st bitrate loss rtt probing)
        as [[b0 st0]|] eqn:Hrun0; [|discriminate].
      cbn in Hrun. injection Hrun as <-.
      apply OnBitrateUpdated_run_frame in Hrun0
        as (_ & _ & Hw & Hmod & Hr & Ht & _ & _ & _ & Hcfg & Hflag & Hc).
      split; [|exact Hflag].
      unfold stream_invariant. rewrite Hw, Hmod, Hr, Ht, Hcfg, Hc.
      exact Hinv.
    + intros Hoff. unfold OnBitrateUpdated_run. rewrite Hoff. cbn.
      destruct (UpdateFecRates _ _ _ _ _ _). cbn. rewrite Hoff. cbn. eauto.
  - (* OnOverheadChanged *)
    split; [|eauto]. intros st' [= <-]. split; [exact Hinv|reflexivity].
  - (* SetTransportOverhead *)
    split; [|eauto]. intros st' [= <-]. unfold SetTransportOverhead.
    destruct (decide _); (split; [|reflexivity]).
    + exact Hinv.
    + unfold stream_invariant. cbn. rewrite length_map. exact Hinv.
  - (* OnPacketAdded *)
    split; [|eauto]. intros st' [= <-].
    apply OnPacketAdded_invariant. exact Hinv.
  - (* OnPacketFeedbackVector *)
    split; [|eauto]. intros st' [= <-].
    apply OnPacketFeedbackVector_invariant. exact Hinv.
  - (* a posted closure *)
    split; [|eauto]. intros st' [= <-].
    destruct task as [ssrc seq|v]; unfold run_posted.
    + apply OnPacketAdded_invariant. exact Hinv.
    + apply OnPacketFeedbackVector_invariant. exact Hinv.
Qed.

(** X8.  Every sequence of calls on the worker queue keeps the object
    consistent: the payload router is active exactly when the stream holds
    a watchdog task, that task's reference to the stream is live, the stream
    is registered with the bitrate allocator only while it is started, the
    feedback window holds at most 5500 sequence numbers, and there is one
    module per media SSRC. *)
Theorem apply_operations_invariant ops : forall st st',
  stream_invariant st ->
  apply_operations kNotReceived st ops = Some st' ->
  stream_invariant st'.
Proof.
  induction ops as [|op ops IH]; intros st st' Hinv Hrun; cbn in Hrun.
  - injection Hrun as <-. exact Hinv.
  - destruct (apply_operation kNotReceived st op) as [st1|] eqn:Hop;
      [|discriminate]. cbn in Hrun.
    destruct (apply_operation_invariant st op Hinv) as [Hkeep _].
    apply (IH st1 st'); [apply (Hkeep st1 Hop) | exact Hrun].
Qed.

(** X9.  In every state that a sequence of these calls reaches from a
    consistent object, Stop() finds the watchdog task that
    StopVideoSendStream dereferences, because the task is set whenever the
    payload router is active.  So Stop() returns, and afterwards the stream
    is not started, holds no task and is not registered with the bitrate
    allocator. *)
Theorem Stop_finds_task ops : forall st st',
  stream_invariant st ->
  apply_operations kNotReceived st ops = Some st' ->
  (PayloadRouter.IsActive (payload_router_ st') = true ->
   is_Some (check_encoder_activity_task_ st'))
  /\ exists stopped,
       Stop st' = Some stopped
       /\ PayloadRouter.IsActive (payload_router_ stopped) = false
       /\ check_encoder_activity_task_ stopped = None
       /\ allocator_has_observer (calls_ stopped) = false.
Proof.
  assert (Hstop : forall st,
    stream_invariant st ->
    (PayloadRouter.IsActive (payload_router_ st) = true ->
     is_Some (check_encoder_activity_task_ st))
    /\ exists stopped,
         Stop st = Some stopped
         /\ PayloadRouter.IsActive (payload_router_ stopped) = false
         /\ check_encoder_activity_task_ stopped = None
         /\ allocator_has_observer (calls_ stopped) = false).
  { intros st (Hiff & _ & Hobserver & _).
    split; [apply Hiff|].
    unfold Stop. cbn -[allocator_has_observer].
    destruct (PayloadRouter.IsActive (payload_router_ st)) eqn:Hactive;
      cbn -[allocator_has_observer].
    - destruct (proj1 Hiff eq_refl) as [task Htask].
      unfold StopVideoSendStream. cbn -[allocator_has_observer].
      rewrite Htask. cbn -[allocator_has_observer].
      eexists. split; [reflexivity|]. cbn -[allocator_has_observer].
      split; [reflexivity|]. split; [reflexivity|].
      rewrite !allocator_has_observer_app. reflexivity.
    - eexists. split; [reflexivity|]. cbn -[allocator_has_observer].
      split; [exact Hactive|]. split.
      + destruct (check_encoder_activity_task_ st) as [task|] eqn:Htask;
          [|reflexivity].
        assert (Hcontra : false = true) by (apply Hiff; eauto).
        discriminate Hcontra.
      + destruct (allocator_has_observer (calls_ st)); [|reflexivity].
        symmetry. apply Hobserver. reflexivity. }
  induction ops as [|op ops IH]; intros st st' Hinv Hrun; cbn in Hrun.
  - injection Hrun as <-. apply Hstop. exact Hinv.
  - destruct (apply_operation kNotReceived st op) as [st1|] eqn:Hop;
      [|discriminate]. cbn in Hrun.
    destruct (apply_operation_invariant st op Hinv) as [Hkeep _].
    apply (IH st1 st'); [apply (Hkeep st1 Hop) | exact Hrun].
Qed.

End CallSequences.

Section FreshStream.
Context {F : Type} `{!FecController F}.
Variable field_trial_IsEnabled : string -> bool.
Variable PayloadStringToCodecType : string -> VideoCodecType.

(* The fields the constructor initialises directly. *)
Lemma VideoSendStreamImpl_new_fields config initial_encoder_max_bitrate
    (fec_controller : F) send_frame_rate :
  let st := VideoSendStreamImpl_new field_trial_IsEnabled
              PayloadStringToCodecType config initial_encoder_max_bitrate
              fec_controller send_frame_rate in
  PayloadRouter.IsActive (payload_router_ st) = false
  /\ check_encoder_activity_task_ st = None
  /\ calls_ st = []
  /\ feedback_packet_seq_num_set_ st = ∅
  /\ loss_mask_vector_ st = []
  /\ encoder_target_rate_bps_ st = 0
  /\ overhead_bytes_per_packet_ st = 0
  /\ transport_overhead_bytes_per_packet_ st = 0
  /\ encoder_max_bitrate_bps_ st = to_uint32 initial_encoder_max_bitrate
  /\ send_side_bwe_with_overhead_ st
     = field_trial_IsEnabled "WebRTC-SendSideBwe-WithOverhead".
Proof.
  intros st. subst st. unfold VideoSendStreamImpl_new.
  destruct (MaybeCreateFlexfecSender config). repeat split.
Qed.

(* The constructor establishes what the calls keep. *)
Lemma VideoSendStreamImpl_new_invariant config initial_encoder_max_bitrate
    (fec_controller : F) send_frame_rate :
  stream_invariant
    (VideoSendStreamImpl_new field_trial_IsEnabled PayloadStringToCodecType
       config initial_encoder_max_bitrate fec_controller send_frame_rate).
Proof.
  destruct (VideoSendStreamImpl_new_fields config initial_encoder_max_bitrate
              fec_controller send_frame_rate) as (Ha & Ht & Hc & Hw & _).
  unfold stream_invariant. rewrite Ha, Ht, Hc, Hw, size_empty.
  repeat split; try discriminate.
  - intros [? ?]. discriminate.
  - destruct (VideoSendStreamImpl_new_protection field_trial_IsEnabled
                PayloadStringToCodecType config initial_encoder_max_bitrate
                fec_controller send_frame_rate) as [Hmodules _].
    destruct (VideoSendStreamImpl_new_config field_trial_IsEnabled
                PayloadStringToCodecType config initial_encoder_max_bitrate
                fec_controller send_frame_rate) as [Hconfig _].
    rewrite Hmodules, Hconfig.
    unfold CreateRtpRtcpModules. rewrite !length_map. reflexivity.
Qed.

(** X10.  A stream as constructed is consistent and idle: the payload router
    is inactive, there is no watchdog task, the feedback window and the loss
    mask are empty, the encoder target rate and both overheads are 0, the
    encoder maximum is the initial maximum as a uint32, and overhead
    accounting follows the field trial WebRTC-SendSideBwe-WithOverhead. *)
Theorem VideoSendStreamImpl_new_idle config initial_encoder_max_bitrate
    (fec_controller : F) send_frame_rate :
  let st := VideoSendStreamImpl_new field_trial_IsEnabled
              PayloadStringToCodecType config initial_encoder_max_bitrate
              fec_controller send_frame_rate in
  stream_invariant st
  /\ PayloadRouter.IsActive (payload_router_ st) = false
  /\ check_encoder_activity_task_ st = None
  /\ feedback_packet_seq_num_set_ st = ∅
  /\ loss_mask_vector_ st = []
  /\ encoder_target_rate_bps_ st = 0
  /\ overhead_bytes_per_packet_ st = 0
  /\ transport_overhead_bytes_per_packet_ st = 0
  /\ encoder_max_bitrate_bps_ st = to_uint32 initial_encoder_max_bitrate
  /\ send_side_bwe_with_overhead_ st
     = field_trial_IsEnabled "WebRTC-SendSideBwe-WithOverhead".
Proof.
  intros st. split; [apply VideoSendStreamImpl_new_invariant|].
  destruct (VideoSendStreamImpl_new_fields config initial_encoder_max_bitrate
              fec_controller send_frame_rate)
    as (Hactive & Htask & _ & Hfields).
  split; [exact Hactive|]. split; [exact Htask | exact Hfields].
Qed.

End FreshStream.

(* --------------------------------------------------------------------- *)
(*  Start, Stop and the watchdog on the stream                           *)
(* --------------------------------------------------------------------- *)

(* The registration after further calls depends on the registration before
   and on those calls alone. *)
Lemma allocator_has_observer_append calls more :
  allocator_has_observer (calls ++ more)
  = foldl (fun registered c =>
             match c with
             | BitrateAllocator_AddObserver _ _ _ _ _ => true
             | BitrateAllocator_RemoveObserver => false
             | _ => registered
             end) (allocator_has_observer calls) more.
Proof. apply foldl_app. Qed.

(* The tick after an encoded frame on a timed-out task. *)
Lemma Run_recovers (t : CheckEncoderActivityTask) :
  send_stream_ t = true -> timed_out_ t = true ->
  Run (UpdateEncoderActivity t)
  = {| run_signals := [EncoderActive];
       run_task := {| activity_ := 0; send_stream_ := true;
                      timed_out_ := false |};
       run_returns := false |}.
Proof.
  destruct t as [a s o]. cbn. intros -> ->. reflexivity.
Qed.

Section StartStopCycle.
Context {F : Type} `{!FecController F}.
Implicit Type st : VideoSendStreamImpl F.

(** X11.  Start() on a stream that is not started followed by Stop() makes
    six calls in this order: AddObserver with the current bounds, the
    delayed watchdog task, SendKeyFrame, RemoveObserver, OnBitrateUpdated(0,
    0, 0) on the encoder and OnSetEncoderTargetRate(0).  Afterwards the
    stream is not started, holds no task and is not registered; Stop()
    resets neither encoder_target_rate_bps_ nor the feedback window nor the
    loss mask. *)
Theorem Start_then_Stop st :
  PayloadRouter.IsActive (payload_router_ st) = false ->
  exists st',
    Stop (Start st) = Some st'
    /\ calls_ st'
       = calls_ st
         ++ [AddObserver st;
             TaskQueue_PostDelayedTask_CheckEncoderActivity kEncoderTimeOutMs;
             VideoStreamEncoder_SendKeyFrame;
             BitrateAllocator_RemoveObserver;
             VideoStreamEncoder_OnBitrateUpdated 0 0 0;
             SendStatisticsProxy_OnSetEncoderTargetRate 0]
    /\ check_encoder_activity_task_ (Start st)
       = Some CheckEncoderActivityTask_new
    /\ PayloadRouter.IsActive (payload_router_ st') = false
    /\ check_encoder_activity_task_ st' = None
    /\ allocator_has_observer (calls_ st') = false
    /\ encoder_target_rate_bps_ st' = encoder_target_rate_bps_ st
    /\ feedback_packet_seq_num_set_ st' = feedback_packet_seq_num_set_ st
    /\ loss_mask_vector_ st' = loss_mask_vector_ st.
Proof.
  intros Hinactive. unfold Stop, Start. cbn. rewrite Hinactive. cbn.
  eexists. split; [reflexivity|]. cbn.
  rewrite <- !app_assoc. cbn.
  repeat split.
  rewrite allocator_has_observer_append. reflexivity.
Qed.

(** X12.  The watchdog on a started stream whose encoder stalls and comes
    back: a tick without encoded frame, then an encoded frame, then a tick.
    The first tick removes the observer when encoder_target_rate_bps_ is
    positive, the second adds it again with the bounds unchanged; each tick
    posts the task again.  In the end the stream is registered and the task
    is as when it was created. *)
Theorem stall_and_recovery st task :
  check_encoder_activity_task_ st = Some task ->
  send_stream_ task = true -> activity_ task = 0 -> timed_out_ task = false ->
  let st1 := CheckEncoderActivityTask_tick st in
  let st3 := CheckEncoderActivityTask_tick (OnEncodedImage_activity st1) in
  calls_ st1
  = calls_ st
    ++ (if decide (encoder_target_rate_bps_ st > 0)
        then [BitrateAllocator_RemoveObserver] else [])
    ++ [TaskQueue_PostDelayedTask_CheckEncoderActivity kEncoderTimeOutMs]
  /\ (encoder_target_rate_bps_ st > 0 ->
      allocator_has_observer (calls_ st1) = false)
  /\ calls_ st3
     = calls_ st1
       ++ [AddObserver st;
           TaskQueue_PostDelayedTask_CheckEncoderActivity kEncoderTimeOutMs]
  /\ allocator_has_observer (calls_ st3) = true
  /\ check_encoder_activity_task_ st3 = Some CheckEncoderActivityTask_new.
Proof.
  intros Htask Hs Ha Ho st1 st3.
  assert (Hst1 : st1
    = call (TaskQueue_PostDelayedTask_CheckEncoderActivity kEncoderTimeOutMs)
        (set_check_encoder_activity_task_
           (Some {| activity_ := 0; send_stream_ := true;
                    timed_out_ := true |})
           (SignalEncoderTimedOut st))).
  { subst st1. unfold CheckEncoderActivityTask_tick.
    rewrite Htask, (Run_first_timeout task Hs Ha Ho). reflexivity. }
  assert (Hst3 : st3
    = call (TaskQueue_PostDelayedTask_CheckEncoderActivity kEncoderTimeOutMs)
        (set_check_encoder_activity_task_
           (Some CheckEncoderActivityTask_new)
           (SignalEncoderActive
              (set_check_encoder_activity_task_
                 (Some (UpdateEncoderActivity
                          {| activity_ := 0; send_stream_ := true;
                             timed_out_ := true |})) st1)))).
  { subst st3. rewrite Hst1.
    unfold OnEncodedImage_activity, CheckEncoderActivityTask_tick.
    cbn [check_encoder_activity_task_ set_check_encoder_activity_task_ call
         set_calls_].
    rewrite Run_recovers by reflexivity. reflexivity. }
  rewrite Hst3, Hst1. clear Hst3 Hst1 st1 st3.
  unfold SignalEncoderTimedOut.
  destruct (decide (encoder_target_rate_bps_ st > 0)) as [Hpos|Hzero];
    cbn -[allocator_has_observer]; rewrite <- ?app_assoc;
    cbn -[allocator_has_observer].
  - repeat split.
    + intros _. rewrite allocator_has_observer_append. reflexivity.
    + rewrite allocator_has_observer_append. reflexivity.
  - repeat split.
    + intros Hpos. contradiction.
    + rewrite allocator_has_observer_append. reflexivity.
Qed.

(** X13.  An accepted SetTransportOverhead(n), 0 <= n < 1500, leaves every
    module with a maximum RTP packet size that is at most the configured
    maximum and that, with the n bytes of transport overhead added, is at
    most the path MTU of 1500.  A later call that is rejected keeps both the
    stored overhead n and these sizes. *)
Theorem SetTransportOverhead_fits_mtu st n n' :
  0 <= n < kPathMTU ->
  n' >= kPathMTU ->
  let st1 := SetTransportOverhead st n in
  let st2 := SetTransportOverhead st1 n' in
  Forall (fun m => exists size,
                     module_max_rtp_packet_size m = Some size
                     /\ size <= rtp_max_packet_size (config_ st)
                     /\ size + n <= kPathMTU)
         (rtp_rtcp_modules_ st1)
  /\ transport_overhead_bytes_per_packet_ st2 = n
  /\ rtp_rtcp_modules_ st2 = rtp_rtcp_modules_ st1.
Proof.
  intros Hn Hn' st1 st2. subst st2 st1. unfold SetTransportOverhead.
  destruct (decide (n >= kPathMTU)) as [|_]; [lia|].
  destruct (decide (n' >= kPathMTU)) as [_|]; [|lia]. cbn.
  split; [|split; reflexivity].
  apply Forall_forall. intros m Hm.
  apply list_elem_of_fmap in Hm as (m0 & -> & _). cbn.
  eexists. split; [reflexivity|].
  rewrite to_size_t_small by (unfold is_size_t, kPathMTU in *; lia). lia.
Qed.

End StartStopCycle.

(* --------------------------------------------------------------------- *)
(*  The order of the watchdog's notifications                            *)
(* --------------------------------------------------------------------- *)

(* What one run on a live task can signal. *)
Lemma Run_live_cases (t : CheckEncoderActivityTask) :
  send_stream_ t = true ->
  send_stream_ (run_task (Run t)) = true
  /\ ((run_signals (Run t) = []
       /\ timed_out_ (run_task (Run t)) = timed_out_ t)
      \/ (run_signals (Run t) = [EncoderTimedOut]
          /\ timed_out_ t = false /\ timed_out_ (run_task (Run t)) = true)
      \/ (run_signals (Run t) = [EncoderActive]
          /\ timed_out_ t = true /\ timed_out_ (run_task (Run t)) = false)).
Proof.
  destruct t as [a s o]. cbn. intros ->. unfold Run. cbn.
  destruct (decide (a = 0)), o; cbn; split; auto.
Qed.

(** X14.  Over any interleaving of encoded frames and ticks on a live task
    the notifications alternate: the first one is EncoderActive when the
    task starts timed out and EncoderTimedOut otherwise, no two consecutive
    notifications are equal, and the task ends timed out exactly when the
    last notification, or failing one the initial state, says so. *)
Theorem run_events_alternate evs : forall t,
  send_stream_ t = true ->
  let signals := (run_events evs t).1 in
  let t' := (run_events evs t).2 in
  (forall s, head signals = Some s ->
     s = if timed_out_ t then EncoderActive else EncoderTimedOut)
  /\ (forall (i : nat) s s',
        signals !! i = Some s -> signals !! S i = Some s' -> s <> s')
  /\ timed_out_ t'
     = match last signals with
       | Some EncoderTimedOut => true
       | Some EncoderActive => false
       | None => timed_out_ t
       end
  /\ send_stream_ t' = true.
Proof.
  induction evs as [|ev evs IH]; intros t Hlive.
  - cbn. repeat split; intros; first [discriminate | assumption].
  - destruct ev; cbn [run_events].
    + (* an encoded frame *)
      apply (IH (UpdateEncoderActivity t)). exact Hlive.
    + (* a tick *)
      destruct (Run_live_cases t Hlive) as [Hlive' Hcases].
      specialize (IH (run_task (Run t)) Hlive').
      destruct (run_events evs (run_task (Run t))) as [signals t'].
      cbn [fst snd] in *. destruct IH as (Hhead & Hadj & Hlast & Hl).
      destruct Hcases as [[-> Hsame]|[(-> & Hold & Hnew)|(-> & Hold & Hnew)]];
        cbn [app].
      * rewrite Hsame in *. repeat split; assumption.
      * rewrite Hold, Hnew in *. repeat split; try assumption.
        -- intros s Hs. cbn in Hs. injection Hs as <-. reflexivity.
        -- intros [|i] s s' Hs Hs'; cbn in Hs, Hs'.
           ++ injection Hs as <-. destruct signals as [|s0 rest];
                [discriminate|]. cbn in Hs'. injection Hs' as <-.
              rewrite (Hhead s0 eq_refl). discriminate.
           ++ apply (Hadj i s s' Hs Hs').
        -- destruct signals as [|s0 rest]; [exact Hlast|].
           rewrite Hlast.
           change (last (_ :: s0 :: rest)) with (last (s0 :: rest)).
           destruct (last (s0 :: rest)) as [[]|] eqn:Hend; try reflexivity.
           apply last_None in Hend. discriminate.
      * rewrite Hold, Hnew in *. repeat split; try assumption.
        -- intros s Hs. cbn in Hs. injection Hs as <-. reflexivity.
        -- intros [|i] s s' Hs Hs'; cbn in Hs, Hs'.
           ++ injection Hs as <-. destruct signals as [|s0 rest];
                [discriminate|]. cbn in Hs'. injection Hs' as <-.
              rewrite (Hhead s0 eq_refl). discriminate.
           ++ apply (Hadj i s s' Hs Hs').
        -- destruct signals as [|s0 rest]; [exact Hlast|].
           rewrite Hlast.
           change (last (_ :: s0 :: rest)) with (last (s0 :: rest)).
           destruct (last (s0 :: rest)) as [[]|] eqn:Hend; try reflexivity.
           apply last_None in Hend. discriminate.
Qed.

(* --------------------------------------------------------------------- *)
(*  Feedback reports                                                     *)
(* --------------------------------------------------------------------- *)

Section FeedbackVector.
Context {F : Type}.
Variable kNotReceived : Z.
Implicit Type st : VideoSendStreamImpl F.

(** X15.  On the worker queue OnPacketFeedbackVector never adds to the
    feedback window, appends at most one loss-mask entry per report and
    keeps the entries already there ahead of them; a vector none of whose
    sequence numbers is in the window changes nothing. *)
Theorem OnPacketFeedbackVector_only_shrinks st
    (packet_feedback_vector : list PacketFeedback) :
  let st' :=
    OnPacketFeedbackVector kNotReceived true st packet_feedback_vector in
  feedback_packet_seq_num_set_ st' ⊆ feedback_packet_seq_num_set_ st
  /\ (exists appended,
        loss_mask_vector_ st' = loss_mask_vector_ st ++ appended
        /\ (length appended <= length packet_feedback_vector)%nat)
  /\ ((forall packet, packet ∈ packet_feedback_vector ->
         sequence_number packet ∉ feedback_packet_seq_num_set_ st) ->
      st' = st).
Proof.
  unfold OnPacketFeedbackVector. cbn [negb].
  revert st. induction packet_feedback_vector as [|packet v IH]; intros st.
  - cbn. split; [set_solver|]. split; [|reflexivity].
    exists []. rewrite app_nil_r. split; [reflexivity | cbn; lia].
  - cbn [foldl].
    destruct (IH (OnPacketFeedbackVector_packet kNotReceived st packet))
      as (Hw & (appended & Hmask & Hlen) & Hnone).
    split; [|split].
    + etransitivity; [exact Hw|].
      unfold OnPacketFeedbackVector_packet. case_bool_decide; cbn; set_solver.
    + assert (Hone : exists entry,
                loss_mask_vector_
                  (OnPacketFeedbackVector_packet kNotReceived st packet)
                = loss_mask_vector_ st ++ entry
                /\ (length entry <= 1)%nat).
      { unfold OnPacketFeedbackVector_packet. case_bool_decide; cbn.
        - eexists [_]. split; [reflexivity | cbn; lia].
        - exists []. rewrite app_nil_r. split; [reflexivity | cbn; lia]. }
      destruct Hone as (entry & Hentry & Hle).
      exists (entry ++ appended). rewrite Hmask, Hentry, <- app_assoc.
      split; [reflexivity|]. rewrite length_app. cbn. lia.
    + intros Habsent.
      rewrite (OnPacketFeedbackVector_packet_absent kNotReceived st packet) in *
        by (apply Habsent; apply list_elem_of_here).
      apply Hnone. intros p Hp. apply Habsent. apply list_elem_of_further.
      exact Hp.
Qed.

End FeedbackVector.

(* --------------------------------------------------------------------- *)
(*  Encoder bitrate bounds                                               *)
(* --------------------------------------------------------------------- *)

(* Adding non-negative targets that stay within int never overflows. *)
Lemma fold_int_add (lower : list VideoStream) : forall start,
  0 <= start ->
  Forall (fun s => 0 <= stream_target_bitrate_bps s) lower ->
  start + foldr (fun s acc => stream_target_bitrate_bps s + acc) 0 lower
    < 2 ^ 31 ->
  foldl (fun acc stream =>
           pad ← acc; int_add pad (stream_target_bitrate_bps stream))
        (Some start) lower
  = Some (start
          + foldr (fun s acc => stream_target_bitrate_bps s + acc) 0 lower).
Proof.
  induction lower as [|s lower IH]; intros start Hstart Hpos Hsum.
  - cbn. f_equal. lia.
  - apply Forall_cons in Hpos as [Hs Hpos]. cbn [foldl foldr] in *.
    assert (Hrest : 0 <= foldr (fun s acc => stream_target_bitrate_bps s + acc)
                           0 lower).
    { clear -Hpos. induction Hpos; cbn; lia. }
    cbn. unfold int_add.
    destruct (decide (is_int (start + stream_target_bitrate_bps s)))
      as [_|Hover]; [|exfalso; apply Hover; unfold is_int; lia].
    rewrite IH by (try assumption; lia). f_equal. lia.
Qed.

(* CalculateMaxPadBitrateBps ends in a max with min_transmit_bitrate_bps. *)
Lemma CalculateMaxPadBitrateBps_at_least (streams : list VideoStream)
    (min_transmit_bitrate_bps : Z) (pad_to_min_bitrate : bool) pad :
  CalculateMaxPadBitrateBps streams min_transmit_bitrate_bps
    pad_to_min_bitrate = Some pad ->
  min_transmit_bitrate_bps <= pad.
Proof.
  unfold CalculateMaxPadBitrateBps.
  destruct (if decide (1 < length streams)%nat then _ else _) as [p|];
    [|discriminate].
  cbn. intros [= <-]. lia.
Qed.

(** X16.  CalculateMaxPadBitrateBps, when it returns, returns at least
    min_transmit_bitrate_bps.  For at most one stream and no padding to the
    minimum it returns max(0, min_transmit_bitrate_bps); for one stream with
    padding to the minimum, the larger of that stream's minimum and
    min_transmit_bitrate_bps, and with no stream at all it reads streams[0]
    of an empty vector.  For several layers with non-negative rates that
    add up within int it returns the larger of min_transmit_bitrate_bps and
    the minimum of the highest layer plus the targets of all lower ones. *)
Theorem CalculateMaxPadBitrateBps_cases (streams : list VideoStream)
    (min_transmit_bitrate_bps : Z) (pad_to_min_bitrate : bool) :
  (forall pad,
     CalculateMaxPadBitrateBps streams min_transmit_bitrate_bps
       pad_to_min_bitrate = Some pad ->
     min_transmit_bitrate_bps <= pad)
  /\ ((length streams <= 1)%nat -> pad_to_min_bitrate = false ->
      CalculateMaxPadBitrateBps streams min_transmit_bitrate_bps
        pad_to_min_bitrate = Some (Z.max 0 min_transmit_bitrate_bps))
  /\ (forall s, streams = [s] -> pad_to_min_bitrate = true ->
      CalculateMaxPadBitrateBps streams min_transmit_bitrate_bps
        pad_to_min_bitrate
      = Some (Z.max (stream_min_bitrate_bps s) min_transmit_bitrate_bps))
  /\ (streams = [] -> pad_to_min_bitrate = true ->
      CalculateMaxPadBitrateBps streams min_transmit_bitrate_bps
        pad_to_min_bitrate = None)
  /\ (forall lower highest,
        streams = lower ++ [highest] -> lower <> [] ->
        0 <= stream_min_bitrate_bps highest ->
        Forall (fun s => 0 <= stream_target_bitrate_bps s) lower ->
        stream_min_bitrate_bps highest
        + foldr (fun s acc => stream_target_bitrate_bps s + acc) 0 lower
          < 2 ^ 31 ->
        CalculateMaxPadBitrateBps streams min_transmit_bitrate_bps
          pad_to_min_bitrate
        = Some (Z.max
                  (stream_min_bitrate_bps highest
                   + foldr (fun s acc => stream_target_bitrate_bps s + acc)
                       0 lower)
                  min_transmit_bitrate_bps)).
Proof.
  split; [|split; [|split; [|split]]].
  - intros pad. apply CalculateMaxPadBitrateBps_at_least.
  - intros Hlen ->. unfold CalculateMaxPadBitrateBps.
    destruct (decide (1 < length streams)%nat); [lia|]. reflexivity.
  - intros s -> ->. reflexivity.
  - intros -> ->. reflexivity.
  - intros lower highest -> Hne Hmin Hpos Hsum.
    unfold CalculateMaxPadBitrateBps.
    assert (Hlen : (1 < length (lower ++ [highest]))%nat).
    { rewrite length_app. cbn. destruct lower; [contradiction | cbn; lia]. }
    destruct (decide (1 < length (lower ++ [highest]))%nat); [|lia].
    rewrite last_snoc. cbn.
    replace (length (lower ++ [highest]) - 1)%nat with (length lower)
      by (rewrite length_app; cbn; lia).
    rewrite take_app_length.
    rewrite fold_int_add by assumption. reflexivity.
Qed.

Section EncoderConfiguration.
Context {F : Type} `{!FecController F}.
Variable field_trial_IsEnabled : string -> bool.
Variable field_trial_FindFullName : string -> string.
Variable sscanf_Enabled : string -> Z * (Z * Z * Z).
Variable SetEncodingData : Z -> Z -> Z -> Z -> F -> F.
Implicit Type st : VideoSendStreamImpl F.

(* The default and every value taken from the field trial are positive. *)
Lemma GetEncoderMinBitrateBps_lower_bound :
  0 < GetEncoderMinBitrateBps field_trial_IsEnabled field_trial_FindFullName
        sscanf_Enabled.
Proof.
  unfold GetEncoderMinBitrateBps, GetFallbackMinBpsFromFieldTrial.
  destruct (field_trial_IsEnabled kForcedFallbackFieldTrial); cbn [negb];
    [|cbn; lia].
  case_bool_decide; [cbn; lia|].
  destruct (sscanf_Enabled _) as [converted [[min_pixels max_pixels] min_bps]].
  destruct (decide (converted <> 3)); [cbn; lia|].
  destruct (decide (min_bps <= 0)); cbn; lia.
Qed.

(** X17.  GetEncoderMinBitrateBps is always positive: it is 30000 unless the
    field trial WebRTC-VP8-Forced-Fallback-Encoder-v2 is enabled with a
    group from which three numbers are read, the third of them positive,
    and then it is that third number. *)
Theorem GetEncoderMinBitrateBps_positive :
  let min_bps :=
    GetEncoderMinBitrateBps field_trial_IsEnabled field_trial_FindFullName
      sscanf_Enabled in
  let group := field_trial_FindFullName kForcedFallbackFieldTrial in
  0 < min_bps
  /\ (field_trial_IsEnabled kForcedFallbackFieldTrial = false ->
      min_bps = 30000)
  /\ (group = "" -> min_bps = 30000)
  /\ ((sscanf_Enabled group).1 <> 3 -> min_bps = 30000)
  /\ (field_trial_IsEnabled kForcedFallbackFieldTrial = true ->
      group <> "" -> (sscanf_Enabled group).1 = 3 ->
      min_bps = if decide ((sscanf_Enabled group).2.2 <= 0) then 30000
                else (sscanf_Enabled group).2.2).
Proof.
  cbv zeta. unfold GetEncoderMinBitrateBps, GetFallbackMinBpsFromFieldTrial.
  destruct (field_trial_IsEnabled kForcedFallbackFieldTrial); cbn [negb];
    [|cbn; repeat split; intros; first [lia | discriminate | reflexivity]].
  case_bool_decide as Hgroup;
    [cbn; repeat split; intros; first [lia | contradiction | reflexivity]|].
  destruct (sscanf_Enabled _) as [converted [[min_pixels max_pixels] min_bps]].
  cbn [fst snd].
  destruct (decide (converted <> 3)) as [Hc|Hc];
    [cbn; repeat split; intros; first [lia | contradiction | reflexivity]|].
  destruct (decide (min_bps <= 0)); cbn;
    repeat split; intros; first [lia | contradiction | reflexivity].
Qed.

(* No active stream contributes to the maximum. *)
Lemma sum_active_max_bitrate_bps_inactive (streams : list VideoStream) :
  Forall (fun s => stream_active s = false) streams ->
  sum_active_max_bitrate_bps streams = 0.
Proof.
  unfold sum_active_max_bitrate_bps. intros Hall.
  induction Hall as [|s streams Hs _ IH]; [reflexivity|].
  cbn [foldl]. rewrite Hs. exact IH.
Qed.

Lemma sum_active_max_bitrate_bps_range (streams : list VideoStream) :
  is_uint32 (sum_active_max_bitrate_bps streams).
Proof.
  unfold sum_active_max_bitrate_bps.
  assert (Hgen : forall acc, is_uint32 acc ->
            is_uint32
              (foldl (fun acc stream =>
                        to_uint32
                          (acc + to_uint32 (if stream_active stream
                                            then stream_max_bitrate_bps stream
                                            else 0))) acc streams)).
  { induction streams as [|s streams IH]; intros acc Hacc; [exact Hacc|].
    cbn [foldl]. apply IH. apply to_uint32_range. }
  apply Hgen. unfold is_uint32. lia.
Qed.

(** X18.  OnEncoderConfigurationChanged on the worker queue, when it returns:
    the new encoder minimum is the larger of the first stream's minimum and
    GetEncoderMinBitrateBps, hence positive; the new encoder maximum is a
    uint32 not below the minimum converted to uint32, and equal to it when
    no stream is active; the padding bitrate is at least
    min_transmit_bitrate_bps; the SSRCs beyond the number of streams are
    reported inactive; and AddObserver is called, with the new bounds,
    exactly when the stream is started.  With no stream at all it reads
    streams[0] of an empty vector; off the queue it only posts itself. *)
Theorem OnEncoderConfigurationChanged_bounds st (streams : list VideoStream)
    (min_transmit_bitrate_bps : Z) :
  let run is_current :=
    OnEncoderConfigurationChanged field_trial_IsEnabled
      field_trial_FindFullName sscanf_Enabled SetEncodingData is_current st
      streams min_transmit_bitrate_bps in
  run false = Reposted
  /\ (streams = [] -> run true = Ran None)
  /\ forall st' inactive_ssrcs,
       run true = Ran (Some (st', inactive_ssrcs)) ->
       0 < encoder_min_bitrate_bps_ st'
       /\ (forall lowest, head streams = Some lowest ->
             encoder_min_bitrate_bps_ st'
             = Z.max (stream_min_bitrate_bps lowest)
                 (GetEncoderMinBitrateBps field_trial_IsEnabled
                    field_trial_FindFullName sscanf_Enabled))
       /\ is_uint32 (encoder_max_bitrate_bps_ st')
       /\ to_uint32 (encoder_min_bitrate_bps_ st')
          <= encoder_max_bitrate_bps_ st'
       /\ (Forall (fun s => stream_active s = false) streams ->
           encoder_max_bitrate_bps_ st'
           = to_uint32 (encoder_min_bitrate_bps_ st'))
       /\ min_transmit_bitrate_bps <= max_padding_bitrate_ st'
       /\ inactive_ssrcs = drop (length streams) (rtp_ssrcs (config_ st))
       /\ calls_ st'
          = calls_ st
            ++ (if PayloadRouter.IsActive (payload_router_ st)
                then [AddObserver st'] else [])
       /\ payload_router_ st' = payload_router_ st
       /\ check_encoder_activity_task_ st' = check_encoder_activity_task_ st.
Proof.
  intros run. subst run. unfold OnEncoderConfigurationChanged. cbn [negb].
  split; [reflexivity|]. split; [intros ->; reflexivity|].
  intros st' inactive Hrun. injection Hrun as Hrun.
  destruct (head streams) as [lowest|] eqn:Hhead; [|discriminate].
  cbn in Hrun.
  destruct (CalculateMaxPadBitrateBps streams min_transmit_bitrate_bps
              (suspend_below_min_bitrate (config_ st)))
    as [pad|] eqn:Hpad; [|discriminate].
  cbn in Hrun.
  destruct (last streams) as [highest|] eqn:Hlast; [|discriminate].
  cbn in Hrun.
  pose proof (CalculateMaxPadBitrateBps_at_least _ _ _ _ Hpad) as Hatleast.
  pose proof GetEncoderMinBitrateBps_lower_bound as Hpositive.
  pose proof (sum_active_max_bitrate_bps_range streams) as Hrange.
  set (min_bps := Z.max (stream_min_bitrate_bps lowest) _) in *.
  pose proof (to_uint32_range min_bps) as Hmin32.
  assert (Hmin : 0 < min_bps) by (subst min_bps; lia).
  destruct (PayloadRouter.IsActive (payload_router_ st)) eqn:Hactive;
    injection Hrun as <- <-; cbn; unfold is_uint32 in *;
    repeat split;
    first [ lia
          | intros ? [= <-]; reflexivity
          | intros Hnone;
            rewrite (sum_active_max_bitrate_bps_inactive streams Hnone); lia
          | rewrite ?app_nil_r; reflexivity ].
Qed.

End EncoderConfiguration.

(* --------------------------------------------------------------------- *)
(*  Active simulcast layers                                              *)
(* --------------------------------------------------------------------- *)

Section LayerUpdates.
Context {F : Type} `{!FecController F}.
Implicit Type st : VideoSendStreamImpl F.

(** X19.  UpdateActiveSimulcastLayers compares the activity before and after
    the new flags.  When the stream was not started and some layer is
    active it makes the calls Start() makes and installs the same task; when
    it was started and no layer is active it makes the calls Stop() makes
    and drops the task; when the activity does not change it makes no call
    and leaves the task alone. *)
Theorem UpdateActiveSimulcastLayers_transitions st
    (active_layers : list bool) :
  (PayloadRouter.IsActive (payload_router_ st) = false ->
   existsb id active_layers = true ->
   exists st',
     UpdateActiveSimulcastLayers st active_layers = Some st'
     /\ calls_ st' = calls_ (Start st)
     /\ check_encoder_activity_task_ st'
        = check_encoder_activity_task_ (Start st)
     /\ PayloadRouter.IsActive (payload_router_ st') = true)
  /\ (PayloadRouter.IsActive (payload_router_ st) = true ->
      existsb id active_layers = false ->
      forall stopped, Stop st = Some stopped ->
      exists st',
        UpdateActiveSimulcastLayers st active_layers = Some st'
        /\ calls_ st' = calls_ stopped
        /\ check_encoder_activity_task_ st' = None
        /\ PayloadRouter.IsActive (payload_router_ st') = false)
  /\ (existsb id active_layers
      = PayloadRouter.IsActive (payload_router_ st) ->
      exists st',
        UpdateActiveSimulcastLayers st active_layers = Some st'
        /\ calls_ st' = calls_ st
        /\ check_encoder_activity_task_ st' = check_encoder_activity_task_ st
        /\ PayloadRouter.IsActive (payload_router_ st')
           = PayloadRouter.IsActive (payload_router_ st)).
Proof.
  unfold UpdateActiveSimulcastLayers, Start, Stop, StopVideoSendStream,
    PayloadRouter_SetActiveModules, PayloadRouter.IsActive.
  cbn -[existsb].
  split; [|split].
  - intros Ha Hany. rewrite Ha, Hany. cbn. eexists. repeat split.
  - intros Ha Hany stopped. rewrite Ha, Hany. cbn.
    destruct (check_encoder_activity_task_ st) as [task|]; [|discriminate].
    cbn. intros [= <-]. eexists. repeat split.
  - intros Hsame. rewrite Hsame.
    destruct (PayloadRouter.active_ (payload_router_ st)) eqn:Ha; cbn;
      eexists; repeat split.
Qed.

End LayerUpdates.

(* --------------------------------------------------------------------- *)
(*  Persisted RTP states                                                 *)
(* --------------------------------------------------------------------- *)

Section RtpStateMaps.
Variable RtpState : Type.
Variable kRtxRetransmitted kRtxRedundantPayloads : Z.

(* The loop that stores the states is defined when there are enough
   modules. *)
Lemma store_states_defined (ssrcs : list Z) : forall (states : list RtpState)
    (rtp_states : gmap Z RtpState),
  is_Some (store_states RtpState ssrcs states rtp_states)
  <-> (length ssrcs <= length states)%nat.
Proof.
  induction ssrcs as [|k ssrcs IH]; intros [|s states] m0; cbn.
  - split; [lia | eauto].
  - split; [lia | eauto].
  - split; [intros [? ?]; discriminate | lia].
  - rewrite IH. lia.
Qed.

(* The keys it adds. *)
Lemma store_states_dom (ssrcs : list Z) : forall (states : list RtpState)
    (rtp_states m : gmap Z RtpState),
  store_states RtpState ssrcs states rtp_states = Some m ->
  dom m = list_to_set ssrcs ∪ dom rtp_states.
Proof.
  induction ssrcs as [|k ssrcs IH]; intros [|s states] m0 m Hm; cbn in Hm;
    try discriminate.
  - injection Hm as <-. set_solver.
  - injection Hm as <-. set_solver.
  - apply IH in Hm. rewrite Hm, dom_insert_L. set_solver.
Qed.

(* With distinct SSRCs every state is found under its SSRC, and other keys
   keep what they had. *)
Lemma store_states_lookup (ssrcs : list Z) : forall (states : list RtpState)
    (rtp_states m : gmap Z RtpState),
  NoDup ssrcs ->
  store_states RtpState ssrcs states rtp_states = Some m ->
  (forall (i : nat) k s,
     ssrcs !! i = Some k -> states !! i = Some s -> m !! k = Some s)
  /\ (forall k, k ∉ ssrcs -> m !! k = rtp_states !! k).
Proof.
  induction ssrcs as [|k ssrcs IH]; intros [|s states] m0 m Hnodup Hm;
    cbn in Hm; try discriminate.
  - injection Hm as <-. split; [intros i k s Hk; discriminate | reflexivity].
  - injection Hm as <-. split; [intros i k s' Hk; discriminate | reflexivity].
  - apply NoDup_cons in Hnodup as [Hk Hnodup].
    destruct (IH states (<[k:=s]> m0) m Hnodup Hm) as [Hin Hout].
    split.
    + intros [|i] k' s' Hk' Hs'; cbn in Hk', Hs'.
      * injection Hk' as <-. injection Hs' as <-.
        rewrite (Hout k Hk). apply lookup_insert_eq.
      * apply (Hin i k' s' Hk' Hs').
    + intros k' Hk'. apply not_elem_of_cons in Hk' as [Hne Hk'].
      rewrite (Hout k' Hk'). apply lookup_insert_ne. congruence.
Qed.

(** X20.  GetRtpStates is defined exactly when there is a module for every
    media SSRC and for every RTX SSRC.  The map it returns has as keys the
    media SSRCs, the RTX SSRCs and, when there is a FlexFEC sender, the
    FlexFEC SSRC, and nothing else; the FlexFEC sender's state is stored
    last, so it is what the map holds under the FlexFEC SSRC even if a
    media or RTX stream uses the same SSRC. *)
Theorem GetRtpStates_keys (config : Config)
    (reported : list (RtpState * RtpState))
    (flexfec_state : option RtpState) :
  (is_Some (GetRtpStates RtpState config reported flexfec_state)
   <-> (length (rtp_ssrcs config) <= length reported)%nat
       /\ (length (rtp_rtx_ssrcs config) <= length reported)%nat)
  /\ forall rtp_states,
       GetRtpStates RtpState config reported flexfec_state = Some rtp_states ->
       dom rtp_states
       = list_to_set (rtp_ssrcs config) ∪ list_to_set (rtp_rtx_ssrcs config)
         ∪ (match flexfec_state with
            | Some _ => {[ rtp_flexfec_ssrc config ]}
            | None => ∅
            end)
       /\ (forall state, flexfec_state = Some state ->
             rtp_states !! rtp_flexfec_ssrc config = Some state).
Proof.
  unfold GetRtpStates. split.
  - destruct (store_states RtpState (rtp_ssrcs config) reported.*1 ∅)
      as [m1|] eqn:Hm1; cbn.
    + assert (Hlen1 : (length (rtp_ssrcs config) <= length reported)%nat).
      { rewrite <- (length_fmap fst). apply store_states_defined with (rtp_states := ∅).
        rewrite Hm1. eauto. }
      destruct (store_states RtpState (rtp_rtx_ssrcs config) reported.*2 m1)
        as [m2|] eqn:Hm2; cbn.
      * assert (Hlen2 : (length (rtp_rtx_ssrcs config) <= length reported)%nat).
        { rewrite <- (length_fmap snd).
          apply store_states_defined with (rtp_states := m1).
          rewrite Hm2. eauto. }
        split; [tauto|]. intros _. destruct flexfec_state; eauto.
      * split; [intros [? ?]; discriminate|]. intros [_ Hlen2]. exfalso.
        rewrite <- (length_fmap snd) in Hlen2.
        apply (store_states_defined _ _ m1) in Hlen2.
        rewrite Hm2 in Hlen2. destruct Hlen2. discriminate.
    + split; [intros [? ?]; discriminate|]. intros [Hlen1 _]. exfalso.
      rewrite <- (length_fmap fst) in Hlen1.
      apply (store_states_defined _ _ ∅) in Hlen1.
      rewrite Hm1 in Hlen1. destruct Hlen1. discriminate.
  - intros m Hm.
    destruct (store_states RtpState (rtp_ssrcs config) reported.*1 ∅)
      as [m1|] eqn:Hm1; [|discriminate]. cbn in Hm.
    destruct (store_states RtpState (rtp_rtx_ssrcs config) reported.*2 m1)
      as [m2|] eqn:Hm2; [|discriminate]. cbn in Hm.
    apply store_states_dom in Hm1. apply store_states_dom in Hm2.
    rewrite dom_empty_L in Hm1.
    destruct flexfec_state as [state|]; injection Hm as <-.
    + split.
      * rewrite dom_insert_L, Hm2, Hm1. set_solver.
      * intros s [= <-]. apply lookup_insert_eq.
    + split; [|intros s Hs; discriminate].
      rewrite Hm2, Hm1. set_solver.
Qed.

(* What the loop over the SSRCs does to each module. *)
Lemma for_each_ssrc_lookup (f : Z -> SsrcModule RtpState -> SsrcModule RtpState)
    (ssrcs : list Z) : forall modules result,
  for_each_ssrc RtpState f ssrcs modules = Some result ->
  length result = length modules
  /\ (length ssrcs <= length modules)%nat
  /\ forall (i : nat) m,
       modules !! i = Some m ->
       result !! i = Some (match ssrcs !! i with
                           | Some ssrc => f ssrc m
                           | None => m
                           end).
Proof.
  induction ssrcs as [|k ssrcs IH]; intros [|m0 modules] result Hres;
    cbn in Hres; try discriminate.
  - injection Hres as <-. repeat split; [cbn; lia|]. intros i m Hm. discriminate.
  - injection Hres as <-. repeat split; [cbn; lia|]. intros i m Hm. exact Hm.
  - destruct (for_each_ssrc RtpState f ssrcs modules) as [rest|] eqn:Hrest;
      [|discriminate].
    cbn in Hres. injection Hres as <-.
    destruct (IH modules rest Hrest) as (Hlen & Hle & Hlookup).
    cbn. repeat split; [lia | lia |].
    intros [|i] m Hm; cbn in *.
    + injection Hm as <-. reflexivity.
    + apply Hlookup. exact Hm.
Qed.

Lemma for_each_ssrc_defined (f : Z -> SsrcModule RtpState -> SsrcModule RtpState)
    (ssrcs : list Z) : forall modules,
  (length ssrcs <= length modules)%nat ->
  is_Some (for_each_ssrc RtpState f ssrcs modules).
Proof.
  induction ssrcs as [|k ssrcs IH]; intros [|m0 modules] Hlen; cbn in *;
    eauto; [lia|].
  destruct (IH modules) as [rest ->]; [lia|]. cbn. eauto.
Qed.

(** X21.  ConfigureSsrcs is defined exactly when there is a module for every
    media SSRC and, if RTX SSRCs are given, for every RTX SSRC; it keeps the
    number of modules.  With no RTX SSRCs it sets the SSRC of each module,
    restores the state of those SSRCs that have a suspended state, and
    touches no RTX setting of any module. *)
Theorem ConfigureSsrcs_without_rtx (config : Config)
    (rtx_payload_type red_rtx_payload_type : Z)
    (suspended_ssrcs : gmap Z RtpState)
    (modules : list (SsrcModule RtpState)) :
  let configured :=
    ConfigureSsrcs RtpState kRtxRetransmitted kRtxRedundantPayloads config
      rtx_payload_type red_rtx_payload_type suspended_ssrcs modules in
  (is_Some configured
   <-> (length (rtp_ssrcs config) <= length modules)%nat
       /\ (length (rtp_rtx_ssrcs config) <= length modules)%nat)
  /\ (forall result, configured = Some result ->
        length result = length modules)
  /\ (rtp_rtx_ssrcs config = [] ->
      forall result (i : nat) ssrc m m',
        configured = Some result ->
        rtp_ssrcs config !! i = Some ssrc ->
        modules !! i = Some m -> result !! i = Some m' ->
        module_ssrc RtpState m' = Some ssrc
        /\ module_rtp_state RtpState m'
           = match suspended_ssrcs !! ssrc with
             | Some state => Some state
             | None => module_rtp_state RtpState m
             end
        /\ module_rtx_ssrc RtpState m' = module_rtx_ssrc RtpState m
        /\ module_rtx_state RtpState m' = module_rtx_state RtpState m
        /\ module_rtx_payload_types RtpState m'
           = module_rtx_payload_types RtpState m
        /\ module_rtx_send_status RtpState m'
           = module_rtx_send_status RtpState m).
Proof.
  intros configured. subst configured. unfold ConfigureSsrcs.
  split; [|split].
  - destruct (for_each_ssrc RtpState (configure_ssrc RtpState suspended_ssrcs)
                (rtp_ssrcs config) modules) as [ms1|] eqn:H1; cbn.
    + destruct (for_each_ssrc_lookup _ _ _ _ H1) as (Hlen1 & Hle1 & _).
      case_bool_decide as Hrtx.
      * rewrite Hrtx. cbn. split; [intros _; split; lia | eauto].
      * destruct (for_each_ssrc RtpState
                    (configure_rtx_ssrc RtpState suspended_ssrcs)
                    (rtp_rtx_ssrcs config) ms1) as [ms2|] eqn:H2; cbn.
        -- destruct (for_each_ssrc_lookup _ _ _ _ H2) as (_ & Hle2 & _).
           split; [intros _; split; lia|]. intros _.
           destruct (_ && _); eauto.
        -- split; [intros [? ?]; discriminate|]. intros [_ Hle2]. exfalso.
           rewrite <- Hlen1 in Hle2.
           apply (for_each_ssrc_defined
                    (configure_rtx_ssrc RtpState suspended_ssrcs)) in Hle2.
           rewrite H2 in Hle2. destruct Hle2. discriminate.
    + split; [intros [? ?]; discriminate|]. intros [Hle1 _]. exfalso.
      apply (for_each_ssrc_defined
               (configure_ssrc RtpState suspended_ssrcs)) in Hle1.
      rewrite H1 in Hle1. destruct Hle1. discriminate.
  - intros result.
    destruct (for_each_ssrc RtpState (configure_ssrc RtpState suspended_ssrcs)
                (rtp_ssrcs config) modules) as [ms1|] eqn:H1; [|discriminate].
    cbn. destruct (for_each_ssrc_lookup _ _ _ _ H1) as (Hlen1 & _ & _).
    case_bool_decide; [intros [= <-]; exact Hlen1|].
    destruct (for_each_ssrc RtpState
                (configure_rtx_ssrc RtpState suspended_ssrcs)
                (rtp_rtx_ssrcs config) ms1) as [ms2|] eqn:H2; [|discriminate].
    cbn. destruct (for_each_ssrc_lookup _ _ _ _ H2) as (Hlen2 & _ & _).
    destruct (_ && _); intros [= <-]; rewrite ?length_map; lia.
  - intros Hrtx result i ssrc m m'.
    destruct (for_each_ssrc RtpState (configure_ssrc RtpState suspended_ssrcs)
                (rtp_ssrcs config) modules) as [ms1|] eqn:H1; [|discriminate].
    cbn. rewrite bool_decide_true by exact Hrtx.
    intros [= <-] Hssrc Hm Hm'.
    destruct (for_each_ssrc_lookup _ _ _ _ H1) as (_ & _ & Hlookup).
    rewrite (Hlookup i m Hm), Hssrc in Hm'. injection Hm' as <-.
    cbn. repeat split.
Qed.

(** X22.  Export and restore.  Let the media and RTX SSRCs be pairwise
    distinct and different from the SSRC of the FlexFEC sender, if there is
    one, and let there be one reported pair of states per media SSRC and
    per module, and as many RTX SSRCs as media SSRCs or none.  Then
    ConfigureSsrcs, given the map that GetRtpStates returned, hands every
    module exactly the RTP state reported for its SSRC and, when RTX is
    configured, the RTX state reported for its RTX SSRC. *)
Theorem GetRtpStates_ConfigureSsrcs (config : Config)
    (rtx_payload_type red_rtx_payload_type : Z)
    (reported : list (RtpState * RtpState))
    (flexfec_state : option RtpState)
    (modules : list (SsrcModule RtpState)) rtp_states configured :
  NoDup (rtp_ssrcs config ++ rtp_rtx_ssrcs config) ->
  (is_Some flexfec_state ->
   rtp_flexfec_ssrc config ∉ rtp_ssrcs config ++ rtp_rtx_ssrcs config) ->
  length reported = length (rtp_ssrcs config) ->
  length modules = length (rtp_ssrcs config) ->
  (rtp_rtx_ssrcs config = []
   \/ length (rtp_rtx_ssrcs config) = length (rtp_ssrcs config)) ->
  GetRtpStates RtpState config reported flexfec_state = Some rtp_states ->
  ConfigureSsrcs RtpState kRtxRetransmitted kRtxRedundantPayloads config
    rtx_payload_type red_rtx_payload_type rtp_states modules
    = Some configured ->
  forall (i : nat) ssrc states m',
    rtp_ssrcs config !! i = Some ssrc ->
    reported !! i = Some states ->
    configured !! i = Some m' ->
    module_ssrc RtpState m' = Some ssrc
    /\ module_rtp_state RtpState m' = Some states.1
    /\ forall rtx_ssrc,
         rtp_rtx_ssrcs config !! i = Some rtx_ssrc ->
         module_rtx_ssrc RtpState m' = Some rtx_ssrc
         /\ module_rtx_state RtpState m' = Some states.2.
Proof.
  intros Hnodup Hflexfec Hreported Hmodules Hrtxlen Hget Hconf
    i ssrc states m' Hssrc Hstates Hm'.
  apply NoDup_app in Hnodup as (Hnd1 & Hdisj & Hnd2).
  (* what the exported map holds *)
  unfold GetRtpStates in Hget.
  destruct (store_states RtpState (rtp_ssrcs config) reported.*1 ∅)
    as [m1|] eqn:Hm1; [|discriminate]. cbn in Hget.
  destruct (store_states RtpState (rtp_rtx_ssrcs config) reported.*2 m1)
    as [m2|] eqn:Hm2; [|discriminate]. cbn in Hget.
  destruct (store_states_lookup _ _ _ _ Hnd1 Hm1) as [Hin1 _].
  destruct (store_states_lookup _ _ _ _ Hnd2 Hm2) as [Hin2 Hout2].
  assert (Hfinal : forall k, k ∈ rtp_ssrcs config ++ rtp_rtx_ssrcs config ->
            rtp_states !! k = m2 !! k).
  { intros k Hk. destruct flexfec_state as [fs|]; injection Hget as <-;
      [|reflexivity].
    apply lookup_insert_ne. intros <-. apply Hflexfec; eauto. }
  assert (Hmedia : rtp_states !! ssrc = Some states.1).
  { assert (Hmem : ssrc ∈ rtp_ssrcs config)
      by (apply list_elem_of_lookup; eauto).
    rewrite Hfinal by (apply elem_of_app; left; exact Hmem).
    rewrite Hout2 by (apply Hdisj; exact Hmem).
    apply (Hin1 i); [exact Hssrc|].
    rewrite list_lookup_fmap, Hstates. reflexivity. }
  assert (Hrtx : forall rtx_ssrc, rtp_rtx_ssrcs config !! i = Some rtx_ssrc ->
            rtp_states !! rtx_ssrc = Some states.2).
  { intros rtx_ssrc Hr.
    assert (Hmem : rtx_ssrc ∈ rtp_rtx_ssrcs config)
      by (apply list_elem_of_lookup; eauto).
    rewrite Hfinal by (apply elem_of_app; right; exact Hmem).
    apply (Hin2 i); [exact Hr|].
    rewrite list_lookup_fmap, Hstates. reflexivity. }
  (* what ConfigureSsrcs does with it *)
  unfold ConfigureSsrcs in Hconf.
  destruct (for_each_ssrc RtpState (configure_ssrc RtpState rtp_states)
              (rtp_ssrcs config) modules) as [ms1|] eqn:H1; [|discriminate].
  cbn in Hconf.
  destruct (for_each_ssrc_lookup _ _ _ _ H1) as (Hlen1 & _ & Hlookup1).
  assert (Hmod : is_Some (modules !! i)).
  { apply lookup_lt_is_Some. rewrite Hmodules.
    apply lookup_lt_Some in Hssrc. exact Hssrc. }
  destruct Hmod as [m Hm].
  pose proof (Hlookup1 i m Hm) as Hms1. rewrite Hssrc in Hms1.
  case_bool_decide as Hnortx.
  - injection Hconf as <-. rewrite Hms1 in Hm'. injection Hm' as <-.
    cbn. rewrite Hmedia. split; [reflexivity|]. split; [reflexivity|].
    intros r' Hr'. rewrite Hnortx in Hr'. discriminate.
  - destruct (for_each_ssrc RtpState (configure_rtx_ssrc RtpState rtp_states)
                (rtp_rtx_ssrcs config) ms1) as [ms2|] eqn:H2; [|discriminate].
    cbn in Hconf.
    destruct (for_each_ssrc_lookup _ _ _ _ H2) as (_ & _ & Hlookup2).
    pose proof (Hlookup2 i _ Hms1) as Hms2.
    assert (Hsome : exists rtx_ssrc, rtp_rtx_ssrcs config !! i = Some rtx_ssrc).
    { destruct Hrtxlen as [?|Hlen]; [contradiction|].
      apply lookup_lt_is_Some. rewrite Hlen.
      apply lookup_lt_Some in Hssrc. exact Hssrc. }
    destruct Hsome as [rtx_ssrc Hr]. rewrite Hr in Hms2.
    assert (Hdone : module_ssrc RtpState m' = Some ssrc
                    /\ module_rtp_state RtpState m' = Some states.1
                    /\ module_rtx_ssrc RtpState m' = Some rtx_ssrc
                    /\ module_rtx_state RtpState m' = Some states.2).
    { destruct (_ && _); injection Hconf as <-;
        rewrite ?list_lookup_fmap, Hms2 in Hm'; cbn in Hm';
        injection Hm' as <-; cbn;
        rewrite Hmedia, (Hrtx rtx_ssrc Hr); repeat split. }
    destruct Hdone as (Hd1 & Hd2 & Hd3 & Hd4).
    split; [exact Hd1|]. split; [exact Hd2|].
    intros r' Hr'. rewrite Hr in Hr'. injection Hr' as <-.
    split; [exact Hd3 | exact Hd4].
Qed.

End RtpStateMaps.

(* --------------------------------------------------------------------- *)
(*  Sent bitrates                                                        *)
(* --------------------------------------------------------------------- *)

(* Wrapping at every addition is wrapping once at the end. *)
Lemma ProtectionRequest_fold (sent : list (Z * Z * Z)) : forall video nack fec,
  foldl (fun '(video, nack, fec) '(module_video, module_fec, module_nack) =>
           (to_uint32 (video + module_video),
            to_uint32 (nack + module_nack),
            to_uint32 (fec + module_fec)))
        (to_uint32 video, to_uint32 nack, to_uint32 fec) sent
  = (to_uint32 (video + foldr (fun '(v, _, _) acc => v + acc) 0 sent),
     to_uint32 (nack + foldr (fun '(_, _, n) acc => n + acc) 0 sent),
     to_uint32 (fec + foldr (fun '(_, f, _) acc => f + acc) 0 sent)).
Proof.
  induction sent as [|[[v f] n] sent IH]; intros video nack fec.
  - cbn. rewrite !Z.add_0_r. reflexivity.
  - cbn [foldl foldr].
    replace (to_uint32 (to_uint32 video + v)) with (to_uint32 (video + v))
      by (unfold to_uint32; rewrite Zplus_mod_idemp_l; reflexivity).
    replace (to_uint32 (to_uint32 nack + n)) with (to_uint32 (nack + n))
      by (unfold to_uint32; rewrite Zplus_mod_idemp_l; reflexivity).
    replace (to_uint32 (to_uint32 fec + f)) with (to_uint32 (fec + f))
      by (unfold to_uint32; rewrite Zplus_mod_idemp_l; reflexivity).
    rewrite IH. cbn. rewrite !Z.add_assoc. reflexivity.
Qed.

(** X23.  ProtectionRequest returns 0 and reports, for video, NACK and FEC,
    the sum over all modules of the rate each module reports, reduced
    modulo 2^32; with no module all three are 0, and the order of the
    modules does not matter. *)
Theorem ProtectionRequest_totals (sent : list (Z * Z * Z)) :
  ProtectionRequest sent
  = (0,
     (to_uint32 (foldr (fun '(v, _, _) acc => v + acc) 0 sent),
      to_uint32 (foldr (fun '(_, _, n) acc => n + acc) 0 sent),
      to_uint32 (foldr (fun '(_, f, _) acc => f + acc) 0 sent)))
  /\ ProtectionRequest [] = (0, (0, 0, 0))
  /\ forall sent', sent ≡ₚ sent' ->
       ProtectionRequest sent = ProtectionRequest sent'.
Proof.
  assert (Htotals : forall l,
            ProtectionRequest l
            = (0,
               (to_uint32 (foldr (fun '(v, _, _) acc => v + acc) 0 l),
                to_uint32 (foldr (fun '(_, _, n) acc => n + acc) 0 l),
                to_uint32 (foldr (fun '(_, f, _) acc => f + acc) 0 l)))).
  { intros l. unfold ProtectionRequest. f_equal.
    exact (ProtectionRequest_fold l 0 0 0). }
  split; [apply Htotals|]. split; [reflexivity|].
  intros sent' Hperm. rewrite !Htotals.
  assert (Hsums :
    foldr (fun '(v, _, _) acc => v + acc) 0 sent
    = foldr (fun '(v, _, _) acc => v + acc) 0 sent'
    /\ foldr (fun '(_, _, n) acc => n + acc) 0 sent
       = foldr (fun '(_, _, n) acc => n + acc) 0 sent'
    /\ foldr (fun '(_, f, _) acc => f + acc) 0 sent
       = foldr (fun '(_, f, _) acc => f + acc) 0 sent').
  { induction Hperm as [|[[v f] n] l l' _ IH|[[v f] n] [[v' f'] n'] l
                       |l l' l'' _ IH1 _ IH2]; cbn.
    - repeat split.
    - destruct IH as (-> & -> & ->). repeat split.
    - repeat split; lia.
    - destruct IH1 as (-> & -> & ->). exact IH2. }
  destruct Hsums as (-> & -> & ->). reflexivity.
Qed.

(* --------------------------------------------------------------------- *)
(*  The further theorems at concrete inputs                              *)
(* --------------------------------------------------------------------- *)

(* 1 Mbit/s in packets of 1200 bytes. *)
Lemma CalculatePacketRate_ceiling_witness :
  exists rate,
    CalculatePacketRate 1000000 1200 = Some rate
    /\ 0 <= rate < 2 ^ 31
    /\ 8 * 1200 * (rate - 1) < 1000000 <= 8 * 1200 * rate.
Proof.
  apply (CalculatePacketRate_ceiling 1000000 1200); [unfold is_uint32|]; lia.
Defined.

(* 105 packets per second with 40 bytes of overhead each. *)
Lemma CalculateOverheadRateBps_capped_witness :
  CalculateOverheadRateBps 105 40 1000000 = 33600.
Proof.
  destruct (CalculateOverheadRateBps_capped 105 40 1000000) as [_ Hmin];
    [lia | lia | lia |].
  rewrite Hmin by lia. reflexivity.
Defined.

(* Overhead accounting on, 40 bytes of RTP overhead per packet. *)
Lemma OnBitrateUpdated_no_underflow_witness :
  exists b st',
    OnBitrateUpdated_run
      (OnOverheadChanged
         (started_stream (only_field_trial "WebRTC-SendSideBwe-WithOverhead")
            scenario_config 2000000 800000) 40)
      1000000 0 50 1000 = Some (b, st')
    /\ 0 <= payload_bitrate_bps b <= 1000000.
Proof.
  destruct (OnBitrateUpdated_no_underflow
              (OnOverheadChanged
                 (started_stream
                    (only_field_trial "WebRTC-SendSideBwe-WithOverhead")
                    scenario_config 2000000 800000) 40)
              1000000 0 50 1000)
    as (b & st' & Hrun & Hpayload & _).
  - reflexivity.
  - unfold is_uint32. lia.
  - intros _. vm_compute. repeat split; first [reflexivity | discriminate].
  - exists b, st'. split; [exact Hrun | exact Hpayload].
Defined.

(* A bitrate update after a feedback vector that reported one packet. *)
Lemma OnBitrateUpdated_consumes_loss_mask_witness :
  loss_mask_vector_
    (OnPacketFeedbackVector kNotReceived_value true (tracked [7]) [arrived 7])
  = [false]
  /\ exists b st',
       OnBitrateUpdated_run
         (OnPacketFeedbackVector kNotReceived_value true (tracked [7])
            [arrived 7])
         1000000 0 50 1000 = Some (b, st')
       /\ loss_mask_vector_ st' = [].
Proof.
  split; [vm_compute; reflexivity|].
  destruct (OnBitrateUpdated_run
              (OnPacketFeedbackVector kNotReceived_value true (tracked [7])
                 [arrived 7])
              1000000 0 50 1000) as [[b st']|] eqn:Hrun;
    [|vm_compute in Hrun; discriminate].
  exists b, st'. split; [reflexivity|].
  exact (proj1 (OnBitrateUpdated_consumes_loss_mask _ _ _ _ _ _ _ Hrun)).
Defined.

(* The consistent FlexFEC configuration yields its sender. *)
Lemma MaybeCreateFlexfecSender_created_witness :
  (MaybeCreateFlexfecSender flexfec_config).1
  = Some {| flexfec_payload_type := 110; flexfec_ssrc := 5005;
            flexfec_protected_media_ssrc := 1001 |}.
Proof.
  apply (proj1 (MaybeCreateFlexfecSender_created flexfec_config)).
  vm_compute. repeat split; first [reflexivity | discriminate].
Defined.

(* The module of SSRC 1001 under the FlexFEC configuration. *)
Lemma VideoSendStreamImpl_new_modules_witness :
  exists m,
    rtp_rtcp_modules_
      (fresh_stream no_field_trials flexfec_config 2000000 800000) !! 0%nat
    = Some m
    /\ module_flexfec m = true
    /\ module_store_packets m = Some (true, 600)
    /\ module_max_rtp_packet_size m = Some 1200.
Proof.
  destruct (VideoSendStreamImpl_new_modules no_field_trials
              PayloadStringToCodecType_names flexfec_config 2000000
              (fixed_fec 800000) 30) as [_ Hmodules].
  destruct (rtp_rtcp_modules_
              (fresh_stream no_field_trials flexfec_config 2000000 800000)
              !! 0%nat) as [m|] eqn:Hm; [|vm_compute in Hm; discriminate].
  exists m. split; [reflexivity|].
  destruct (Hmodules 0%nat 1001 m eq_refl Hm) as (Hflex & Hstore & _ & Hsize).
  split; [|split; [exact Hstore | exact Hsize]].
  apply Hflex.
  exists {| flexfec_payload_type := 110; flexfec_ssrc := 5005;
            flexfec_protected_media_ssrc := 1001 |}.
  split; vm_compute; reflexivity.
Defined.

(* VP8 with NACK keeps ULPFEC, and RED with it. *)
Lemma ConfigureProtection_ulpfec_needs_red_witness :
  IsRedEnabled
    (ConfigureProtection_locals no_field_trials PayloadStringToCodecType_names
       (fresh_stream no_field_trials scenario_config 2000000 800000))
  = true.
Proof.
  apply (ConfigureProtection_ulpfec_needs_red no_field_trials
           PayloadStringToCodecType_names
           (fresh_stream no_field_trials scenario_config 2000000 800000)).
  vm_compute. reflexivity.
Defined.

(* The session on a freshly constructed stream. *)
Lemma apply_operations_invariant_witness :
  exists st',
    apply_operations kNotReceived_value
      (fresh_stream no_field_trials scenario_config 2000000 800000) session
    = Some st'
    /\ stream_invariant st'.
Proof.
  destruct (apply_operations kNotReceived_value
              (fresh_stream no_field_trials scenario_config 2000000 800000)
              session) as [st'|] eqn:Hrun;
    [|vm_compute in Hrun; discriminate].
  exists st'. split; [reflexivity|].
  apply (apply_operations_invariant kNotReceived_value session _ st'
           (VideoSendStreamImpl_new_invariant _ _ _ _ _ _) Hrun).
Defined.

(* Stop() after a start, a packet, a stall and a recovery. *)
Lemma Stop_finds_task_witness :
  exists st' stopped,
    apply_operations kNotReceived_value
      (fresh_stream no_field_trials scenario_config 2000000 800000)
      [Op_Start; Op_PacketAdded true 1001 7; Op_Tick; Op_EncodedImage;
       Op_Tick]
    = Some st'
    /\ PayloadRouter.IsActive (payload_router_ st') = true
    /\ Stop st' = Some stopped
    /\ check_encoder_activity_task_ stopped = None
    /\ allocator_has_observer (calls_ stopped) = false.
Proof.
  destruct (apply_operations kNotReceived_value
              (fresh_stream no_field_trials scenario_config 2000000 800000)
              [Op_Start; Op_PacketAdded true 1001 7; Op_Tick; Op_EncodedImage;
               Op_Tick]) as [st'|] eqn:Hrun;
    [|vm_compute in Hrun; discriminate].
  destruct (Stop_finds_task kNotReceived_value _ _ st'
              (VideoSendStreamImpl_new_invariant _ _ _ _ _ _) Hrun)
    as (_ & stopped & Hstop & _ & Htask & Hobserver).
  exists st', stopped. split; [reflexivity|].
  split; [vm_compute in Hrun; injection Hrun as <-; reflexivity|].
  split; [exact Hstop|]. split; [exact Htask | exact Hobserver].
Defined.

(* Start and Stop on a freshly constructed stream. *)
Lemma Start_then_Stop_witness :
  exists st',
    Stop (Start (fresh_stream no_field_trials scenario_config 2000000 800000))
    = Some st'
    /\ check_encoder_activity_task_ st' = None
    /\ allocator_has_observer (calls_ st') = false.
Proof.
  destruct (Start_then_Stop
              (fresh_stream no_field_trials scenario_config 2000000 800000))
    as (st' & Hstop & _ & _ & _ & Htask & Hobserver & _);
    [reflexivity|].
  exists st'. split; [exact Hstop|]. split; [exact Htask | exact Hobserver].
Defined.

(* A stall and a recovery while the encoder has a target rate. *)
Lemma stall_and_recovery_witness :
  allocator_has_observer
    (calls_ (CheckEncoderActivityTask_tick encoding_stream)) = false
  /\ allocator_has_observer
       (calls_ (CheckEncoderActivityTask_tick
                  (OnEncodedImage_activity
                     (CheckEncoderActivityTask_tick encoding_stream))))
     = true.
Proof.
  destruct (stall_and_recovery encoding_stream CheckEncoderActivityTask_new)
    as (_ & Hremoved & _ & Hadded & _);
    [reflexivity | reflexivity | reflexivity | reflexivity |].
  split; [apply Hremoved; vm_compute; reflexivity | exact Hadded].
Defined.

(* 48 bytes of transport overhead accepted, 1500 rejected. *)
Lemma SetTransportOverhead_fits_mtu_witness :
  transport_overhead_bytes_per_packet_
    (SetTransportOverhead
       (SetTransportOverhead
          (fresh_stream no_field_trials scenario_config 2000000 800000) 48)
       1500)
  = 48.
Proof.
  destruct (SetTransportOverhead_fits_mtu
              (fresh_stream no_field_trials scenario_config 2000000 800000)
              48 1500) as (_ & Hkept & _);
    [unfold kPathMTU; lia | unfold kPathMTU; lia |].
  exact Hkept.
Defined.

(* Two idle ticks, a frame, a tick, and two more idle ticks. *)
Lemma run_events_alternate_witness :
  (run_events [Tick; Tick; Ping; Tick; Tick; Tick]
     CheckEncoderActivityTask_new).1
  = [EncoderTimedOut; EncoderActive; EncoderTimedOut]
  /\ timed_out_
       (run_events [Tick; Tick; Ping; Tick; Tick; Tick]
          CheckEncoderActivityTask_new).2
     = true.
Proof.
  split; [vm_compute; reflexivity|].
  destruct (run_events_alternate [Tick; Tick; Ping; Tick; Tick; Tick]
              CheckEncoderActivityTask_new) as (_ & _ & Hlast & _);
    [reflexivity|].
  rewrite Hlast. vm_compute. reflexivity.
Defined.

(* A vector that reports packets which were never tracked. *)
Lemma OnPacketFeedbackVector_only_shrinks_witness :
  OnPacketFeedbackVector kNotReceived_value true (tracked [7; 8])
    [arrived 20; lost 21]
  = tracked [7; 8].
Proof.
  apply (OnPacketFeedbackVector_only_shrinks kNotReceived_value
           (tracked [7; 8]) [arrived 20; lost 21]).
  intros packet Hin.
  apply elem_of_cons in Hin as [->|Hin];
    [|apply list_elem_of_singleton in Hin as ->];
    apply (bool_decide_unpack _); vm_compute; exact I.
Defined.

(* Two layers: the minimum of the higher plus the target of the lower. *)
Lemma CalculateMaxPadBitrateBps_cases_witness :
  CalculateMaxPadBitrateBps [low_layer; high_layer] 100000 false
  = Some 300000.
Proof.
  destruct (CalculateMaxPadBitrateBps_cases [low_layer; high_layer] 100000
              false) as (_ & _ & _ & _ & Hlayers).
  rewrite (Hlayers [low_layer] high_layer);
    [ reflexivity | reflexivity | discriminate | cbn; lia
    | repeat constructor; cbn; lia | cbn; lia ].
Defined.

(* The forced-fallback field trial with a minimum of 100000 bps. *)
Lemma GetEncoderMinBitrateBps_positive_witness :
  GetEncoderMinBitrateBps (only_field_trial kForcedFallbackFieldTrial)
    fallback_field_trial_group sscanf_Enabled_example
  = 100000.
Proof.
  destruct (GetEncoderMinBitrateBps_positive
              (only_field_trial kForcedFallbackFieldTrial)
              fallback_field_trial_group sscanf_Enabled_example)
    as (_ & _ & _ & _ & Hgroup).
  rewrite Hgroup;
    [ vm_compute; reflexivity | vm_compute; reflexivity
    | vm_compute; discriminate | vm_compute; reflexivity ].
Defined.

(* Two layers configured on a started stream. *)
Lemma OnEncoderConfigurationChanged_bounds_witness :
  exists st' inactive_ssrcs,
    OnEncoderConfigurationChanged no_field_trials fallback_field_trial_group
      sscanf_Enabled_example FixedFec_SetEncodingData true
      (started_stream no_field_trials scenario_config 2000000 800000)
      [low_layer; high_layer] 100000
    = Ran (Some (st', inactive_ssrcs))
    /\ 0 < encoder_min_bitrate_bps_ st'
    /\ to_uint32 (encoder_min_bitrate_bps_ st') <= encoder_max_bitrate_bps_ st'
    /\ 100000 <= max_padding_bitrate_ st'.
Proof.
  destruct (OnEncoderConfigurationChanged_bounds no_field_trials
              fallback_field_trial_group sscanf_Enabled_example
              FixedFec_SetEncodingData
              (started_stream no_field_trials scenario_config 2000000 800000)
              [low_layer; high_layer] 100000) as (_ & _ & Hran).
  destruct (OnEncoderConfigurationChanged no_field_trials
              fallback_field_trial_group sscanf_Enabled_example
              FixedFec_SetEncodingData true
              (started_stream no_field_trials scenario_config 2000000 800000)
              [low_layer; high_layer] 100000)
    as [|[[st' inactive_ssrcs]|]] eqn:Hrun;
    [ vm_compute in Hrun; discriminate | | vm_compute in Hrun; discriminate ].
  exists st', inactive_ssrcs. split; [reflexivity|].
  destruct (Hran st' inactive_ssrcs eq_refl)
    as (Hmin & _ & _ & Hmax & _ & Hpad & _).
  split; [exact Hmin|]. split; [exact Hmax | exact Hpad].
Defined.

(* The only layer of a stream that is not started switched on. *)
Lemma UpdateActiveSimulcastLayers_transitions_witness :
  exists st',
    UpdateActiveSimulcastLayers
      (fresh_stream no_field_trials scenario_config 2000000 800000) [true]
    = Some st'
    /\ check_encoder_activity_task_ st' = Some CheckEncoderActivityTask_new
    /\ PayloadRouter.IsActive (payload_router_ st') = true.
Proof.
  destruct (UpdateActiveSimulcastLayers_transitions
              (fresh_stream no_field_trials scenario_config 2000000 800000)
              [true]) as [Hon _].
  destruct Hon as (st' & Hrun & _ & Htask & Hactive);
    [reflexivity | reflexivity |].
  exists st'. split; [exact Hrun|]. split; [|exact Hactive].
  rewrite Htask. reflexivity.
Defined.

(* Two modules with RTX and a FlexFEC sender: five SSRCs. *)
Lemma GetRtpStates_keys_witness :
  exists rtp_states,
    GetRtpStates Z rtx_config [(11, 21); (12, 22)] (Some 31) = Some rtp_states
    /\ dom rtp_states = {[ 1001; 1002; 2001; 2002; 5005 ]}
    /\ rtp_states !! 5005 = Some 31.
Proof.
  destruct (GetRtpStates_keys Z rtx_config [(11, 21); (12, 22)] (Some 31))
    as [Hdefined Hkeys].
  destruct (proj2 Hdefined) as [rtp_states Hget]; [cbn; lia|].
  exists rtp_states. split; [exact Hget|].
  destruct (Hkeys rtp_states Hget) as [Hdom Hflexfec].
  split; [|apply Hflexfec; reflexivity].
  rewrite Hdom. cbn. set_solver.
Defined.

(* One module, no RTX, a suspended state for the media SSRC. *)
Lemma ConfigureSsrcs_without_rtx_witness :
  exists result m',
    ConfigureSsrcs Z 1 2 scenario_config 97 98 {[ 1001 := 11 ]}
      [unconfigured_module Z]
    = Some result
    /\ result !! 0%nat = Some m'
    /\ module_ssrc Z m' = Some 1001
    /\ module_rtp_state Z m' = Some 11
    /\ module_rtx_ssrc Z m' = None.
Proof.
  destruct (ConfigureSsrcs_without_rtx Z 1 2 scenario_config 97 98
              {[ 1001 := 11 ]} [unconfigured_module Z])
    as (Hdefined & Hlength & Hplain).
  destruct (proj2 Hdefined) as [result Hrun]; [cbn; lia|].
  specialize (Hlength result Hrun).
  destruct result as [|m' [|? ?]]; try discriminate.
  exists [m'], m'. split; [exact Hrun|]. split; [reflexivity|].
  destruct (Hplain eq_refl [m'] 0%nat 1001 (unconfigured_module Z) m' Hrun
              eq_refl eq_refl eq_refl) as (Hssrc & Hstate & Hrtx & _).
  split; [exact Hssrc|]. split; [|exact Hrtx].
  rewrite Hstate. vm_compute. reflexivity.
Defined.

(* Export from two modules with RTX and FlexFEC, restore into two fresh
   modules. *)
Lemma GetRtpStates_ConfigureSsrcs_witness :
  exists rtp_states configured m',
    GetRtpStates Z rtx_config [(11, 21); (12, 22)] (Some 31) = Some rtp_states
    /\ ConfigureSsrcs Z 1 2 rtx_config 97 98 rtp_states
         [unconfigured_module Z; unconfigured_module Z]
       = Some configured
    /\ configured !! 1%nat = Some m'
    /\ module_rtp_state Z m' = Some 12
    /\ module_rtx_state Z m' = Some 22.
Proof.
  destruct (GetRtpStates Z rtx_config [(11, 21); (12, 22)] (Some 31))
    as [rtp_states|] eqn:Hget; [|vm_compute in Hget; discriminate].
  destruct (ConfigureSsrcs Z 1 2 rtx_config 97 98 rtp_states
              [unconfigured_module Z; unconfigured_module Z])
    as [configured|] eqn:Hconfigure.
  2: { vm_compute in Hget. injection Hget as <-.
       vm_compute in Hconfigure. discriminate. }
  assert (Hlookup : is_Some (configured !! 1%nat)).
  { vm_compute in Hget. injection Hget as <-.
    vm_compute in Hconfigure. injection Hconfigure as <-. eauto. }
  destruct Hlookup as [m' Hm'].
  exists rtp_states, configured, m'.
  split; [reflexivity|]. split; [exact Hconfigure|]. split; [exact Hm'|].
  destruct (GetRtpStates_ConfigureSsrcs Z 1 2 rtx_config 97 98
              [(11, 21); (12, 22)] (Some 31)
              [unconfigured_module Z; unconfigured_module Z]
              rtp_states configured)
    with (i := 1%nat) (ssrc := 1002) (states := (12, 22)) (m' := m')
    as (_ & Hstate & Hrtx).
  - apply (bool_decide_unpack _). vm_compute. exact I.
  - intros _. apply (bool_decide_unpack _). vm_compute. exact I.
  - reflexivity.
  - reflexivity.
  - right. reflexivity.
  - exact Hget.
  - exact Hconfigure.
  - reflexivity.
  - reflexivity.
  - exact Hm'.
  - split; [exact Hstate|].
    destruct (Hrtx 2002 eq_refl) as [_ Hrtx_state]. exact Hrtx_state.
Defined.

(* The totals of two modules, in either order. *)
Lemma ProtectionRequest_totals_witness :
  ProtectionRequest [(100, 20, 3); (200, 10, 4)]
  = ProtectionRequest [(200, 10, 4); (100, 20, 3)].
Proof.
  apply (ProtectionRequest_totals [(100, 20, 3); (200, 10, 4)]).
  apply perm_swap.
Defined.
